(** * The UDP protocol handler of libavformat (src/libav/libavformat/udp.c)

    A shallow embedding of [udp.c]: the option parsing of [udp_open], the
    socket set-up sequence (resolve, create, reuse, bind, local port,
    multicast membership, buffer sizes, connect), [ff_udp_set_remote_url],
    [ff_udp_get_local_port] and [udp_close].

    The program talks to the operating system.  Every system call is
    answered by an oracle [OS] that sees the whole history of the
    interaction, and every call is recorded, with its answer, in a trace.
    The properties below are statements about these traces and about the
    [UDPContext] the functions leave behind. *)

From Stdlib Require Import ZArith List String Ascii Bool Lia DecimalString.
From Equations Require Import Equations.
Import ListNotations.
Local Open Scope string_scope.
Local Open Scope list_scope.
Local Open Scope Z_scope.

Set Implicit Arguments.

(* ===================================================================== *)
(** ** C integers and C strings *)
(* ===================================================================== *)

Module C.

(** [int] is 32 bits wide, [long] 64 bits (LP64). *)
Definition INT_MIN : Z := - 2 ^ 31.
Definition INT_MAX : Z := 2 ^ 31 - 1.
Definition LONG_MIN : Z := - 2 ^ 63.
Definition LONG_MAX : Z := 2 ^ 63 - 1.

(** Conversion of a [long] to [int]: the value wraps modulo 2^32. *)
Definition to_int (z : Z) : Z := (z + 2 ^ 31) mod 2 ^ 32 - 2 ^ 31.

(** A C condition: an [int] is true when it is not zero. *)
Definition truthy (z : Z) : bool := negb (z =? 0).

(** [!x] *)
Definition lnot (z : Z) : Z := if z =? 0 then 1 else 0.

Definition isspace (c : ascii) : bool :=
  let n := nat_of_ascii c in
  (Nat.eqb n 32 || (Nat.leb 9 n && Nat.leb n 13))%bool.

Definition digit_of (c : ascii) : option Z :=
  let n := nat_of_ascii c in
  if (Nat.leb 48 n && Nat.leb n 57)%bool then Some (Z.of_nat n - 48) else None.

Fixpoint skip_spaces (s : string) : string :=
  match s with
  | String c r => if isspace c then skip_spaces r else s
  | EmptyString => s
  end.

(** The digits at the head of [s], accumulated in base 10: the value and
    the number of characters read. *)
Fixpoint read_digits (s : string) (acc : Z) (n : nat) : Z * nat :=
  match s with
  | String c r =>
      match digit_of c with
      | Some d => read_digits r (10 * acc + d) (S n)
      | None => (acc, n)
      end
  | EmptyString => (acc, n)
  end.

Definition clamp_long (z : Z) : Z :=
  if z <? LONG_MIN then LONG_MIN else if LONG_MAX <? z then LONG_MAX else z.

(** [strtol(s, &endptr, 10)]: the value, and the offset of [endptr] from
    [s].  The offset is 0 ([endptr == s]) when no digits were found. *)
Definition strtol (s : string) : Z * nat :=
  let s1 := skip_spaces s in
  let ws := (String.length s - String.length s1)%nat in
  let '(neg, s2, sg) :=
    match s1 with
    | String "-"%char r => (true, r, 1%nat)
    | String "+"%char r => (false, r, 1%nat)
    | _ => (false, s1, 0%nat)
    end in
  let '(v, nd) := read_digits s2 0 0 in
  match nd with
  | O => (0, O)
  | _ => (clamp_long (if neg then - v else v), (ws + sg + nd)%nat)
  end.

(** [x = strtol(buf, NULL, 10)] where [x] is an [int]. *)
Definition strtol_int (s : string) : Z := to_int (fst (strtol s)).

(** [strchr(s, c)]: the offset of the first [c] in [s], or [None] for
    the null pointer. *)
Fixpoint strchr (s : string) (c : ascii) : option nat :=
  match s with
  | String d r =>
      if Ascii.eqb d c then Some O
      else match strchr r c with Some n => Some (S n) | None => None end
  | EmptyString => None
  end.

(** The string that starts [n] characters into [s]. *)
Fixpoint drop (n : nat) (s : string) : string :=
  match n, s with
  | O, _ => s
  | S m, String _ r => drop m r
  | S _, EmptyString => EmptyString
  end.

(** The first [n] characters of [s]: [s] after a ['\0'] was stored at
    offset [n]. *)
Fixpoint take (n : nat) (s : string) : string :=
  match n, s with
  | O, _ => EmptyString
  | S m, String c r => String c (take m r)
  | S _, EmptyString => EmptyString
  end.

(** [s[0]], ['\0'] for the empty string. *)
Definition head (s : string) : ascii :=
  match s with String c _ => c | EmptyString => zero end.

(** [snprintf(buf, n, "%d", z)] for a buffer that is large enough. *)
Definition itoa (z : Z) : string := NilZero.string_of_int (Z.to_int z).

End C.

(* ===================================================================== *)
(** ** Constants of the headers *)
(* ===================================================================== *)

(** Modelled from the spec: the headers that define these constants
    ([avio.h], [log.h], [error.h] and the socket headers) are not among
    the sources.  The modes of open are "read" and "write", two bits of
    [flags]; the numeric values are the usual ones of libav and of
    Linux. *)
Definition AVIO_FLAG_READ : Z := 1.
Definition AVIO_FLAG_WRITE : Z := 2.
Definition AVIO_FLAG_NONBLOCK : Z := 8.

Definition AV_LOG_ERROR : Z := 16.
Definition AV_LOG_WARNING : Z := 24.

Definition EIO : Z := 5.
Definition ENOENT : Z := 2.
Definition EINVAL : Z := 22.
Definition ENOSYS : Z := 38.
Definition AVERROR (e : Z) : Z := - e.

Definition AF_UNSPEC : Z := 0.
Definition AF_INET : Z := 2.
Definition AF_INET6 : Z := 10.
Definition SOCK_DGRAM : Z := 2.
Definition AI_PASSIVE : Z := 1.
Definition AI_NUMERICHOST : Z := 4.
Definition IPPROTO_IP : Z := 0.
Definition IPPROTO_IPV6 : Z := 41.
Definition SOL_SOCKET : Z := 1.

Definition UDP_TX_BUF_SIZE : Z := 32768.
Definition UDP_MAX_PKT_SIZE : Z := 65536.

(** [FF_ARRAY_ELEMS(sources)] for [char *sources[32]]. *)
Definition SOURCES_ELEMS : Z := 32.

(** [flags & bit] as a C condition. *)
Definition has_flag (flags bit : Z) : bool := C.truthy (Z.land flags bit).

(* ===================================================================== *)
(** ** Data *)
(* ===================================================================== *)

(** A socket address: family, port and the address bits. *)
Record sockaddr := mk_sockaddr {
  sa_family : Z;
  sa_port : Z;
  sa_addr : Z
}.

Definition sockaddr_zero : sockaddr := mk_sockaddr 0 0 0.

Record addrinfo := mk_addrinfo {
  ai_family : Z;
  ai_addr : sockaddr;
  ai_addrlen : Z
}.

(** [UDPContext] *)
Record UDPContext := mk_UDPContext {
  udp_fd : Z;
  ttl : Z;
  buffer_size : Z;
  is_multicast : Z;
  local_port : Z;
  reuse_socket : Z;
  dest_addr : sockaddr;
  dest_addr_len : Z;
  is_connected : Z
}.

(** The fields of [URLContext] that [udp.c] uses; [priv_data] is the
    [UDPContext]. *)
Record URLContext := mk_URLContext {
  flags : Z;
  is_streamed : Z;
  max_packet_size : Z;
  priv_data : UDPContext
}.

(** The private data as the protocol layer allocates it: zeroed. *)
Definition UDPContext_zero : UDPContext :=
  mk_UDPContext 0 0 0 0 0 0 sockaddr_zero 0 0.

Definition URLContext_new (fl : Z) : URLContext :=
  mk_URLContext fl 0 0 UDPContext_zero.

Definition set_udp_fd v s := mk_UDPContext v (ttl s) (buffer_size s) (is_multicast s) (local_port s) (reuse_socket s) (dest_addr s) (dest_addr_len s) (is_connected s).
Definition set_ttl v s := mk_UDPContext (udp_fd s) v (buffer_size s) (is_multicast s) (local_port s) (reuse_socket s) (dest_addr s) (dest_addr_len s) (is_connected s).
Definition set_buffer_size v s := mk_UDPContext (udp_fd s) (ttl s) v (is_multicast s) (local_port s) (reuse_socket s) (dest_addr s) (dest_addr_len s) (is_connected s).
Definition set_is_multicast v s := mk_UDPContext (udp_fd s) (ttl s) (buffer_size s) v (local_port s) (reuse_socket s) (dest_addr s) (dest_addr_len s) (is_connected s).
Definition set_local_port v s := mk_UDPContext (udp_fd s) (ttl s) (buffer_size s) (is_multicast s) v (reuse_socket s) (dest_addr s) (dest_addr_len s) (is_connected s).
Definition set_reuse_socket v s := mk_UDPContext (udp_fd s) (ttl s) (buffer_size s) (is_multicast s) (local_port s) v (dest_addr s) (dest_addr_len s) (is_connected s).
Definition set_dest_addr v s := mk_UDPContext (udp_fd s) (ttl s) (buffer_size s) (is_multicast s) (local_port s) (reuse_socket s) v (dest_addr_len s) (is_connected s).
Definition set_dest_addr_len v s := mk_UDPContext (udp_fd s) (ttl s) (buffer_size s) (is_multicast s) (local_port s) (reuse_socket s) (dest_addr s) v (is_connected s).
Definition set_is_connected v s := mk_UDPContext (udp_fd s) (ttl s) (buffer_size s) (is_multicast s) (local_port s) (reuse_socket s) (dest_addr s) (dest_addr_len s) v.

Definition set_is_streamed v h := mk_URLContext (flags h) v (max_packet_size h) (priv_data h).
Definition set_max_packet_size v h := mk_URLContext (flags h) (is_streamed h) v (priv_data h).
Definition set_priv_data v h := mk_URLContext (flags h) (is_streamed h) (max_packet_size h) v.

(** The locals of [udp_open] that the option parsing leaves for the rest
    of the function.  [sources] with [num_sources] is a list. *)
Record open_locals := mk_open_locals {
  reuse_specified : Z;
  include : Z;
  sources : list string;
  localaddr : string
}.

Definition num_sources (l : open_locals) : Z := Z.of_nat (List.length (sources l)).

(* ===================================================================== *)
(** ** The operating system *)
(* ===================================================================== *)

(** The answer of a system call that returns 0 or -1 and sets [errno]. *)
Inductive sysres :=
| SysOk
| SysErr (errno : positive).

(** The C return value. *)
Definition sys_ret (r : sysres) : Z :=
  match r with SysOk => 0 | SysErr _ => -1 end.

(** [ff_neterrno()] after the call: [AVERROR(errno)]. *)
Definition sys_neterrno (r : sysres) : Z :=
  match r with SysOk => 0 | SysErr e => AVERROR (Zpos e) end.

Definition sys_failed (r : sysres) : bool :=
  match r with SysOk => false | SysErr _ => true end.

(** The socket options that [udp.c] sets, with their values. *)
Inductive sockopt :=
| SO_REUSEADDR (v : Z)
| SO_SNDBUF (v : Z)
| SO_RCVBUF (v : Z)
| IP_MULTICAST_TTL (v : Z)
| IPV6_MULTICAST_HOPS (v : Z)
| IP_ADD_MEMBERSHIP (group : sockaddr)
| IPV6_ADD_MEMBERSHIP (group : sockaddr)
| IP_DROP_MEMBERSHIP (group : sockaddr)
| IPV6_DROP_MEMBERSHIP (group : sockaddr)
| MCAST_JOIN_SOURCE_GROUP (group source : sockaddr)
| MCAST_BLOCK_SOURCE (group source : sockaddr)
| IP_ADD_SOURCE_MEMBERSHIP (group source : sockaddr)
| IP_BLOCK_SOURCE (group source : sockaddr).

(** One interaction with the world outside, with its answer. *)
Inductive event :=
| EGetaddrinfo (node : option string) (service : string)
               (socktype family aiflags : Z) (res : list addrinfo)
| ESocket (family : Z) (fd : Z)
| ESetsockopt (fd level : Z) (opt : sockopt) (r : sysres)
| EBind (fd : Z) (addr : sockaddr) (len : Z) (r : sysres)
| EGetsockname (fd : Z) (r : option (sockaddr * Z))
| EGetnameinfo (addr : sockaddr) (len : Z) (r : option string)
| EConnect (fd : Z) (addr : sockaddr) (len : Z) (r : sysres)
| ENonblock (fd : Z) (enable : Z)
| EClosesocket (fd : Z)
| EStrdup (s : string) (ok : bool)
| ELog (level : Z) (msg : string).

Definition trace := list event.

(** The operating system (and the allocator) as an oracle: each answer
    may depend on everything that happened before. *)
Record OS := mk_OS {
  os_getaddrinfo : trace -> option string -> string -> Z -> Z -> Z -> list addrinfo;
  os_socket : trace -> Z -> Z;
  os_setsockopt : trace -> Z -> Z -> sockopt -> sysres;
  os_bind : trace -> Z -> sockaddr -> Z -> sysres;
  os_getsockname : trace -> Z -> option (sockaddr * Z);
  os_getnameinfo : trace -> sockaddr -> Z -> option string;
  os_connect : trace -> Z -> sockaddr -> Z -> sysres;
  os_strdup : trace -> string -> bool
}.

(** The functions of libav that [udp.c] calls and that live in other
    files: their results are parameters of the development. *)
Class Libav := mk_Libav {
  (** [av_url_split(NULL, 0, NULL, 0, hostname, size, &port, NULL, 0, uri)]:
      the host name and the port. *)
  av_url_split : nat -> string -> string * Z;
  (** [av_find_info_tag(arg, arg_size, tag, info)]: the return value and
      what it leaves in [arg]. *)
  av_find_info_tag : nat -> string -> string -> Z * string;
  (** [ff_is_multicast_address(addr)] *)
  ff_is_multicast_address : sockaddr -> Z;
  (** [av_strlcpy(dst, src, size)]: what it leaves in [dst]. *)
  av_strlcpy : string -> nat -> string
}.

(** What the build found on the platform: the preprocessor conditions of
    [udp.c]. *)
Class Platform := mk_Platform {
  HAVE_IP_MULTICAST_TTL : bool;
  HAVE_IPV6_MULTICAST_HOPS : bool;
  HAVE_IP_ADD_MEMBERSHIP : bool;
  HAVE_IP_DROP_MEMBERSHIP : bool;
  HAVE_STRUCT_IPV6_MREQ : bool;
  HAVE_STRUCT_GROUP_SOURCE_REQ : bool;
  HAVE_STRUCT_IP_MREQ_SOURCE : bool
}.

(* ===================================================================== *)
(** ** The state and the monad of the embedding *)
(* ===================================================================== *)

(** The [URLContext] that the functions work on, and the history of the
    interaction so far (oldest event first). *)
Record world := mk_world {
  w_h : URLContext;
  w_trace : trace
}.

(** How a computation ends: with a value, or at the label [fail:] of
    [udp_open], where the local [udp_fd] decides whether a socket is to
    be closed. *)
Inductive outcome (A : Type) :=
| Done (a : A)
| GotoFail (udp_fd : Z).
Arguments Done {A} a.
Arguments GotoFail {A} udp_fd.

Definition M (A : Type) : Type := world -> outcome A * world.

Definition ret {A} (a : A) : M A := fun w => (Done a, w).

Definition bind {A B} (m : M A) (k : A -> M B) : M B :=
  fun w =>
    match m w with
    | (Done a, w') => k a w'
    | (GotoFail fd, w') => (GotoFail fd, w')
    end.

Definition goto_fail {A} (udp_fd : Z) : M A := fun w => (GotoFail udp_fd, w).

Declare Scope udp_scope.
Delimit Scope udp_scope with udp.
Notation "x <- c1 ;; c2" := (bind c1 (fun x => c2))
  (at level 61, c1 at next level, right associativity) : udp_scope.
Notation "' pat <- c1 ;; c2" := (bind c1 (fun pat => c2))
  (at level 61, pat pattern, c1 at next level, right associativity) : udp_scope.
Notation "c1 ;; c2" := (bind c1 (fun _ => c2))
  (at level 61, right associativity) : udp_scope.
Local Open Scope udp_scope.

Definition when (b : bool) (m : M unit) : M unit := if b then m else ret tt.

Definition get_h : M URLContext := fun w => (Done (w_h w), w).
Definition get_s : M UDPContext := fun w => (Done (priv_data (w_h w)), w).
Definition modify_h (f : URLContext -> URLContext) : M unit :=
  fun w => (Done tt, mk_world (f (w_h w)) (w_trace w)).
Definition modify_s (f : UDPContext -> UDPContext) : M unit :=
  modify_h (fun h => set_priv_data (f (priv_data h)) h).

(** Record an event at the end of the history. *)
Definition emit (e : event) : M unit :=
  fun w => (Done tt, mk_world (w_h w) (w_trace w ++ [e])).

(** The value of a test together with the evidence of what it is, for
    the loop whose termination depends on it. *)
Definition inspect {A} (a : A) : {b : A | a = b} := exist _ a eq_refl.

(** The [service] that [udp_resolve_host] hands to [getaddrinfo] (lines
    151-156). *)
Definition service_of (port : Z) : string :=
  if 0 <? port then C.itoa port else "0"%string.

(** The [node] that [udp_resolve_host] hands to [getaddrinfo] (lines
    151, 157-159): no node for a null, empty or ['?']-headed host name. *)
Definition node_of (hostname : option string) : option string :=
  match hostname with
  | Some hn =>
      if (negb (Ascii.eqb (C.head hn) zero)
          && negb (Ascii.eqb (C.head hn) "?"%char))%bool
      then Some hn else None
  | None => None
  end.

(** Ask the oracle, and record the question with its answer. *)
Definition ask {A} (answer : trace -> A) (ev : A -> event) : M A :=
  fun w =>
    let a := answer (w_trace w) in
    (Done a, mk_world (w_h w) (w_trace w ++ [ev a])).

Section Program.

Context {libav : Libav} {platform : Platform} (os : OS).

(** *** System calls *)

Definition sys_getaddrinfo (node : option string) (service : string)
    (socktype family aiflags : Z) : M (list addrinfo) :=
  ask (fun tr => os_getaddrinfo os tr node service socktype family aiflags)
      (EGetaddrinfo node service socktype family aiflags).

Definition sys_socket (family : Z) : M Z :=
  ask (fun tr => os_socket os tr family) (ESocket family).

Definition sys_setsockopt (fd level : Z) (opt : sockopt) : M sysres :=
  ask (fun tr => os_setsockopt os tr fd level opt) (ESetsockopt fd level opt).

Definition sys_bind (fd : Z) (addr : sockaddr) (len : Z) : M sysres :=
  ask (fun tr => os_bind os tr fd addr len) (EBind fd addr len).

Definition sys_getsockname (fd : Z) : M (option (sockaddr * Z)) :=
  ask (fun tr => os_getsockname os tr fd) (EGetsockname fd).

Definition sys_getnameinfo (addr : sockaddr) (len : Z) : M (option string) :=
  ask (fun tr => os_getnameinfo os tr addr len) (EGetnameinfo addr len).

Definition sys_connect (fd : Z) (addr : sockaddr) (len : Z) : M sysres :=
  ask (fun tr => os_connect os tr fd addr len) (EConnect fd addr len).

Definition closesocket (fd : Z) : M unit := emit (EClosesocket fd).

Definition ff_socket_nonblock (fd enable : Z) : M unit :=
  emit (ENonblock fd enable).

(** [av_strdup(s)]: [true] when the copy was allocated. *)
Definition av_strdup (s : string) : M bool :=
  ask (fun tr => os_strdup os tr s) (EStrdup s).

Definition av_log (level : Z) (msg : string) : M unit := emit (ELog level msg).

(** [log_net_error(ctx, level, prefix)] (lines 58-63): the text of the
    error number is left out of the recorded message. *)
Definition log_net_error (level : Z) (prefix : string) : M unit :=
  av_log level prefix.

(** *** [udp_set_multicast_ttl] (lines 65-85) *)
Definition udp_set_multicast_ttl (sockfd mcastTTL : Z) (addr : sockaddr) : M Z :=
  r4 <- (if (HAVE_IP_MULTICAST_TTL && (sa_family addr =? AF_INET))%bool then
           r <- sys_setsockopt sockfd IPPROTO_IP (IP_MULTICAST_TTL mcastTTL) ;;
           if sys_ret r <? 0 then
             log_net_error AV_LOG_ERROR "setsockopt(IP_MULTICAST_TTL)" ;;
             ret (Some (-1))
           else ret None
         else ret None) ;;
  match r4 with
  | Some code => ret code
  | None =>
      if (HAVE_IPV6_MULTICAST_HOPS && (sa_family addr =? AF_INET6))%bool then
        r <- sys_setsockopt sockfd IPPROTO_IPV6 (IPV6_MULTICAST_HOPS mcastTTL) ;;
        if sys_ret r <? 0 then
          log_net_error AV_LOG_ERROR "setsockopt(IPV6_MULTICAST_HOPS)" ;;
          ret (-1)
        else ret 0
      else ret 0
  end.

(** *** [udp_join_multicast_group] (lines 87-114) *)
Definition udp_join_multicast_group (sockfd : Z) (addr : sockaddr) : M Z :=
  r4 <- (if (HAVE_IP_ADD_MEMBERSHIP && (sa_family addr =? AF_INET))%bool then
           r <- sys_setsockopt sockfd IPPROTO_IP (IP_ADD_MEMBERSHIP addr) ;;
           if sys_ret r <? 0 then
             log_net_error AV_LOG_ERROR "setsockopt(IP_ADD_MEMBERSHIP)" ;;
             ret (Some (-1))
           else ret None
         else ret None) ;;
  match r4 with
  | Some code => ret code
  | None =>
      if (HAVE_STRUCT_IPV6_MREQ && (sa_family addr =? AF_INET6))%bool then
        r <- sys_setsockopt sockfd IPPROTO_IPV6 (IPV6_ADD_MEMBERSHIP addr) ;;
        if sys_ret r <? 0 then
          log_net_error AV_LOG_ERROR "setsockopt(IPV6_ADD_MEMBERSHIP)" ;;
          ret (-1)
        else ret 0
      else ret 0
  end.

(** *** [udp_leave_multicast_group] (lines 116-143) *)
Definition udp_leave_multicast_group (sockfd : Z) (addr : sockaddr) : M Z :=
  r4 <- (if (HAVE_IP_DROP_MEMBERSHIP && (sa_family addr =? AF_INET))%bool then
           r <- sys_setsockopt sockfd IPPROTO_IP (IP_DROP_MEMBERSHIP addr) ;;
           if sys_ret r <? 0 then
             log_net_error AV_LOG_ERROR "setsockopt(IP_DROP_MEMBERSHIP)" ;;
             ret (Some (-1))
           else ret None
         else ret None) ;;
  match r4 with
  | Some code => ret code
  | None =>
      if (HAVE_STRUCT_IPV6_MREQ && (sa_family addr =? AF_INET6))%bool then
        r <- sys_setsockopt sockfd IPPROTO_IPV6 (IPV6_DROP_MEMBERSHIP addr) ;;
        if sys_ret r <? 0 then
          log_net_error AV_LOG_ERROR "setsockopt(IPV6_DROP_MEMBERSHIP)" ;;
          ret (-1)
        else ret 0
      else ret 0
  end.

(** *** [udp_resolve_host] (lines 145-169)

    [hostname] may be the null pointer.  The result is the list that
    [getaddrinfo] returned, empty for [NULL]. *)
Definition udp_resolve_host (hostname : option string) (port : Z)
    (type family aiflags : Z) : M (list addrinfo) :=
  let service := service_of port in
  let node := node_of hostname in
  res <- sys_getaddrinfo node service type family aiflags ;;
  match res with
  | [] => av_log AV_LOG_ERROR "udp_resolve_host" ;; ret []
  | _ => ret res
  end.

(** *** [udp_set_multicast_sources] (lines 171-243)

    The array [sources] with its count [nb_sources] is a list.  The
    first loop is the one compiled when the platform has
    [struct group_source_req]. *)
Fixpoint set_sources_generic (sockfd : Z) (addr : sockaddr) (addr_len : Z)
    (sources : list string) (include : Z) : M Z :=
  match sources with
  | [] => ret 0
  | src :: rest =>
      let level := if sa_family addr =? AF_INET then IPPROTO_IP else IPPROTO_IPV6 in
      sourceaddr <- udp_resolve_host (Some src) 0 SOCK_DGRAM AF_UNSPEC AI_NUMERICHOST ;;
      match sourceaddr with
      | [] => ret (AVERROR ENOENT)
      | ai :: _ =>
          r <- sys_setsockopt sockfd level
                 (if C.truthy include
                  then MCAST_JOIN_SOURCE_GROUP addr (ai_addr ai)
                  else MCAST_BLOCK_SOURCE addr (ai_addr ai)) ;;
          if sys_ret r <? 0 then
            (if C.truthy include
             then log_net_error AV_LOG_ERROR "setsockopt(MCAST_JOIN_SOURCE_GROUP)"
             else log_net_error AV_LOG_ERROR "setsockopt(MCAST_BLOCK_SOURCE)") ;;
            ret (sys_neterrno r)
          else set_sources_generic sockfd addr addr_len rest include
      end
  end.

(** The loop of the IPv4-only variant (lines 210-238). *)
Fixpoint set_sources_ipv4 (sockfd : Z) (addr : sockaddr)
    (sources : list string) (include : Z) : M Z :=
  match sources with
  | [] => ret 0
  | src :: rest =>
      sourceaddr <- udp_resolve_host (Some src) 0 SOCK_DGRAM AF_UNSPEC AI_NUMERICHOST ;;
      match sourceaddr with
      | [] => ret (AVERROR ENOENT)
      | ai :: _ =>
          if negb (sa_family (ai_addr ai) =? AF_INET) then
            av_log AV_LOG_ERROR (src ++ " is of incorrect protocol family")%string ;;
            ret (AVERROR EINVAL)
          else
            r <- sys_setsockopt sockfd IPPROTO_IP
                   (if C.truthy include
                    then IP_ADD_SOURCE_MEMBERSHIP addr (ai_addr ai)
                    else IP_BLOCK_SOURCE addr (ai_addr ai)) ;;
            if sys_ret r <? 0 then
              (if C.truthy include
               then log_net_error AV_LOG_ERROR "setsockopt(IP_ADD_SOURCE_MEMBERSHIP)"
               else log_net_error AV_LOG_ERROR "setsockopt(IP_BLOCK_SOURCE)") ;;
              ret (sys_neterrno r)
            else set_sources_ipv4 sockfd addr rest include
      end
  end.

Definition udp_set_multicast_sources (sockfd : Z) (addr : sockaddr)
    (addr_len : Z) (sources : list string) (include : Z) : M Z :=
  if HAVE_STRUCT_GROUP_SOURCE_REQ then
    set_sources_generic sockfd addr addr_len sources include
  else if HAVE_STRUCT_IP_MREQ_SOURCE then
    if negb (sa_family addr =? AF_INET) then
      av_log AV_LOG_ERROR "Setting multicast sources only supported for IPv4" ;;
      ret (AVERROR EINVAL)
    else set_sources_ipv4 sockfd addr sources include
  else ret (AVERROR ENOSYS).

(** *** [udp_set_url] (lines 244-257)

    Returns the C return value and the contents of [*addr] after the
    call. *)
Definition udp_set_url (addr : sockaddr) (hostname : string) (port : Z)
    : M (Z * sockaddr) :=
  res0 <- udp_resolve_host (Some hostname) port SOCK_DGRAM AF_UNSPEC 0 ;;
  match res0 with
  | [] => ret (AVERROR EIO, addr)
  | ai :: _ => ret (ai_addrlen ai, ai_addr ai)
  end.

(** The loop over the candidates of [udp_socket_create] (lines 272-276):
    the last value of [udp_fd] and the value of [res] when the loop is
    left. *)
Fixpoint socket_loop (res : list addrinfo) (udp_fd : Z) : M (Z * list addrinfo) :=
  match res with
  | [] => ret (udp_fd, [])
  | ai :: rest =>
      fd <- sys_socket (ai_family ai) ;;
      if negb (fd =? -1) then ret (fd, res)
      else log_net_error AV_LOG_ERROR "socket" ;; socket_loop rest fd
  end.

(** *** [udp_socket_create] (lines 259-294)

    Returns the C return value and the contents of [*addr] and
    [*addr_len] after the call ([addr0], [addr_len0] before it). *)
Definition udp_socket_create (addr0 : sockaddr) (addr_len0 : Z)
    (localaddr : string) : M (Z * sockaddr * Z) :=
  s <- get_s ;;
  let family :=
    if C.truthy (sa_family (dest_addr s)) then sa_family (dest_addr s)
    else AF_UNSPEC in
  res0 <- udp_resolve_host
            (if Ascii.eqb (C.head localaddr) zero then None else Some localaddr)
            (local_port s) SOCK_DGRAM family AI_PASSIVE ;;
  let fail (udp_fd : Z) : M (Z * sockaddr * Z) :=
    when (0 <=? udp_fd) (closesocket udp_fd) ;;
    ret (-1, addr0, addr_len0) in
  match res0 with
  | [] => fail (-1)
  | _ =>
      ' (udp_fd, res) <- socket_loop res0 (-1) ;;
      if udp_fd <? 0 then fail udp_fd
      else
        match res with
        | ai :: _ => ret (udp_fd, ai_addr ai, ai_addrlen ai)
        | [] => fail udp_fd (* not reached: the loop ends with -1 *)
        end
  end.

(** *** [udp_port] (lines 296-307) *)
Definition udp_port (addr : sockaddr) (addr_len : Z) : M Z :=
  sbuf <- sys_getnameinfo addr addr_len ;;
  match sbuf with
  | None => av_log AV_LOG_ERROR "getnameinfo" ;; ret (-1)
  | Some sb => ret (C.strtol_int sb)
  end.

(** *** [ff_udp_set_remote_url] (lines 325-357) *)
Definition ff_udp_set_remote_url (uri : string) : M Z :=
  let '(hostname, port) := av_url_split 256 uri in
  s <- get_s ;;
  ' (len, addr) <- udp_set_url (dest_addr s) hostname port ;;
  modify_s (set_dest_addr addr) ;;
  modify_s (set_dest_addr_len len) ;;
  if len <? 0 then ret (AVERROR EIO)
  else
    modify_s (set_is_multicast (ff_is_multicast_address addr)) ;;
    match C.strchr uri "?" with
    | Some off =>
        let p := C.drop off uri in
        let '(found, buf) := av_find_info_tag 10 "connect" p in
        if C.truthy found then
          s <- get_s ;;
          let was_connected := is_connected s in
          modify_s (set_is_connected (C.strtol_int buf)) ;;
          s <- get_s ;;
          if (C.truthy (is_connected s) && negb (C.truthy was_connected))%bool then
            r <- sys_connect (udp_fd s) (dest_addr s) (dest_addr_len s) ;;
            if C.truthy (sys_ret r) then
              modify_s (set_is_connected 0) ;;
              log_net_error AV_LOG_ERROR "connect" ;;
              ret (AVERROR EIO)
            else ret 0
          else ret 0
        else ret 0
    | None => ret 0
    end.


(** *** [udp_get_file_handle] (lines 375-379) *)
Definition udp_get_file_handle (h : URLContext) : Z :=
  udp_fd (priv_data h).

(** *** [udp_open] (lines 383-562) *)

(** Lines 443-447 of the loop over the host list: copy one host into
    the next free slot of [sources]; [goto fail] when the copy cannot
    be allocated ([udp_fd] is still -1 there). *)
Definition store_source (item : string) (sources : list string)
    : M (list string) :=
  ok <- av_strdup item ;;
  if ok then ret (sources ++ [item]) else goto_fail (-1).

(** The loop of lines 439-450.  [source_start] is the rest of [buf],
    [sources] the slots filled so far ([num_sources] is its length). *)
Equations? parse_sources (source_start : string) (sources : list string)
    : M (list string) by wf (String.length source_start) lt :=
  parse_sources source_start sources
    with inspect (C.strchr source_start ","%char) := {
    | exist _ (Some next) Hnext =>
        sources' <- store_source (C.take next source_start) sources ;;
        if SOURCES_ELEMS <=? Z.of_nat (List.length sources') then ret sources'
        else parse_sources (C.drop (S next) source_start) sources'
    | exist _ None _ =>
        store_source source_start sources
    }.
Proof.
  clear - Hnext. revert next Hnext.
  induction source_start as [|c r IH]; intros next H; simpl in H; [discriminate|].
  destruct (Ascii.eqb c ","%char).
  - injection H as <-. simpl. lia.
  - destruct (C.strchr r ","%char) as [m|] eqn:E; [|discriminate].
    injection H as <-. specialize (IH m eq_refl). simpl in *. lia.
Qed.

(** Lines 407-432: the options with one value.  Every call of
    [av_find_info_tag] writes the one buffer [buf].  Returns the locals
    [reuse_specified] and [localaddr]. *)
Definition udp_open_plain_options (p : string) : M (Z * string) :=
  let '(found, buf) := av_find_info_tag 256 "reuse" p in
  reuse_specified <-
    (if C.truthy found then
       let '(v, endoff) := C.strtol buf in
       modify_s (set_reuse_socket (C.to_int v)) ;;
       (* assume if no digits were found it is a request to enable it *)
       when (Nat.eqb endoff 0) (modify_s (set_reuse_socket 1)) ;;
       ret 1
     else ret 0) ;;
  let '(found, buf) := av_find_info_tag 256 "ttl" p in
  when (C.truthy found) (modify_s (set_ttl (C.strtol_int buf))) ;;
  let '(found, buf) := av_find_info_tag 256 "localport" p in
  when (C.truthy found) (modify_s (set_local_port (C.strtol_int buf))) ;;
  let '(found, buf) := av_find_info_tag 256 "pkt_size" p in
  when (C.truthy found) (modify_h (set_max_packet_size (C.strtol_int buf))) ;;
  let '(found, buf) := av_find_info_tag 256 "buffer_size" p in
  when (C.truthy found) (modify_s (set_buffer_size (C.strtol_int buf))) ;;
  let '(found, buf) := av_find_info_tag 256 "connect" p in
  when (C.truthy found) (modify_s (set_is_connected (C.strtol_int buf))) ;;
  let '(found, buf) := av_find_info_tag 256 "localaddr" p in
  let localaddr := if C.truthy found then av_strlcpy buf 1024 else ""%string in
  ret (reuse_specified, localaddr).

(** Lines 433-451: the host list of [sources=] or, without it, of
    [block=].  Returns the locals [include] and [sources]. *)
Definition udp_open_source_options (p : string) : M (Z * list string) :=
  let '(found, buf) := av_find_info_tag 256 "sources" p in
  let include := if C.truthy found then 1 else 0 in
  let '(enter, buf) :=
    if C.truthy include then (true, buf)
    else let '(found, buf) := av_find_info_tag 256 "block" p in
         (C.truthy found, buf) in
  sources <- (if enter then parse_sources buf [] else ret []) ;;
  ret (include, sources).

(** Lines 405-452: the options after the ['?'] of the URL. *)
Definition udp_open_options (uri : string) : M open_locals :=
  match C.strchr uri "?"%char with
  | None => ret (mk_open_locals 0 0 [] "")
  | Some off =>
      let p := C.drop off uri in
      ' (reuse_specified, localaddr) <- udp_open_plain_options p ;;
      ' (include, sources) <- udp_open_source_options p ;;
      ret (mk_open_locals reuse_specified include sources localaddr)
  end.

(** Lines 454-465: the destination. *)
Definition udp_open_dest (uri : string) (open_flags : Z) : M Z :=
  let '(hostname, port) := av_url_split 1024 uri in
  (if (Ascii.eqb (C.head hostname) zero || Ascii.eqb (C.head hostname) "?"%char)%bool
   then (* only accepts null hostname if input *)
     when (negb (has_flag open_flags AVIO_FLAG_READ)) (goto_fail (-1))
   else
     r <- ff_udp_set_remote_url uri ;;
     when (r <? 0) (goto_fail (-1))) ;;
  ret port.

(** Lines 473-480: follow the requested reuse option, unless it is
    multicast, in which case enable reuse unless explicitly disabled. *)
Definition udp_open_reuse (udp_fd : Z) (reuse_specified : Z) : M unit :=
  s <- get_s ;;
  when (C.truthy (reuse_socket s)
        || (C.truthy (is_multicast s) && negb (C.truthy reuse_specified)))%bool
    (modify_s (set_reuse_socket 1) ;;
     r <- sys_setsockopt udp_fd SOL_SOCKET (SO_REUSEADDR 1) ;;
     when (negb (sys_ret r =? 0)) (goto_fail udp_fd)).

(** Lines 482-495: bind to the multicast address first when the
    destination is multicast and the context is read-only; bind to the
    local address if that was not done or failed. *)
Definition udp_open_bind (udp_fd : Z) (my_addr : sockaddr) (len : Z) : M unit :=
  s <- get_s ;;
  h <- get_h ;;
  bind_ret <-
    (if (C.truthy (is_multicast s) && negb (has_flag (flags h) AVIO_FLAG_WRITE))%bool
     then r <- sys_bind udp_fd (dest_addr s) len ;; ret (sys_ret r)
     else ret (-1)) ;;
  when (bind_ret <? 0)
    (r <- sys_bind udp_fd my_addr len ;;
     when (sys_ret r <? 0)
       (log_net_error AV_LOG_ERROR "bind failed" ;; goto_fail udp_fd)).

(** [sizeof(struct sockaddr_storage)] *)
Definition SIZEOF_SOCKADDR_STORAGE : Z := 128.

(** Lines 497-499: the local port, from the name of the socket.  The
    return value of [getsockname] is not looked at: when the call
    fails, [my_addr] is what it was. *)
Definition udp_open_local_port (udp_fd : Z) (my_addr : sockaddr) : M unit :=
  let len := SIZEOF_SOCKADDR_STORAGE in
  name <- sys_getsockname udp_fd ;;
  let '(my_addr, len) :=
    match name with Some (a, l) => (a, l) | None => (my_addr, len) end in
  port <- udp_port my_addr len ;;
  modify_s (set_local_port port).

(** Lines 501-525: multicast TTL and group membership. *)
Definition udp_open_multicast (udp_fd : Z) (l : open_locals) : M unit :=
  s <- get_s ;;
  h <- get_h ;;
  when (C.truthy (is_multicast s))
    (when (has_flag (flags h) AVIO_FLAG_WRITE)
       ((* output *)
        r <- udp_set_multicast_ttl udp_fd (ttl s) (dest_addr s) ;;
        when (r <? 0) (goto_fail udp_fd)) ;;
     when (has_flag (flags h) AVIO_FLAG_READ)
       ((* input *)
        if ((num_sources l =? 0) || negb (C.truthy (include l)))%bool then
          r <- udp_join_multicast_group udp_fd (dest_addr s) ;;
          when (r <? 0) (goto_fail udp_fd) ;;
          when (C.truthy (num_sources l))
            (r <- udp_set_multicast_sources udp_fd (dest_addr s)
                    (dest_addr_len s) (sources l) 0 ;;
             when (r <? 0) (goto_fail udp_fd))
        else if (C.truthy (include l) && C.truthy (num_sources l))%bool then
          r <- udp_set_multicast_sources udp_fd (dest_addr s)
                 (dest_addr_len s) (sources l) 1 ;;
          when (r <? 0) (goto_fail udp_fd)
        else
          av_log AV_LOG_ERROR
            "invalid udp settings: inclusive multicast but no sources given" ;;
          goto_fail udp_fd)).

(** Lines 527-543: the size of the socket buffer. *)
Definition udp_open_buffers (udp_fd : Z) (is_output : bool) : M unit :=
  s <- get_s ;;
  let tmp := buffer_size s in
  if is_output then
    (* limit the tx buf size to limit latency *)
    r <- sys_setsockopt udp_fd SOL_SOCKET (SO_SNDBUF tmp) ;;
    when (sys_ret r <? 0)
      (log_net_error AV_LOG_ERROR "setsockopt(SO_SNDBUF)" ;; goto_fail udp_fd)
  else
    r <- sys_setsockopt udp_fd SOL_SOCKET (SO_RCVBUF tmp) ;;
    when (sys_ret r <? 0)
      (log_net_error AV_LOG_WARNING "setsockopt(SO_RECVBUF)") ;;
    (* make the socket non-blocking *)
    ff_socket_nonblock udp_fd 1.

(** Lines 544-549 *)
Definition udp_open_connect (udp_fd : Z) : M unit :=
  s <- get_s ;;
  when (C.truthy (is_connected s))
    (r <- sys_connect udp_fd (dest_addr s) (dest_addr_len s) ;;
     when (C.truthy (sys_ret r))
       (log_net_error AV_LOG_ERROR "connect" ;; goto_fail udp_fd)).

(** The socket is there (lines 473-549). *)
Definition udp_open_socket (udp_fd : Z) (my_addr : sockaddr) (len : Z)
    (l : open_locals) (is_output : bool) : M unit :=
  udp_open_reuse udp_fd (reuse_specified l) ;;
  udp_open_bind udp_fd my_addr len ;;
  udp_open_local_port udp_fd my_addr ;;
  udp_open_multicast udp_fd l ;;
  udp_open_buffers udp_fd is_output ;;
  udp_open_connect udp_fd.

(** Lines 397-403 *)
Definition udp_open_init (open_flags : Z) : M unit :=
  modify_h (set_is_streamed 1) ;;
  modify_h (set_max_packet_size 1472) ;;
  let is_output := negb (has_flag open_flags AVIO_FLAG_READ) in
  modify_s (set_ttl 16) ;;
  modify_s (set_buffer_size (if is_output then UDP_TX_BUF_SIZE else UDP_MAX_PKT_SIZE)).

(** Lines 467-468: a reader of a multicast group, or one without a
    local port, takes the port of the URL as the local port. *)
Definition udp_open_default_port (port : Z) : M unit :=
  s <- get_s ;;
  h <- get_h ;;
  when ((C.truthy (is_multicast s) || (local_port s =? 0))
        && has_flag (flags h) AVIO_FLAG_READ)%bool
    (modify_s (set_local_port port)).

(** Lines 397-549, up to the label [fail]: the value is the local
    [udp_fd].  [open_flags] is the parameter [flags] of [udp_open];
    [flags h] is [h->flags]. *)
Definition udp_open_body (uri : string) (open_flags : Z) : M Z :=
  udp_open_init open_flags ;;
  let is_output := negb (has_flag open_flags AVIO_FLAG_READ) in
  l <- udp_open_options uri ;;
  (* fill the dest addr *)
  port <- udp_open_dest uri open_flags ;;
  udp_open_default_port port ;;
  ' (udp_fd, my_addr, len) <- udp_socket_create sockaddr_zero 0 (localaddr l) ;;
  if udp_fd <? 0 then goto_fail udp_fd
  else
    udp_open_socket udp_fd my_addr len l is_output ;;
    ret udp_fd.

(** [udp_open]: the body, then either lines 551-555 or the label [fail]
    (lines 556-561).  Freeing the copies of the host names is not
    recorded. *)
Definition udp_open (uri : string) (open_flags : Z) : M Z :=
  fun w =>
    match udp_open_body uri open_flags w with
    | (Done udp_fd, w') =>
        (modify_s (set_udp_fd udp_fd) ;; ret 0) w'
    | (GotoFail udp_fd, w') =>
        (when (0 <=? udp_fd) (closesocket udp_fd) ;; ret (AVERROR EIO)) w'
    end.

(** *** [udp_close] (lines 599-607) *)
Definition udp_close : M Z :=
  s <- get_s ;;
  h <- get_h ;;
  when (C.truthy (is_multicast s) && has_flag (flags h) AVIO_FLAG_READ)%bool
    (udp_leave_multicast_group (udp_fd s) (dest_addr s) ;; ret tt) ;;
  closesocket (udp_fd s) ;;
  ret 0.

End Program.

(* ===================================================================== *)
(** ** A reference environment, to run the program on concrete URLs *)
(* ===================================================================== *)

Module Reference.

(** The longest prefix of [s] without a stop character, and the rest. *)
Fixpoint span (stop : ascii -> bool) (s : string) : string * string :=
  match s with
  | String c r =>
      if stop c then (EmptyString, s)
      else let '(a, b) := span stop r in (String c a, b)
  | EmptyString => (EmptyString, EmptyString)
  end.

Fixpoint plus_to_space (s : string) : string :=
  match s with
  | String c r =>
      String (if Ascii.eqb c "+"%char then " "%char else c) (plus_to_space r)
  | EmptyString => EmptyString
  end.

Definition is_eq_or_amp (c : ascii) : bool :=
  (Ascii.eqb c "="%char || Ascii.eqb c "&"%char)%bool.
Definition is_amp (c : ascii) : bool := Ascii.eqb c "&"%char.

(** Modelled from the spec: the body of [av_find_info_tag] is not among
    the sources.  The options are "the substring after [?] in the URL",
    of the form [key=value&...]; a key may come without a value ("[reuse]
    with no value"), and a key that is not asked for is passed over.  The
    loop goes over the pairs, one unit of [fuel] per pair; it returns
    whether the tag was found and the value, cut to the size of the
    buffer. *)
Fixpoint find_info_tag_loop (fuel : nat) (arg_size : nat) (tag1 : string)
    (p : string) : Z * string :=
  match fuel with
  | O => (0, EmptyString)
  | S fuel' =>
      let '(tag, p1) := span is_eq_or_amp p in
      let tag := C.take 127 tag in
      let '(arg, p2) :=
        match p1 with
        | String "="%char r =>
            let '(v, p2) := span is_amp r in
            (plus_to_space (C.take (arg_size - 1) v), p2)
        | _ => (EmptyString, p1)
        end in
      if String.eqb tag tag1 then (1, arg)
      else match p2 with
           | String "&"%char r => find_info_tag_loop fuel' arg_size tag1 r
           | _ => (0, arg)
           end
  end.

Definition av_find_info_tag (arg_size : nat) (tag1 info : string) : Z * string :=
  let p := match info with String "?"%char r => r | _ => info end in
  find_info_tag_loop (S (String.length p)) arg_size tag1 p.

(** Modelled from the spec: the body of [av_strlcpy] is not among the
    sources.  The copy of [localaddr], cut to the size of its buffer. *)
Definition av_strlcpy (src : string) (size : nat) : string :=
  C.take (size - 1) src.

(** Is the offset [a] (if any) before the offset [ls]? *)
Definition before (a : option nat) (ls : nat) : option nat :=
  match a with
  | Some n => if Nat.ltb n ls then Some n else None
  | None => None
  end.

(** Modelled from the spec: the body of [av_url_split] is not among the
    sources.  "URL form: [udp://[host]:port[?key=value&...]]"; the result
    is the host name and the port, -1 without one. *)
Definition av_url_split (hostname_size : nat) (url : string) : string * Z :=
  match C.strchr url ":"%char with
  | None => (EmptyString, -1)
  | Some c =>
      let p := C.drop (S c) url in
      let p := match p with String "/"%char r => r | _ => p end in
      let p := match p with String "/"%char r => r | _ => p end in
      let ls :=
        match C.strchr p "/"%char with
        | Some n => n
        | None => match C.strchr p "?"%char with
                  | Some n => n
                  | None => String.length p
                  end
        end in
      match ls with
      | O => (EmptyString, -1)
      | _ =>
          let '(p, ls) :=
            match before (C.strchr p "@"%char) ls with
            | Some at_ => (C.drop (S at_) p, (ls - S at_)%nat)
            | None => (p, ls)
            end in
          match (if Ascii.eqb (C.head p) "["%char
                 then before (C.strchr p "]"%char) ls else None) with
          | Some brk =>
              (C.take (Nat.min (brk - 1) (hostname_size - 1)) (C.drop 1 p),
               if Ascii.eqb (C.head (C.drop (S brk) p)) ":"%char
               then C.strtol_int (C.drop (S (S brk)) p) else -1)
          | None =>
              match before (C.strchr p ":"%char) ls with
              | Some col =>
                  (C.take (Nat.min col (hostname_size - 1)) p,
                   C.strtol_int (C.drop (S col) p))
              | None => (C.take (Nat.min ls (hostname_size - 1)) p, -1)
              end
          end
      end
  end.

(** Modelled from the spec: the body of [ff_is_multicast_address] is
    not among the sources.  The "isMulticast" of a destination: an IPv4
    address of 224.0.0.0/4, an IPv6 address of ff00::/8. *)
Definition ff_is_multicast_address (addr : sockaddr) : Z :=
  if sa_family addr =? AF_INET then
    if Z.land (sa_addr addr) 0xf0000000 =? 0xe0000000 then 1 else 0
  else if sa_family addr =? AF_INET6 then
    if Z.shiftr (sa_addr addr) 120 =? 0xff then 1 else 0
  else 0.

#[export] Instance libav : Libav :=
  mk_Libav av_url_split av_find_info_tag ff_is_multicast_address av_strlcpy.

(** A build that has every multicast facility. *)
#[export] Instance linux : Platform :=
  mk_Platform true true true true true true true.

(** A build without [struct group_source_req]. *)
Definition ipv4_only : Platform :=
  mk_Platform true true true true true false true.

(** *** A simulated operating system *)

(** [a.b.c.d] *)
Definition dotted_quad (s : string) : option Z :=
  let '(a, r) := span (Ascii.eqb ".") s in
  let '(b, r) := span (Ascii.eqb ".") (C.drop 1 r) in
  let '(c, r) := span (Ascii.eqb ".") (C.drop 1 r) in
  let d := C.drop 1 r in
  let num (t : string) : option Z :=
    let '(v, n) := C.read_digits t 0 0 in
    if (negb (Nat.eqb n 0) && Nat.eqb n (String.length t) && (v <=? 255))%bool
    then Some v else None in
  match num a, num b, num c, num d with
  | Some a, Some b, Some c, Some d => Some (((a * 256 + b) * 256 + c) * 256 + d)
  | _, _, _, _ => None
  end.

Definition sizeof_sockaddr_in : Z := 16.

Definition resolve (node : option string) (service : string)
    (family aiflags : Z) : list addrinfo :=
  let port := C.strtol_int service in
  let v4 (a : Z) :=
    if ((family =? AF_UNSPEC) || (family =? AF_INET))%bool
    then [mk_addrinfo AF_INET (mk_sockaddr AF_INET port a) sizeof_sockaddr_in]
    else [] in
  match node with
  | None => v4 (if C.truthy (Z.land aiflags AI_PASSIVE) then 0 else 0x7f000001)
  | Some n =>
      if String.eqb n "localhost" then
        if C.truthy (Z.land aiflags AI_NUMERICHOST) then [] else v4 0x7f000001
      else match dotted_quad n with Some a => v4 a | None => [] end
  end.

(** The address of the last successful [bind] on [fd]. *)
Fixpoint bound_address (tr : trace) (fd : Z) (acc : option (sockaddr * Z))
    : option (sockaddr * Z) :=
  match tr with
  | [] => acc
  | EBind fd' a l SysOk :: rest =>
      bound_address rest fd (if fd' =? fd then Some (a, l) else acc)
  | _ :: rest => bound_address rest fd acc
  end.

(** The first port that the system hands out when asked for port 0. *)
Definition EPHEMERAL_PORT : Z := 49152.

Definition getsockname (tr : trace) (fd : Z) : option (sockaddr * Z) :=
  match bound_address tr fd None with
  | Some (a, l) =>
      Some (mk_sockaddr (sa_family a)
              (if sa_port a =? 0 then EPHEMERAL_PORT else sa_port a)
              (sa_addr a), l)
  | None => None
  end.

(** Everything succeeds. *)
Definition sim_os : OS :=
  mk_OS (fun _ node service _ family aiflags => resolve node service family aiflags)
        (fun _ _ => 3)
        (fun _ _ _ _ => SysOk)
        (fun _ _ _ _ => SysOk)
        getsockname
        (fun _ a _ => Some (C.itoa (sa_port a)))
        (fun _ _ _ _ => SysOk)
        (fun _ _ => true).

(** [sim_os] with other answers to [setsockopt], [bind] and [connect]. *)
Definition sim_os_with
    (setsockopt : trace -> Z -> Z -> sockopt -> sysres)
    (bind : trace -> Z -> sockaddr -> Z -> sysres)
    (connect : trace -> Z -> sockaddr -> Z -> sysres) : OS :=
  mk_OS (os_getaddrinfo sim_os) (os_socket sim_os) setsockopt bind
        (os_getsockname sim_os) (os_getnameinfo sim_os) connect
        (os_strdup sim_os).

(** The world before [udp_open]: a fresh context with [h->flags] set,
    and no history. *)
Definition fresh (fl : Z) : world := mk_world (URLContext_new fl) [].

(** [udp_open] on a fresh context, as the protocol layer calls it (with
    [h->flags] for [flags]). *)
Definition run_open (os : OS) (uri : string) (fl : Z) : outcome Z * world :=
  udp_open os uri fl (fresh fl).

End Reference.

(* ===================================================================== *)
(** ** Reasoning about runs *)
(* ===================================================================== *)

Unset Implicit Arguments.

(** The message of line 521. *)
Definition invalid_settings : string :=
  "invalid udp settings: inclusive multicast but no sources given".

(** The kinds of events: what a block of the program may do.  [KLocal]
    is the lookup of the local address (with [AI_PASSIVE]), [KResolve]
    every other lookup, [KInvalid] the message of line 521 and [KLog]
    every other message. *)
Inductive kind :=
| KLocal | KResolve | KSocket | KReuse | KBind | KName | KTtl | KJoin | KLeave
| KSourceJoin | KSourceBlock | KSndbuf | KRcvbuf | KConnect | KNonblock
| KClose | KAlloc | KLog | KInvalid.

Definition kind_of_sockopt (o : sockopt) : kind :=
  match o with
  | SO_REUSEADDR _ => KReuse
  | SO_SNDBUF _ => KSndbuf
  | SO_RCVBUF _ => KRcvbuf
  | IP_MULTICAST_TTL _ | IPV6_MULTICAST_HOPS _ => KTtl
  | IP_ADD_MEMBERSHIP _ | IPV6_ADD_MEMBERSHIP _ => KJoin
  | IP_DROP_MEMBERSHIP _ | IPV6_DROP_MEMBERSHIP _ => KLeave
  | MCAST_JOIN_SOURCE_GROUP _ _ | IP_ADD_SOURCE_MEMBERSHIP _ _ => KSourceJoin
  | MCAST_BLOCK_SOURCE _ _ | IP_BLOCK_SOURCE _ _ => KSourceBlock
  end.

Definition kind_of (e : event) : kind :=
  match e with
  | EGetaddrinfo _ _ _ _ aiflags _ =>
      if aiflags =? AI_PASSIVE then KLocal else KResolve
  | ESocket _ _ => KSocket
  | ESetsockopt _ _ o _ => kind_of_sockopt o
  | EBind _ _ _ _ => KBind
  | EGetsockname _ _ | EGetnameinfo _ _ _ => KName
  | EConnect _ _ _ _ => KConnect
  | ENonblock _ _ => KNonblock
  | EClosesocket _ => KClose
  | EStrdup _ _ => KAlloc
  | ELog _ msg => if String.eqb msg invalid_settings then KInvalid else KLog
  end.

Definition kind_eqb (a b : kind) : bool :=
  match a, b with
  | KLocal, KLocal | KResolve, KResolve | KSocket, KSocket | KReuse, KReuse | KBind, KBind
  | KName, KName | KTtl, KTtl | KJoin, KJoin | KLeave, KLeave
  | KSourceJoin, KSourceJoin | KSourceBlock, KSourceBlock
  | KSndbuf, KSndbuf | KRcvbuf, KRcvbuf | KConnect, KConnect
  | KNonblock, KNonblock | KClose, KClose | KAlloc, KAlloc | KLog, KLog
  | KInvalid, KInvalid => true
  | _, _ => false
  end.

(** The last character of a string, [d] for the empty string. *)
Fixpoint last_char (s : string) (d : ascii) : ascii :=
  match s with
  | EmptyString => d
  | String c r => last_char r c
  end.

Lemma last_char_app a b d :
  b <> EmptyString -> last_char (a ++ b)%string d = last_char b d.
Proof.
  intros Hb. revert d. induction a as [|c a IH]; intros d; simpl; [reflexivity|].
  rewrite IH. destruct b; [congruence | reflexivity].
Qed.

(** The message about the family of a source is not the one of line 521. *)
Lemma family_message_kind lvl src :
  kind_of (ELog lvl (src ++ " is of incorrect protocol family")%string) = KLog.
Proof.
  unfold kind_of.
  destruct (String.eqb_spec (src ++ " is of incorrect protocol family")%string
              invalid_settings) as [E|]; [|reflexivity].
  apply (f_equal (fun s => last_char s " "%char)) in E.
  rewrite last_char_app in E by discriminate. vm_compute in E. discriminate E.
Qed.

Lemma kind_eqb_eq a b : kind_eqb a b = true <-> a = b.
Proof. split; [destruct a, b; simpl; congruence | intros ->; destruct b; reflexivity]. Qed.

(** [e] is of one of the kinds [ks]. *)
Definition of_kinds (ks : list kind) (e : event) : bool :=
  existsb (kind_eqb (kind_of e)) ks.

(** The events of kind [k] in a trace. *)
Definition select (k : kind) (tr : trace) : trace :=
  filter (fun e => kind_eqb (kind_of e) k) tr.

(** [w'] comes after [w]: the history grew by events of the kinds [ks],
    and the part [view] of the context is what it was. *)
Definition frame (ks : list kind) {X} (view : URLContext -> X) (w w' : world) : Prop :=
  (exists evs, w_trace w' = w_trace w ++ evs /\ forallb (of_kinds ks) evs = true)
  /\ view (w_h w') = view (w_h w).

Lemma frame_refl ks X (view : URLContext -> X) w : frame ks view w w.
Proof. split; [exists []; rewrite app_nil_r; auto | reflexivity]. Qed.

Lemma frame_trans ks X (view : URLContext -> X) w1 w2 w3 :
  frame ks view w1 w2 -> frame ks view w2 w3 -> frame ks view w1 w3.
Proof.
  intros [[e1 [T1 K1]] V1] [[e2 [T2 K2]] V2]. split.
  - exists (e1 ++ e2). rewrite T2, T1, app_assoc, forallb_app, K1, K2. auto.
  - congruence.
Qed.

Lemma of_kinds_incl ks ks' e :
  incl ks ks' -> of_kinds ks e = true -> of_kinds ks' e = true.
Proof.
  unfold of_kinds. intros I H. apply existsb_exists in H as [k [Hin Hk]].
  apply existsb_exists. exists k. split; auto.
Qed.

Lemma frame_weaken ks ks' X Y (view : URLContext -> X) (view' : URLContext -> Y) w w' :
  incl ks ks' ->
  (forall h h', view h' = view h -> view' h' = view' h) ->
  frame ks view w w' -> frame ks' view' w w'.
Proof.
  intros I V [[evs [T K]] E]. split; [|auto].
  exists evs. split; [assumption|].
  rewrite forallb_forall in *. intros e He. eapply of_kinds_incl; eauto.
Qed.

(** A computation obeys [R] and [F] when every run of it relates the
    worlds before and after by [R], and when it goes to [fail] only with
    a [udp_fd] that satisfies [F]. *)
Definition obeys {A} (R : world -> world -> Prop) (F : Z -> Prop) (m : M A) : Prop :=
  forall w o w', m w = (o, w') ->
    R w w' /\ match o with GotoFail fd => F fd | Done _ => True end.

Definition never (_ : Z) : Prop := False.

Section Obeys.

Variable R : world -> world -> Prop.
Variable F : Z -> Prop.
Hypothesis R_refl : forall w, R w w.
Hypothesis R_trans : forall w1 w2 w3, R w1 w2 -> R w2 w3 -> R w1 w3.

Lemma obeys_ret {A} (a : A) : obeys R F (ret a).
Proof. intros w o w' H. inversion H; subst. auto. Qed.

Lemma obeys_goto_fail {A} fd : F fd -> obeys R F (@goto_fail A fd).
Proof. intros Hf w o w' H. inversion H; subst. auto. Qed.

Lemma obeys_bind {A B} (m : M A) (k : A -> M B) :
  obeys R F m -> (forall a, obeys R F (k a)) -> obeys R F (bind m k).
Proof.
  intros Hm Hk w o w' H. unfold bind in H.
  destruct (m w) as [[a|fd] w1] eqn:E; apply Hm in E as [R1 F1].
  - apply Hk in H as [R2 F2]. eauto.
  - inversion H; subst. auto.
Qed.

Lemma obeys_when b (m : M unit) : obeys R F m -> obeys R F (when b m).
Proof. destruct b; simpl; auto using obeys_ret. Qed.

Lemma obeys_get_h : obeys R F get_h.
Proof. intros w o w' H. inversion H; subst. auto. Qed.

Lemma obeys_get_s : obeys R F get_s.
Proof. intros w o w' H. inversion H; subst. auto. Qed.

Lemma obeys_modify_h f :
  (forall w, R w (mk_world (f (w_h w)) (w_trace w))) -> obeys R F (modify_h f).
Proof. intros Hf w o w' H. inversion H; subst. auto. Qed.

Lemma obeys_emit e :
  (forall w, R w (mk_world (w_h w) (w_trace w ++ [e]))) -> obeys R F (emit e).
Proof. intros Hf w o w' H. inversion H; subst. auto. Qed.

Lemma obeys_ask {A} (answer : trace -> A) (ev : A -> event) :
  (forall w a, R w (mk_world (w_h w) (w_trace w ++ [ev a]))) ->
  obeys R F (ask answer ev).
Proof. intros Hf w o w' H. inversion H; subst. auto. Qed.

End Obeys.

Lemma obeys_weaken A (R R' : world -> world -> Prop) (F F' : Z -> Prop) (m : M A) :
  (forall w w', R w w' -> R' w w') -> (forall fd, F fd -> F' fd) ->
  obeys R F m -> obeys R' F' m.
Proof.
  intros HR HF H w o w' E. apply H in E as [r f]. split; auto.
  destruct o; auto.
Qed.

Lemma frame_event ks X (view : URLContext -> X) w e :
  of_kinds ks e = true -> frame ks view w (mk_world (w_h w) (w_trace w ++ [e])).
Proof. intros K. split; [exists [e]; simpl; rewrite K; auto | reflexivity]. Qed.

Lemma frame_modify ks X (view : URLContext -> X) w f :
  view (f (w_h w)) = view (w_h w) -> frame ks view w (mk_world (f (w_h w)) (w_trace w)).
Proof. intros V. split; [exists []; simpl; rewrite app_nil_r; auto | exact V]. Qed.

(** Every kind of [ks0] is among [ks]. *)
Definition covers (ks ks0 : list kind) : bool :=
  forallb (fun k => existsb (kind_eqb k) ks) ks0.

Lemma covers_of_kinds ks ks0 e :
  covers ks ks0 = true -> of_kinds ks0 e = true -> of_kinds ks e = true.
Proof.
  unfold covers, of_kinds. intros C H.
  apply existsb_exists in H as [k [Hin Hk]]. apply kind_eqb_eq in Hk. subst k.
  rewrite forallb_forall in C. apply C in Hin. exact Hin.
Qed.

(** A computation that leaves the context alone, never goes to [fail]
    and makes only calls of the kinds [ks0] fits in every frame that
    allows these kinds. *)
Lemma obeys_lift A (m : M A) ks0 ks X (view : URLContext -> X) F :
  obeys (frame ks0 (fun h => h)) never m ->
  covers ks ks0 = true ->
  obeys (frame ks view) F m.
Proof.
  intros H C. eapply obeys_weaken; [| |exact H].
  - intros w w' [[evs [T K]] V]. split.
    + exists evs. split; [assumption|]. rewrite forallb_forall in *.
      intros e He. eapply covers_of_kinds; eauto.
    + simpl in V. rewrite V. reflexivity.
  - intros fd [].
Qed.

(** The test that guards the message "inclusive multicast but no
    sources given" (lines 509, 517 and 520): when the first test fails,
    the second one holds, whatever the values are. *)
Lemma invalid_settings_unreachable (include num_sources : Z) :
  ((num_sources =? 0) || negb (C.truthy include))%bool = false ->
  (C.truthy include && C.truthy num_sources)%bool = true.
Proof.
  unfold C.truthy. destruct (num_sources =? 0), (include =? 0); simpl; congruence.
Qed.

Create HintDb frames.

Ltac ob_refl := intros; apply frame_refl.
Ltac ob_trans := intros; eapply frame_trans; eassumption.
Ltac ob_event :=
  intros; apply frame_event;
  repeat match goal with
         | |- context [if ?b then _ else _] => destruct b
         end;
  reflexivity.

Ltac ob_step :=
  lazymatch goal with
  | |- obeys _ _ (ret _) => apply obeys_ret; ob_refl
  | |- obeys _ _ (goto_fail _) =>
      apply obeys_goto_fail; [ob_refl | first [reflexivity | assumption]]
  | |- obeys _ _ (bind _ _) => apply obeys_bind; [ob_trans | | intros]
  | |- obeys _ _ (when _ _) => apply obeys_when; [ob_refl | ]
  | |- obeys _ _ get_h => apply obeys_get_h; ob_refl
  | |- obeys _ _ get_s => apply obeys_get_s; ob_refl
  | |- obeys _ _ (modify_s _) =>
      unfold modify_s; apply obeys_modify_h; intros; apply frame_modify; reflexivity
  | |- obeys _ _ (modify_h _) =>
      apply obeys_modify_h; intros; apply frame_modify; reflexivity
  | |- obeys _ _ (log_net_error _ _) => unfold log_net_error
  | |- obeys _ _ (av_log _ _) => unfold av_log
  | |- obeys _ _ (closesocket _) => unfold closesocket
  | |- obeys _ _ (ff_socket_nonblock _ _) => unfold ff_socket_nonblock
  | |- obeys _ _ (av_strdup _ _) => unfold av_strdup
  | |- obeys _ _ (sys_getaddrinfo _ _ _ _ _ _) => unfold sys_getaddrinfo
  | |- obeys _ _ (sys_socket _ _) => unfold sys_socket
  | |- obeys _ _ (sys_setsockopt _ _ _ _) => unfold sys_setsockopt
  | |- obeys _ _ (sys_bind _ _ _ _) => unfold sys_bind
  | |- obeys _ _ (sys_getsockname _ _) => unfold sys_getsockname
  | |- obeys _ _ (sys_getnameinfo _ _ _) => unfold sys_getnameinfo
  | |- obeys _ _ (sys_connect _ _ _ _) => unfold sys_connect
  | |- obeys _ _ (emit _) => apply obeys_emit; ob_event
  | |- obeys _ _ (ask _ _) => apply obeys_ask; ob_event
  | |- obeys _ _ (if ?b then _ else _) => destruct b
  | |- obeys _ _ (match ?x with _ => _ end) => destruct x
  | |- obeys _ _ _ => solve [auto with frames]
  end.

Ltac ob := repeat ob_step.

Section Frames.

Context {libav : Libav} {platform : Platform} (os : OS).

Lemma udp_resolve_host_frame hostname port type family aiflags :
  obeys (frame [if aiflags =? AI_PASSIVE then KLocal else KResolve; KLog]
           (fun h => h)) never
    (udp_resolve_host os hostname port type family aiflags).
Proof.
  unfold udp_resolve_host. ob.
  all: apply obeys_ask; intros; apply frame_event; unfold of_kinds; simpl;
    destruct (aiflags =? AI_PASSIVE); reflexivity.
Qed.

Lemma udp_set_multicast_ttl_frame fd v a :
  obeys (frame [KTtl; KLog] (fun h => h)) never (udp_set_multicast_ttl os fd v a).
Proof. unfold udp_set_multicast_ttl. ob. Qed.

Lemma udp_join_multicast_group_frame fd a :
  obeys (frame [KJoin; KLog] (fun h => h)) never (udp_join_multicast_group os fd a).
Proof. unfold udp_join_multicast_group. ob. Qed.

Lemma udp_leave_multicast_group_frame fd a :
  obeys (frame [KLeave; KLog] (fun h => h)) never (udp_leave_multicast_group os fd a).
Proof. unfold udp_leave_multicast_group. ob. Qed.

Hint Extern 1 (obeys _ _ (udp_resolve_host _ _ _ _ _ _)) =>
  (eapply obeys_lift; [apply udp_resolve_host_frame | reflexivity]) : frames.
Hint Extern 1 (obeys _ _ (udp_set_multicast_ttl _ _ _ _)) =>
  (eapply obeys_lift; [apply udp_set_multicast_ttl_frame | reflexivity]) : frames.
Hint Extern 1 (obeys _ _ (udp_join_multicast_group _ _ _)) =>
  (eapply obeys_lift; [apply udp_join_multicast_group_frame | reflexivity]) : frames.
Hint Extern 1 (obeys _ _ (udp_leave_multicast_group _ _ _)) =>
  (eapply obeys_lift; [apply udp_leave_multicast_group_frame | reflexivity]) : frames.

Definition source_kinds : list kind := [KSourceJoin; KSourceBlock; KResolve; KLog].

Lemma set_sources_generic_frame fd a al srcs inc :
  obeys (frame source_kinds (fun h => h)) never
    (set_sources_generic os fd a al srcs inc).
Proof. induction srcs as [|src rest IH]; simpl; ob. Qed.

Lemma set_sources_ipv4_frame fd a srcs inc :
  obeys (frame source_kinds (fun h => h)) never
    (set_sources_ipv4 os fd a srcs inc).
Proof.
  induction srcs as [|src rest IH]; simpl; ob.
  apply obeys_emit. intros. apply frame_event. unfold of_kinds.
  rewrite family_message_kind. reflexivity.
Qed.

Lemma udp_set_multicast_sources_frame fd a al srcs inc :
  obeys (frame source_kinds (fun h => h)) never
    (udp_set_multicast_sources os fd a al srcs inc).
Proof.
  unfold udp_set_multicast_sources. ob.
  - apply set_sources_generic_frame.
  - apply set_sources_ipv4_frame.
Qed.

Hint Extern 1 (obeys _ _ (udp_set_multicast_sources _ _ _ _ _ _)) =>
  (eapply obeys_lift; [apply udp_set_multicast_sources_frame | reflexivity]) : frames.

Lemma udp_set_url_frame a hn port :
  obeys (frame [KResolve; KLog] (fun h => h)) never (udp_set_url os a hn port).
Proof. unfold udp_set_url. ob. Qed.

Hint Extern 1 (obeys _ _ (udp_set_url _ _ _ _)) =>
  (eapply obeys_lift; [apply udp_set_url_frame | reflexivity]) : frames.

Definition create_kinds : list kind := [KLocal; KLog; KSocket; KClose].

Lemma socket_loop_frame res fd :
  obeys (frame create_kinds (fun h => h)) never (socket_loop os res fd).
Proof. revert fd. induction res as [|ai rest IH]; intros fd; simpl; ob. Qed.

Hint Extern 1 (obeys _ _ (socket_loop _ _ _)) =>
  (eapply obeys_lift; [apply socket_loop_frame | reflexivity]) : frames.

Lemma udp_socket_create_frame a0 l0 la :
  obeys (frame create_kinds (fun h => h)) never (udp_socket_create os a0 l0 la).
Proof. unfold udp_socket_create. ob. Qed.

Lemma udp_port_frame a l :
  obeys (frame [KName; KLog] (fun h => h)) never (udp_port os a l).
Proof. unfold udp_port. ob. Qed.

Hint Extern 1 (obeys _ _ (udp_port _ _ _)) =>
  (eapply obeys_lift; [apply udp_port_frame | reflexivity]) : frames.

(** What the option parsing and the late binding of the destination
    leave alone. *)
Definition view_set_remote (h : URLContext) :=
  (flags h, is_streamed h, max_packet_size h,
   (udp_fd (priv_data h), ttl (priv_data h), buffer_size (priv_data h),
    local_port (priv_data h), reuse_socket (priv_data h))).

Lemma ff_udp_set_remote_url_frame uri :
  obeys (frame [KResolve; KLog; KConnect] view_set_remote) never
    (ff_udp_set_remote_url os uri).
Proof. unfold ff_udp_set_remote_url. ob. Qed.

Definition view_options (h : URLContext) :=
  (flags h,
   (udp_fd (priv_data h), is_multicast (priv_data h), dest_addr (priv_data h),
    dest_addr_len (priv_data h))).

Lemma store_source_frame item srcs :
  obeys (frame [KAlloc] (fun h => h)) (fun fd => fd = -1) (store_source os item srcs).
Proof. unfold store_source. ob. Qed.

Lemma parse_sources_frame start srcs :
  obeys (frame [KAlloc] (fun h => h)) (fun fd => fd = -1) (parse_sources os start srcs).
Proof.
  funelim (parse_sources os start srcs); simp parse_sources.
  - ob; [apply store_source_frame|].
    intros w o w' E. eapply (H a w); exact E.
  - apply store_source_frame.
Qed.

Hint Extern 1 (obeys _ _ (parse_sources _ _ _)) =>
  (eapply obeys_weaken; [ | | apply parse_sources_frame];
   [ intros ? ? Hfr; eapply frame_weaken; [ | | exact Hfr];
     [ intros k Hk; exact Hk | intros ? ? ->; reflexivity ]
   | intros ? Hfd; exact Hfd ]) : frames.

Lemma udp_open_options_frame uri :
  obeys (frame [KAlloc] view_options) (fun fd => fd = -1) (udp_open_options os uri).
Proof.
  unfold udp_open_options, udp_open_plain_options, udp_open_source_options. ob.
Qed.

Hint Extern 1 (obeys _ _ (ff_udp_set_remote_url _ _)) =>
  (eapply obeys_weaken; [ | | apply ff_udp_set_remote_url_frame];
   [ intros ? ? Hfr; exact Hfr | intros ? [] ]) : frames.

(** The kinds of calls of each block of [udp_open]. *)
Definition dest_kinds : list kind := [KResolve; KLog; KConnect].
Definition bind_kinds : list kind := [KBind; KLog].
Definition name_kinds : list kind := [KName; KLog].
Definition multicast_kinds : list kind :=
  [KTtl; KJoin; KSourceJoin; KSourceBlock; KResolve; KLog].
Definition buffer_kinds : list kind := [KSndbuf; KRcvbuf; KLog; KNonblock].
Definition connect_kinds : list kind := [KConnect; KLog].

Lemma udp_open_dest_frame uri fl :
  obeys (frame dest_kinds view_set_remote) (fun fd => fd = -1) (udp_open_dest os uri fl).
Proof. unfold udp_open_dest. ob. Qed.

(** Everything but [local_port] and [reuse_socket]: what no block
    changes once the socket is there. *)
Definition view_socket (h : URLContext) :=
  (flags h, is_streamed h, max_packet_size h,
   (udp_fd (priv_data h), ttl (priv_data h), buffer_size (priv_data h),
    is_multicast (priv_data h), dest_addr (priv_data h),
    dest_addr_len (priv_data h), is_connected (priv_data h))).

Lemma udp_open_reuse_frame fd rs :
  obeys (frame [KReuse] (fun h => (view_socket h, local_port (priv_data h))))
    (fun fd' => fd' = fd) (udp_open_reuse os fd rs).
Proof. unfold udp_open_reuse. ob. Qed.

Lemma udp_open_bind_frame fd my len :
  obeys (frame bind_kinds (fun h => h)) (fun fd' => fd' = fd) (udp_open_bind os fd my len).
Proof. unfold udp_open_bind. ob. Qed.

Lemma udp_open_local_port_frame fd my :
  obeys (frame name_kinds (fun h => (view_socket h, reuse_socket (priv_data h))))
    never (udp_open_local_port os fd my).
Proof. unfold udp_open_local_port. ob. Qed.

Lemma udp_open_multicast_frame fd l :
  obeys (frame multicast_kinds (fun h => h)) (fun fd' => fd' = fd)
    (udp_open_multicast os fd l).
Proof.
  unfold udp_open_multicast.
  destruct ((num_sources l =? 0) || negb (C.truthy (include l)))%bool eqn:E.
  - cbv beta iota. ob.
  - rewrite (invalid_settings_unreachable _ _ E). cbv beta iota. ob.
Qed.

Lemma udp_open_buffers_frame fd is_output :
  obeys (frame buffer_kinds (fun h => h)) (fun fd' => fd' = fd)
    (udp_open_buffers os fd is_output).
Proof. unfold udp_open_buffers. ob. Qed.

Lemma udp_open_connect_frame fd :
  obeys (frame connect_kinds (fun h => h)) (fun fd' => fd' = fd)
    (udp_open_connect os fd).
Proof. unfold udp_open_connect. ob. Qed.

End Frames.

(* ===================================================================== *)
(** ** The runs of [udp_open] *)
(* ===================================================================== *)

Section Runs.

Context {libav : Libav} {platform : Platform} (os : OS).

(** A run of [udp_open_socket]: the blocks that were passed, and the
    one that went to [fail], if any. *)
Inductive socket_run (udp_fd : Z) (my_addr : sockaddr) (len : Z)
    (l : open_locals) (is_output : bool) (w : world)
    : outcome unit -> world -> Prop :=
| run_reuse_fail w1 :
    udp_open_reuse os udp_fd (reuse_specified l) w = (GotoFail udp_fd, w1) ->
    socket_run udp_fd my_addr len l is_output w (GotoFail udp_fd) w1
| run_bind_fail w1 w2 :
    udp_open_reuse os udp_fd (reuse_specified l) w = (Done tt, w1) ->
    udp_open_bind os udp_fd my_addr len w1 = (GotoFail udp_fd, w2) ->
    socket_run udp_fd my_addr len l is_output w (GotoFail udp_fd) w2
| run_multicast_fail w1 w2 w3 w4 :
    udp_open_reuse os udp_fd (reuse_specified l) w = (Done tt, w1) ->
    udp_open_bind os udp_fd my_addr len w1 = (Done tt, w2) ->
    udp_open_local_port os udp_fd my_addr w2 = (Done tt, w3) ->
    udp_open_multicast os udp_fd l w3 = (GotoFail udp_fd, w4) ->
    socket_run udp_fd my_addr len l is_output w (GotoFail udp_fd) w4
| run_buffers_fail w1 w2 w3 w4 w5 :
    udp_open_reuse os udp_fd (reuse_specified l) w = (Done tt, w1) ->
    udp_open_bind os udp_fd my_addr len w1 = (Done tt, w2) ->
    udp_open_local_port os udp_fd my_addr w2 = (Done tt, w3) ->
    udp_open_multicast os udp_fd l w3 = (Done tt, w4) ->
    udp_open_buffers os udp_fd is_output w4 = (GotoFail udp_fd, w5) ->
    socket_run udp_fd my_addr len l is_output w (GotoFail udp_fd) w5
| run_connect_fail w1 w2 w3 w4 w5 w6 :
    udp_open_reuse os udp_fd (reuse_specified l) w = (Done tt, w1) ->
    udp_open_bind os udp_fd my_addr len w1 = (Done tt, w2) ->
    udp_open_local_port os udp_fd my_addr w2 = (Done tt, w3) ->
    udp_open_multicast os udp_fd l w3 = (Done tt, w4) ->
    udp_open_buffers os udp_fd is_output w4 = (Done tt, w5) ->
    udp_open_connect os udp_fd w5 = (GotoFail udp_fd, w6) ->
    socket_run udp_fd my_addr len l is_output w (GotoFail udp_fd) w6
| run_socket_ok w1 w2 w3 w4 w5 w6 :
    udp_open_reuse os udp_fd (reuse_specified l) w = (Done tt, w1) ->
    udp_open_bind os udp_fd my_addr len w1 = (Done tt, w2) ->
    udp_open_local_port os udp_fd my_addr w2 = (Done tt, w3) ->
    udp_open_multicast os udp_fd l w3 = (Done tt, w4) ->
    udp_open_buffers os udp_fd is_output w4 = (Done tt, w5) ->
    udp_open_connect os udp_fd w5 = (Done tt, w6) ->
    socket_run udp_fd my_addr len l is_output w (Done tt) w6.

(** Split a run of [m ;; k] into the run of [m] and the rest; [F] is
    what is known of the way [m] goes to [fail]. *)
Ltac split_run H Hm :=
  unfold bind at 1 in H;
  lazymatch type of H with
  | (match ?m ?w with _ => _ end) = _ =>
      let E := fresh "E" in
      destruct (m w) as [[[]|?fd] ?w] eqn:E;
      [ | pose proof (proj2 (Hm _ _ _ E)) as ?Hfd; simpl in *;
          try contradiction; subst; inversion H; subst; clear H ]
  end.

Lemma udp_open_socket_inv udp_fd my_addr len l is_output w o w' :
  udp_open_socket os udp_fd my_addr len l is_output w = (o, w') ->
  socket_run udp_fd my_addr len l is_output w o w'.
Proof.
  unfold udp_open_socket. intros H.
  split_run H (udp_open_reuse_frame os udp_fd (reuse_specified l));
    [|eapply run_reuse_fail; eauto].
  split_run H (udp_open_bind_frame os udp_fd my_addr len);
    [|eapply run_bind_fail; eauto].
  split_run H (udp_open_local_port_frame os udp_fd my_addr).
  split_run H (udp_open_multicast_frame os udp_fd l);
    [|eapply run_multicast_fail; eauto].
  split_run H (udp_open_buffers_frame os udp_fd is_output);
    [|eapply run_buffers_fail; eauto].
  destruct (udp_open_connect os udp_fd w4) as [[[]|fd] w5] eqn:E4.
  - inversion H; subst. eapply run_socket_ok; eauto.
  - pose proof (proj2 (udp_open_connect_frame os _ _ _ _ E4)) as Hfd. simpl in Hfd. subst.
    inversion H; subst. eapply run_connect_fail; eauto.
Qed.

(** Lines 397-471 passed: the options are [l], the port of the URL is
    [port], and [udp_socket_create] returned [udp_fd], [my_addr] and
    [len] in the world [w4]. *)
Definition open_prefix (uri : string) (fl : Z) (w : world) (l : open_locals)
    (port udp_fd : Z) (my_addr : sockaddr) (len : Z) (w4 : world) : Prop :=
  exists w0 w1 w2 w3,
    udp_open_init fl w = (Done tt, w0) /\
    udp_open_options os uri w0 = (Done l, w1) /\
    udp_open_dest os uri fl w1 = (Done port, w2) /\
    udp_open_default_port port w2 = (Done tt, w3) /\
    udp_socket_create os sockaddr_zero 0 (localaddr l) w3
      = (Done (udp_fd, my_addr, len), w4).

(** The world after the label [fail] when a socket is to be closed,
    and after lines 551-555. *)
Definition closed (udp_fd : Z) (w : world) : world :=
  mk_world (w_h w) (w_trace w ++ [EClosesocket udp_fd]).
Definition opened (udp_fd : Z) (w : world) : world :=
  mk_world (set_priv_data (set_udp_fd udp_fd (priv_data (w_h w))) (w_h w)) (w_trace w).

(** A run of [udp_open]: its return value and the world it leaves. *)
Inductive open_run (uri : string) (fl : Z) (w : world) : Z -> world -> Prop :=
| run_options_fail w0 w1 :
    udp_open_init fl w = (Done tt, w0) ->
    udp_open_options os uri w0 = (GotoFail (-1), w1) ->
    open_run uri fl w (AVERROR EIO) w1
| run_dest_fail w0 l w1 w2 :
    udp_open_init fl w = (Done tt, w0) ->
    udp_open_options os uri w0 = (Done l, w1) ->
    udp_open_dest os uri fl w1 = (GotoFail (-1), w2) ->
    open_run uri fl w (AVERROR EIO) w2
| run_create_fail l port udp_fd my_addr len w4 :
    open_prefix uri fl w l port udp_fd my_addr len w4 ->
    udp_fd < 0 ->
    open_run uri fl w (AVERROR EIO) w4
| run_socket_fail l port udp_fd my_addr len w4 w5 :
    open_prefix uri fl w l port udp_fd my_addr len w4 ->
    0 <= udp_fd ->
    socket_run udp_fd my_addr len l (negb (has_flag fl AVIO_FLAG_READ)) w4
      (GotoFail udp_fd) w5 ->
    open_run uri fl w (AVERROR EIO) (closed udp_fd w5)
| run_open_ok l port udp_fd my_addr len w4 w5 :
    open_prefix uri fl w l port udp_fd my_addr len w4 ->
    0 <= udp_fd ->
    socket_run udp_fd my_addr len l (negb (has_flag fl AVIO_FLAG_READ)) w4
      (Done tt) w5 ->
    open_run uri fl w 0 (opened udp_fd w5).

Lemma bind_run A B (m : M A) (k : A -> M B) w o w' :
  bind m k w = (o, w') ->
  (exists a w1, m w = (Done a, w1) /\ k a w1 = (o, w')) \/
  (exists fd, m w = (GotoFail fd, w') /\ o = GotoFail fd).
Proof.
  unfold bind. destruct (m w) as [[a|fd] w1]; intros H.
  - left. eauto.
  - right. inversion H; subst. eauto.
Qed.

Lemma udp_open_init_done fl w o w0 :
  udp_open_init fl w = (o, w0) ->
  o = Done tt /\ w_trace w0 = w_trace w
    /\ view_options (w_h w0) = view_options (w_h w)
    /\ reuse_socket (priv_data (w_h w0)) = reuse_socket (priv_data (w_h w))
    /\ local_port (priv_data (w_h w0)) = local_port (priv_data (w_h w))
    /\ is_connected (priv_data (w_h w0)) = is_connected (priv_data (w_h w)).
Proof. intros H. inversion H; subst. repeat split; reflexivity. Qed.

Lemma udp_open_default_port_done port w o w3 :
  udp_open_default_port port w = (o, w3) ->
  let s := priv_data (w_h w) in
  o = Done tt /\ w_trace w3 = w_trace w
    /\ view_socket (w_h w3) = view_socket (w_h w)
    /\ reuse_socket (priv_data (w_h w3)) = reuse_socket s
    /\ local_port (priv_data (w_h w3))
       = (if ((C.truthy (is_multicast s) || (local_port s =? 0))
              && has_flag (flags (w_h w)) AVIO_FLAG_READ)%bool
          then port else local_port s).
Proof.
  unfold udp_open_default_port, bind, get_s, get_h, when.
  destruct (_ && _)%bool; intros H; inversion H; subst; repeat split; reflexivity.
Qed.

(** Every run of [udp_open] is one of these. *)
Lemma udp_open_inv uri fl w o w' :
  udp_open os uri fl w = (o, w') ->
  exists code, o = Done code /\ open_run uri fl w code w'.
Proof.
  unfold udp_open. intros H.
  assert (Hfail : forall wb, (when (0 <=? -1) (closesocket (-1)) ;; ret (AVERROR EIO)) wb
                             = (Done (AVERROR EIO), wb)) by reflexivity.
  destruct (udp_open_body os uri fl w) as [ob wb] eqn:B.
  unfold udp_open_body in B.
  apply bind_run in B as [[[] [w0 [E0 B]]] | [fd [E0 ->]]];
    [| apply udp_open_init_done in E0 as [? _]; discriminate].
  apply bind_run in B as [[l [w1 [E1 B]]] | [fd [E1 ->]]].
  2: { pose proof (proj2 (udp_open_options_frame os uri _ _ _ E1)) as F. simpl in F. subst fd.
       rewrite Hfail in H. inversion H; subst.
       eexists; split; [reflexivity|]. eapply run_options_fail; eauto. }
  apply bind_run in B as [[port [w2 [E2 B]]] | [fd [E2 ->]]].
  2: { pose proof (proj2 (udp_open_dest_frame os uri fl _ _ _ E2)) as F. simpl in F. subst fd.
       rewrite Hfail in H. inversion H; subst.
       eexists; split; [reflexivity|]. eapply run_dest_fail; eauto. }
  apply bind_run in B as [[[] [w3 [E3 B]]] | [fd [E3 ->]]];
    [| apply udp_open_default_port_done in E3 as [? _]; discriminate].
  apply bind_run in B as [[[[ufd my] len] [w4 [E4 B]]] | [fd [E4 ->]]];
    [| pose proof (proj2 (udp_socket_create_frame os _ _ _ _ _ _ E4)) as []].
  assert (P : open_prefix uri fl w l port ufd my len w4)
    by (exists w0, w1, w2, w3; auto).
  destruct (ufd <? 0) eqn:L.
  - apply Z.ltb_lt in L. inversion B; subst.
    assert (Hneg : (0 <=? ufd) = false) by (apply Z.leb_gt; lia).
    unfold bind, when in H. rewrite Hneg in H. inversion H; subst.
    eexists; split; [reflexivity|]. eapply run_create_fail; eauto.
  - apply Z.ltb_ge in L.
    assert (Hpos : (0 <=? ufd) = true) by (apply Z.leb_le; lia).
    apply bind_run in B as [[[] [w5 [E5 B]]] | [fd [E5 ->]]];
      apply udp_open_socket_inv in E5.
    + inversion B; subst. inversion H; subst.
      eexists; split; [reflexivity|]. eapply run_open_ok; eauto.
    + assert (fd = ufd) by (inversion E5; reflexivity). subst fd.
      unfold bind, when in H. rewrite Hpos in H. inversion H; subst.
      eexists; split; [reflexivity|]. eapply run_socket_fail; eauto.
Qed.

End Runs.

(* ===================================================================== *)
(** ** The calls of a run *)
(* ===================================================================== *)

(** The events between the world [w] and the later world [w']. *)
Definition calls (w w' : world) : trace :=
  skipn (List.length (w_trace w)) (w_trace w').

Lemma calls_app w w' evs : w_trace w' = w_trace w ++ evs -> calls w w' = evs.
Proof.
  unfold calls. intros ->. rewrite skipn_app, Nat.sub_diag, skipn_all. reflexivity.
Qed.

Lemma calls_same w w' : w_trace w' = w_trace w -> calls w w' = [].
Proof. intros H. apply calls_app. rewrite app_nil_r. exact H. Qed.

Lemma frame_calls ks X (view : URLContext -> X) w w' :
  frame ks view w w' ->
  w_trace w' = w_trace w ++ calls w w' /\ forallb (of_kinds ks) (calls w w') = true.
Proof.
  intros [[evs [T K]] _]. rewrite (calls_app _ _ _ T). auto.
Qed.

Lemma calls_trans w1 w2 w3 :
  w_trace w2 = w_trace w1 ++ calls w1 w2 ->
  w_trace w3 = w_trace w2 ++ calls w2 w3 ->
  calls w1 w3 = calls w1 w2 ++ calls w2 w3.
Proof.
  intros H1 H2. apply calls_app. rewrite H2, H1 at 1. rewrite app_assoc. reflexivity.
Qed.

Lemma select_app k a b : select k (a ++ b) = select k a ++ select k b.
Proof. apply filter_app. Qed.

Lemma select_none ks k evs :
  forallb (of_kinds ks) evs = true ->
  existsb (kind_eqb k) ks = false ->
  select k evs = [].
Proof.
  intros K N. induction evs as [|e evs IH]; [reflexivity|].
  simpl in *. apply andb_prop in K as [K1 K2].
  destruct (kind_eqb (kind_of e) k) eqn:E.
  - apply kind_eqb_eq in E. subst k. unfold of_kinds in K1. congruence.
  - auto.
Qed.

Lemma of_kinds_in ks evs e :
  forallb (of_kinds ks) evs = true -> In e evs -> of_kinds ks e = true.
Proof. intros K I. rewrite forallb_forall in K. auto. Qed.

(** Run a block on a symbolic world: unfold the monad and the system
    calls, leaving the tests of the code and the answers of the
    oracle. *)
Ltac mrun_in H :=
  cbv beta iota zeta delta
    [bind ret goto_fail when get_h get_s modify_h modify_s emit ask
     sys_getaddrinfo sys_socket sys_setsockopt sys_bind sys_getsockname
     sys_getnameinfo sys_connect closesocket ff_socket_nonblock av_strdup
     av_log log_net_error] in H.

Ltac mrun :=
  cbv beta iota zeta delta
    [bind ret goto_fail when get_h get_s modify_h modify_s emit ask
     sys_getaddrinfo sys_socket sys_setsockopt sys_bind sys_getsockname
     sys_getnameinfo sys_connect closesocket ff_socket_nonblock av_strdup
     av_log log_net_error].

(** A run ended: name its outcome and its world. *)
Ltac done_run H :=
  lazymatch type of H with
  | (_, _) = (_, _) => inversion H; subst; clear H
  end.

Lemma calls_mk h h' tr evs : calls (mk_world h tr) (mk_world h' (tr ++ evs)) = evs.
Proof. apply calls_app. reflexivity. Qed.

Lemma calls_mk_nil h h' tr : calls (mk_world h tr) (mk_world h' tr) = [].
Proof. apply calls_same. reflexivity. Qed.

(** A helper that leaves the context alone and never goes to [fail]
    returns a value in a world that differs by its calls only. *)
Lemma helper_run {A} ks (m : M A) :
  obeys (frame ks (fun h => h)) never m ->
  forall w o w', m w = (o, w') ->
    exists a evs, o = Done a /\ w' = mk_world (w_h w) (w_trace w ++ evs)
                  /\ forallb (of_kinds ks) evs = true.
Proof.
  intros Hm w o w' H. apply Hm in H as [[[evs [T K]] V] Fo].
  destruct o as [a|fd]; [|destruct Fo].
  exists a, evs. repeat split; auto.
  destruct w' as [h' t']. simpl in *. subst. reflexivity.
Qed.

Lemma select_cons_same k e evs :
  kind_eqb (kind_of e) k = true -> select k (e :: evs) = e :: select k evs.
Proof. intros H. unfold select. simpl. rewrite H. reflexivity. Qed.

Lemma select_cons_other k e evs :
  kind_eqb (kind_of e) k = false -> select k (e :: evs) = select k evs.
Proof. intros H. unfold select. simpl. rewrite H. reflexivity. Qed.

(** Reduce the field accesses of the records. *)
Ltac rsimpl :=
  unfold set_udp_fd, set_ttl, set_buffer_size, set_is_multicast, set_local_port,
    set_reuse_socket, set_dest_addr, set_dest_addr_len, set_is_connected,
    set_is_streamed, set_max_packet_size, set_priv_data in *;
  cbn [w_h w_trace flags is_streamed max_packet_size priv_data
       udp_fd ttl buffer_size is_multicast local_port reuse_socket
       dest_addr dest_addr_len is_connected fst snd] in *.

(** Bring [calls w w'] to the list of the events that were appended. *)
Ltac calls_norm :=
  rsimpl;
  repeat rewrite <- app_assoc in *;
  cbn [app] in *;
  rewrite ?calls_mk, ?calls_mk_nil in *.

(** A run ended: name its outcome and its world, and compute its calls. *)
Ltac fin H := mrun_in H; rsimpl; done_run H; cbv zeta; calls_norm.

(** Name the parts of a world. *)
Ltac open_world w :=
  let hfl := fresh "h_flags" in
  let sfd := fresh "s_fd" in
  let smc := fresh "s_mc" in
  let slp := fresh "s_lport" in
  let sre := fresh "s_reuse" in
  let sda := fresh "s_dest" in
  let sdl := fresh "s_dlen" in
  let sco := fresh "s_conn" in
  let tr := fresh "tr" in
  destruct w as [[hfl ? ? [sfd ? ? smc slp sre sda sdl sco]] tr]; rsimpl.

Section SetRemote.

Context {libav : Libav} {platform : Platform} (os : OS).

(** The URL asks for a connect: it has a query part whose [connect] tag
    holds a number that is not zero. *)
Definition connect_requested (uri : string) : Prop :=
  exists off,
    C.strchr uri "?"%char = Some off /\
    C.truthy (fst (av_find_info_tag 10 "connect" (C.drop off uri))) = true /\
    C.strtol_int (snd (av_find_info_tag 10 "connect" (C.drop off uri))) <> 0.

Lemma truthy_true z : C.truthy z = true <-> z <> 0.
Proof. unfold C.truthy. destruct (Z.eqb_spec z 0); simpl; split; congruence. Qed.

Lemma truthy_false z : C.truthy z = false <-> z = 0.
Proof. unfold C.truthy. destruct (Z.eqb_spec z 0); simpl; split; congruence. Qed.

(** C8: connect through [ff_udp_set_remote_url].  On a context that is
    already connected no connect call is made.  A connect call that the
    system refuses makes the function return an error and leaves the
    context unconnected.  So a later call, on the unconnected context,
    with a URL that asks for a connect and a destination that resolves,
    makes one connect call again, which connects when it succeeds. *)
Theorem set_remote_connect uri w o w' :
  ff_udp_set_remote_url os uri w = (o, w') ->
  let s := priv_data (w_h w) in
  let s' := priv_data (w_h w') in
  (is_connected s <> 0 -> select KConnect (calls w w') = []) /\
  (forall fd a l e, In (EConnect fd a l (SysErr e)) (calls w w') ->
     o = Done (AVERROR EIO) /\ is_connected s' = 0) /\
  (is_connected s = 0 -> connect_requested uri -> 0 <= dest_addr_len s' ->
     exists r,
       select KConnect (calls w w')
         = [EConnect (udp_fd s) (dest_addr s') (dest_addr_len s') r] /\
       (r = SysOk -> o = Done 0 /\ is_connected s' <> 0)).
Proof.
  intros H. unfold ff_udp_set_remote_url in H.
  destruct (av_url_split 256 uri) as [hostname port].
  mrun_in H.
  destruct (udp_set_url os _ hostname port w) as [o1 w1] eqn:E.
  apply (helper_run _ _ (udp_set_url_frame os _ _ _)) in E
    as [[len addr] [evs [-> [-> K]]]].
  open_world w.
  assert (NC : select KConnect evs = []) by (eapply select_none; eauto).
  assert (NI : forall fd a l r, ~ In (EConnect fd a l r) evs)
    by (intros fd a l r I; eapply of_kinds_in in I; eauto; discriminate).
  assert (Hno : forall (o : outcome Z) (c : Z) (b : Z),
    (s_conn = 0 -> connect_requested uri -> 0 <= len -> False) ->
    (s_conn <> 0 -> select KConnect evs = []) /\
    (forall fd a l e, In (EConnect fd a l (SysErr e)) evs ->
       o = Done (AVERROR EIO) /\ c = 0) /\
    (s_conn = 0 -> connect_requested uri -> 0 <= len ->
       exists r, select KConnect evs = [EConnect s_fd addr len r] /\
                 (r = SysOk -> o = Done 0 /\ b <> 0))).
  { intros o0 c b Hx. split; [auto|]. split.
    - intros fd a l e I. destruct (NI _ _ _ _ I).
    - intros A B C. destruct (Hx A B C). }
  destruct (len <? 0) eqn:Hlen.
  { fin H. apply Hno. intros _ _ Hl. apply Z.ltb_lt in Hlen. lia. }
  destruct (C.strchr uri "?") as [off|] eqn:Hq.
  2:{ fin H. apply Hno. intros _ [off [Hoff _]] _. congruence. }
  destruct (av_find_info_tag 10 "connect" (C.drop off uri)) as [found buf] eqn:Htag.
  destruct (C.truthy found) eqn:Hfound.
  2:{ fin H. apply Hno. intros _ [off' [Hoff [Hf _]]] _.
      rewrite Hq in Hoff. injection Hoff as <-. rewrite Htag in Hf. simpl in Hf.
      congruence. }
  mrun_in H; rsimpl.
  destruct (C.truthy (C.strtol_int buf) && negb (C.truthy s_conn))%bool eqn:Hc.
  2:{ fin H. apply Hno. intros Hs [off' [Hoff [_ Hv]]] _.
      rewrite Hq in Hoff. injection Hoff as <-. rewrite Htag in Hv. simpl in Hv.
      apply truthy_true in Hv. subst s_conn. rewrite Hv in Hc. discriminate. }
  apply andb_prop in Hc as [Hv Hs]. apply truthy_true in Hv.
  apply negb_true_iff in Hs. apply truthy_false in Hs.
  mrun_in H; rsimpl.
  destruct (os_connect os (tr ++ evs) s_fd addr len) as [|e] eqn:Hos;
    cbn [sys_ret C.truthy Z.eqb negb] in H; fin H.
  - split; [intros; contradiction|]. split.
    + intros fd a l e I. apply in_app_or in I as [I|[I|[]]];
        [destruct (NI _ _ _ _ I) | discriminate].
    + intros _ _ _. exists SysOk. rewrite select_app, NC. split; [reflexivity|].
      auto.
  - split; [intros; contradiction|]. split.
    + intros fd a l e' I. split; reflexivity.
    + intros _ _ _. exists (SysErr e). rewrite select_app, NC.
      split; [reflexivity|]. discriminate.
Qed.

End SetRemote.

(* ===================================================================== *)
(** ** The host list of [sources=] and [block=] *)
(* ===================================================================== *)

(** The comma-separated fields of a string, by the words of the
    specification: "the value is a comma-separated host list".  A string
    without a comma is one field. *)
Fixpoint split_commas (s : string) : list string :=
  match s with
  | EmptyString => [EmptyString]
  | String c r =>
      if Ascii.eqb c ","%char then EmptyString :: split_commas r
      else match split_commas r with
           | f :: fs => String c f :: fs
           | [] => [String c EmptyString]
           end
  end.

(** The hosts that fit in [sources]. *)
Definition host_list (buf : string) : list string :=
  firstn (Z.to_nat SOURCES_ELEMS) (split_commas buf).

Lemma split_commas_nonempty s : split_commas s <> [].
Proof.
  destruct s as [|c r]; simpl; [discriminate|].
  destruct (Ascii.eqb c ","); [discriminate|].
  destruct (split_commas r); discriminate.
Qed.

Lemma split_commas_strchr_none s :
  C.strchr s ","%char = None -> split_commas s = [s].
Proof.
  induction s as [|c r IH]; simpl; [reflexivity|].
  destruct (Ascii.eqb c ","); [discriminate|].
  destruct (C.strchr r ","); [discriminate|].
  intros _. rewrite IH; reflexivity.
Qed.

Lemma split_commas_strchr_some s n :
  C.strchr s ","%char = Some n ->
  split_commas s = C.take n s :: split_commas (C.drop (S n) s).
Proof.
  revert n. induction s as [|c r IH]; simpl; intros n H; [discriminate|].
  destruct (Ascii.eqb c ",") eqn:E.
  - injection H as <-. reflexivity.
  - destruct (C.strchr r ",") as [m|]; [|discriminate].
    injection H as <-. rewrite (IH m eq_refl). reflexivity.
Qed.

(** [w'] is [w] after the events [evs], whatever became of the context. *)
Definition emitted (w w' : world) (evs : trace) : Prop :=
  w_trace w' = w_trace w ++ evs.

Lemma emitted_calls w w' evs : emitted w w' evs -> calls w w' = evs.
Proof. apply calls_app. Qed.

Lemma emitted_nil w : emitted w w [].
Proof. unfold emitted. rewrite app_nil_r. reflexivity. Qed.

Lemma emitted_trans w1 w2 w3 e1 e2 :
  emitted w1 w2 e1 -> emitted w2 w3 e2 -> emitted w1 w3 (e1 ++ e2).
Proof. unfold emitted. intros H1 H2. rewrite H2, H1, app_assoc. reflexivity. Qed.

Lemma emitted_mk h h' tr evs : emitted (mk_world h tr) (mk_world h' (tr ++ evs)) evs.
Proof. reflexivity. Qed.

Lemma emitted_mk_nil h h' tr : emitted (mk_world h tr) (mk_world h' tr) [].
Proof. unfold emitted. simpl. rewrite app_nil_r. reflexivity. Qed.

(** Prove [emitted w w' evs] when both worlds are explicit. *)
Ltac emitted_tac :=
  rsimpl; unfold emitted; cbn [w_trace];
  repeat rewrite <- app_assoc; cbn [app];
  first [ reflexivity | rewrite app_nil_r; reflexivity ].

Section HostList.

Context {libav : Libav} {platform : Platform} (os : OS).

Lemma store_source_run item srcs w o w' :
  store_source os item srcs w = (o, w') ->
  w_h w' = w_h w /\
  ((o = Done (srcs ++ [item]) /\ emitted w w' [EStrdup item true]) \/
   (o = GotoFail (-1) /\ emitted w w' [EStrdup item false])).
Proof.
  unfold store_source. intros H. mrun_in H. destruct w as [h tr]. rsimpl.
  destruct (os_strdup os tr item); fin H; split; auto; [left|right]; split; auto;
    emitted_tac.
Qed.

(** The loop stores the fields of [source_start] one after the other,
    until [sources] is full or the allocator fails. *)
Lemma parse_sources_run start srcs w o w' :
  parse_sources os start srcs w = (o, w') ->
  (List.length srcs < Z.to_nat SOURCES_ELEMS)%nat ->
  w_h w' = w_h w /\
  ((o = Done (srcs ++ firstn (Z.to_nat SOURCES_ELEMS - List.length srcs)
                        (split_commas start)) /\
    emitted w w' (map (fun s => EStrdup s true)
                    (firstn (Z.to_nat SOURCES_ELEMS - List.length srcs)
                       (split_commas start)))) \/
   (o = GotoFail (-1) /\
    exists done failed,
      emitted w w' (map (fun s => EStrdup s true) done ++ [EStrdup failed false]))).
Proof.
  revert o w'.
  funelim (parse_sources os start srcs w); simp parse_sources; intros o w' Hrun Hroom.
  - rename sources1 into w.
    assert (Hr : exists r, (Z.to_nat SOURCES_ELEMS - List.length sources0)%nat = S r
                           /\ r = (Z.to_nat SOURCES_ELEMS - S (List.length sources0))%nat)
      by (eexists; split; [|reflexivity]; lia).
    destruct Hr as [r [Hr Hr']]. rewrite Hr.
    rewrite (split_commas_strchr_some _ _ Hnext). cbn [firstn map].
    apply bind_run in Hrun as [[srcs1 [w1 [E1 Hrun]]] | [fd [E1 ->]]];
      apply store_source_run in E1 as [Hh [[Ho Hc] | [Ho Hc]]];
      try discriminate.
    + injection Ho as ->.
      assert (Hlen : List.length (sources0 ++ [C.take next source_start])
                     = S (List.length sources0))
        by (rewrite length_app; simpl; lia).
      destruct (SOURCES_ELEMS <=? _) eqn:Hcap.
      * apply Z.leb_le in Hcap. rewrite Hlen in Hcap.
        assert (r = O) by lia. subst r. rewrite H1.
        inversion Hrun; subst. split; [exact Hh|]. left. split; [reflexivity|exact Hc].
      * apply Z.leb_gt in Hcap. rewrite Hlen in Hcap.
        apply (H _ w w1) in Hrun; [|rewrite Hlen; lia].
        rewrite Hlen in Hrun. rewrite <- Hr' in Hrun.
        destruct Hrun as [Hh' [[-> Hc'] | [-> [d [f Hc']]]]].
        -- split; [congruence|]. left. rewrite <- app_assoc. split; [reflexivity|].
           apply (emitted_trans _ _ _ _ _ Hc Hc').
        -- split; [congruence|]. right. split; [reflexivity|].
           exists (C.take next source_start :: d), f.
           apply (emitted_trans _ _ _ _ _ Hc Hc').
    + split; [exact Hh|]. right. split; [exact Ho|].
      exists [], (C.take next source_start). exact Hc.
  - rename sources1 into w.
    assert (Hr : exists r, (Z.to_nat SOURCES_ELEMS - List.length sources0)%nat = S r)
      by (exists (Z.to_nat SOURCES_ELEMS - S (List.length sources0))%nat; lia).
    destruct Hr as [r Hr]. rewrite Hr.
    rewrite split_commas_strchr_none by assumption.
    replace (firstn (S r) [source_start]) with [source_start]
      by (destruct r; reflexivity).
    apply store_source_run in Hrun as [Hh [[Ho Hc] | [Ho Hc]]].
    + split; [exact Hh|]. left. auto.
    + split; [exact Hh|]. right. split; [exact Ho|]. exists [], source_start. exact Hc.
Qed.

End HostList.

(* ===================================================================== *)
(** ** What the URL says *)
(* ===================================================================== *)

Section Url.

Context {libav : Libav}.

(** The value of the tag [name] in the query string [p], if it is
    there. *)
Definition tag_in (p name : string) : option string :=
  if C.truthy (fst (av_find_info_tag 256 name p))
  then Some (snd (av_find_info_tag 256 name p)) else None.

(** The value of the option [name] of the URL. *)
Definition url_tag (uri name : string) : option string :=
  match C.strchr uri "?"%char with
  | Some off => tag_in (C.drop off uri) name
  | None => None
  end.

(** An [int] option: the number in the URL, or what the context held. *)
Definition int_option (t : option string) (old : Z) : Z :=
  match t with Some buf => C.strtol_int buf | None => old end.

(** The [reuse] option: a value without digits asks for reuse. *)
Definition reuse_option (t : option string) (old : Z) : Z :=
  match t with
  | Some buf =>
      if Nat.eqb (snd (C.strtol buf)) 0 then 1 else C.to_int (fst (C.strtol buf))
  | None => old
  end.

Definition is_some {A} (o : option A) : bool :=
  match o with Some _ => true | None => false end.

(** The hosts of [sources=], or without it of [block=], that
    [udp_open] keeps. *)
Definition url_sources (uri : string) : list string :=
  match url_tag uri "sources" with
  | Some buf => host_list buf
  | None =>
      match url_tag uri "block" with
      | Some buf => host_list buf
      | None => []
      end
  end.

(** The source filter mode of the URL. *)
Definition url_include (uri : string) : bool := is_some (url_tag uri "sources").

End Url.

Section Options.

Context {libav : Libav} {platform : Platform} (os : OS).

(** The options with one value: what they return and the context they
    leave. *)
Lemma udp_open_plain_options_eq p w :
  let h := w_h w in
  let s := priv_data h in
  udp_open_plain_options p w =
  (Done (if is_some (tag_in p "reuse") then 1 else 0,
         match tag_in p "localaddr" with
         | Some buf => av_strlcpy buf 1024
         | None => ""%string
         end),
   mk_world
     (mk_URLContext (flags h) (is_streamed h)
        (int_option (tag_in p "pkt_size") (max_packet_size h))
        (mk_UDPContext (udp_fd s)
           (int_option (tag_in p "ttl") (ttl s))
           (int_option (tag_in p "buffer_size") (buffer_size s))
           (is_multicast s)
           (int_option (tag_in p "localport") (local_port s))
           (reuse_option (tag_in p "reuse") (reuse_socket s))
           (dest_addr s) (dest_addr_len s)
           (int_option (tag_in p "connect") (is_connected s))))
     (w_trace w)).
Proof.
  unfold udp_open_plain_options, tag_in, int_option, reuse_option.
  destruct (av_find_info_tag 256 "reuse" p) as [f1 b1].
  destruct (av_find_info_tag 256 "ttl" p) as [f2 b2].
  destruct (av_find_info_tag 256 "localport" p) as [f3 b3].
  destruct (av_find_info_tag 256 "pkt_size" p) as [f4 b4].
  destruct (av_find_info_tag 256 "buffer_size" p) as [f5 b5].
  destruct (av_find_info_tag 256 "connect" p) as [f6 b6].
  destruct (av_find_info_tag 256 "localaddr" p) as [f7 b7].
  cbn [fst snd].
  destruct w as [[hf hs hm [a1 a2 a3 a4 a5 a6 a7 a8 a9]] tr].
  destruct (C.truthy f1);
    [ destruct (C.strtol b1) as [v1 e1]; cbn [fst snd]; destruct (Nat.eqb e1 0) | ];
    destruct (C.truthy f2), (C.truthy f3), (C.truthy f4), (C.truthy f5),
      (C.truthy f6), (C.truthy f7); reflexivity.
Qed.

Lemma udp_open_plain_options_run p w o w' :
  udp_open_plain_options p w = (o, w') ->
  let s := priv_data (w_h w) in
  let s' := priv_data (w_h w') in
  w_trace w' = w_trace w /\
  view_options (w_h w') = view_options (w_h w) /\
  (exists la, o = Done (if is_some (tag_in p "reuse") then 1 else 0, la)) /\
  reuse_socket s' = reuse_option (tag_in p "reuse") (reuse_socket s) /\
  local_port s' = int_option (tag_in p "localport") (local_port s) /\
  is_connected s' = int_option (tag_in p "connect") (is_connected s) /\
  ttl s' = int_option (tag_in p "ttl") (ttl s) /\
  buffer_size s' = int_option (tag_in p "buffer_size") (buffer_size s).
Proof.
  rewrite udp_open_plain_options_eq. intros H. inversion H; subst; clear H.
  cbn. repeat split; try reflexivity. eexists; reflexivity.
Qed.

Definition strdups (hosts : list string) : trace :=
  map (fun s => EStrdup s true) hosts.

(** The allocator failed on the host [failed], after the hosts [done]. *)
Definition strdup_failed (w w' : world) : Prop :=
  exists done failed,
    emitted w w' (map (fun s => EStrdup s true) done ++ [EStrdup failed false]).

Lemma udp_open_source_options_run p w o w' :
  udp_open_source_options os p w = (o, w') ->
  let hosts :=
    match tag_in p "sources" with
    | Some buf => host_list buf
    | None => match tag_in p "block" with Some buf => host_list buf | None => [] end
    end in
  w_h w' = w_h w /\
  ((o = Done (if is_some (tag_in p "sources") then 1 else 0, hosts)
    /\ emitted w w' (strdups hosts)) \/
   (o = GotoFail (-1) /\ strdup_failed w w')).
Proof.
  unfold udp_open_source_options, tag_in. intros H.
  destruct (av_find_info_tag 256 "sources" p) as [f1 b1].
  destruct (av_find_info_tag 256 "block" p) as [f2 b2].
  cbn [fst snd].
  assert (Q : forall (inc : Z) buf o1 w1,
              parse_sources os buf [] w = (o1, w1) ->
              (match o1 with
               | Done a => (Done (inc, a), w1)
               | GotoFail fd => (GotoFail fd, w1)
               end) = (o, w') ->
              w_h w' = w_h w /\
              ((o = Done (inc, host_list buf) /\ emitted w w' (strdups (host_list buf))) \/
               (o = GotoFail (-1) /\ strdup_failed w w'))).
  { intros inc buf o1 w1 Hp Ho. apply parse_sources_run in Hp;
      [|simpl; unfold SOURCES_ELEMS; lia].
    cbn [List.length] in Hp. rewrite Nat.sub_0_r in Hp. cbn [app] in Hp.
    fold (host_list buf) in Hp. fold (strdups (host_list buf)) in Hp.
    fold strdup_failed in Hp.
    destruct Hp as [Hh [[-> He] | [-> He]]]; inversion Ho; subst; auto. }
  destruct (C.truthy f1) eqn:T1; cbn [C.truthy Z.eqb negb is_some] in *.
  - unfold bind, ret in H.
    destruct (parse_sources os b1 [] w) as [o1 w1] eqn:Hp. eapply Q; eauto.
  - destruct (C.truthy f2) eqn:T2; cbn [is_some].
    + unfold bind, ret in H.
      destruct (parse_sources os b2 [] w) as [o1 w1] eqn:Hp. eapply Q; eauto.
    + fin H. split; [reflexivity|]. left. split; [reflexivity|]. apply emitted_nil.
Qed.

Lemma udp_open_options_run uri w o w' :
  udp_open_options os uri w = (o, w') ->
  let s := priv_data (w_h w) in
  let s' := priv_data (w_h w') in
  view_options (w_h w') = view_options (w_h w) /\
  reuse_socket s' = reuse_option (url_tag uri "reuse") (reuse_socket s) /\
  local_port s' = int_option (url_tag uri "localport") (local_port s) /\
  is_connected s' = int_option (url_tag uri "connect") (is_connected s) /\
  ((exists l, o = Done l /\
      reuse_specified l = (if is_some (url_tag uri "reuse") then 1 else 0) /\
      include l = (if url_include uri then 1 else 0) /\
      sources l = url_sources uri /\
      emitted w w' (strdups (url_sources uri))) \/
   (o = GotoFail (-1) /\ strdup_failed w w')).
Proof.
  unfold udp_open_options, url_sources, url_include, url_tag. intros H.
  destruct (C.strchr uri "?") as [off|].
  2:{ fin H. repeat split; try reflexivity. left. eexists. repeat split.
      apply emitted_nil. }
  apply bind_run in H as [[[rs la] [w1 [E1 H]]] | [fd [E1 ->]]];
    apply udp_open_plain_options_run in E1
      as [T1 [V1 [[la' O1] [R1 [L1 [C1 _]]]]]]; [|discriminate].
  injection O1 as -> ->.
  apply bind_run in H as [[[inc srcs] [w2 [E2 H]]] | [fd [E2 ->]]];
    apply udp_open_source_options_run in E2 as [H2 [[O2 M2] | [O2 M2]]];
    try discriminate.
  - injection O2 as -> ->. inversion H; subst; clear H.
    rewrite H2. repeat split; auto.
    left. eexists. repeat split; try reflexivity.
    unfold emitted in *. congruence.
  - rewrite H2. repeat split; auto.
    right. split; [congruence|].
    destruct M2 as [d [f M2]]. exists d, f. unfold emitted in *. congruence.
Qed.

End Options.

(* ===================================================================== *)
(** ** The blocks of [udp_open], one by one *)
(* ===================================================================== *)

(** What the bind of lines 482-495 did.  [first] says whether the
    multicast address is tried first (multicast destination, context not
    opened for writing); the flag says whether the block went to [fail]. *)
Inductive bind_calls (fd : Z) (dest my : sockaddr) (len : Z) (first : bool)
    : trace -> bool -> Prop :=
| bind_multicast_ok :
    first = true ->
    bind_calls fd dest my len first [EBind fd dest len SysOk] false
| bind_fallback_ok e :
    first = true ->
    bind_calls fd dest my len first
      [EBind fd dest len (SysErr e); EBind fd my len SysOk] false
| bind_fallback_failed e e' :
    first = true ->
    bind_calls fd dest my len first
      [EBind fd dest len (SysErr e); EBind fd my len (SysErr e');
       ELog AV_LOG_ERROR "bind failed"] true
| bind_local_ok :
    first = false ->
    bind_calls fd dest my len first [EBind fd my len SysOk] false
| bind_local_failed e' :
    first = false ->
    bind_calls fd dest my len first
      [EBind fd my len (SysErr e'); ELog AV_LOG_ERROR "bind failed"] true.

(** The outcome of a block that went to [fail] or not. *)
Definition outcome_of (fd : Z) (failed : bool) : outcome unit :=
  if failed then GotoFail fd else Done tt.

(** A call and, when it failed, the message that follows it. *)
Definition with_log (e : event) (r : sysres) (level : Z) (msg : string) : trace :=
  e :: (if sys_failed r then [ELog level msg] else []).

(** The calls of [udp_set_multicast_sources] when it succeeds: for each
    host in turn, its resolution and then the call [call] on the first
    address found. *)
Inductive source_calls (call : sockaddr -> event) : list string -> trace -> Prop :=
| source_calls_nil : source_calls call [] []
| source_calls_cons src rest ai ais evs :
    source_calls call rest evs ->
    source_calls call (src :: rest)
      (EGetaddrinfo (node_of (Some src)) (service_of 0) SOCK_DGRAM AF_UNSPEC
         AI_NUMERICHOST (ai :: ais)
       :: call (ai_addr ai) :: evs).

Section Blocks.

Context {libav : Libav} {platform : Platform} (os : OS).

Lemma udp_open_dest_port uri fl w port w' :
  udp_open_dest os uri fl w = (Done port, w') ->
  port = snd (av_url_split 1024 uri).
Proof.
  unfold udp_open_dest. destruct (av_url_split 1024 uri) as [hn p].
  intros H. apply bind_run in H as [[[] [w1 [_ H]]] | [fd [_ H]]];
    inversion H; reflexivity.
Qed.

(** Lines 473-480 *)
Lemma udp_open_reuse_run fd rs w o w' :
  udp_open_reuse os fd rs w = (o, w') ->
  let s := priv_data (w_h w) in
  if (C.truthy (reuse_socket s)
      || (C.truthy (is_multicast s) && negb (C.truthy rs)))%bool
  then exists r,
      emitted w w' [ESetsockopt fd SOL_SOCKET (SO_REUSEADDR 1) r] /\
      reuse_socket (priv_data (w_h w')) = 1 /\
      o = outcome_of fd (sys_failed r)
  else emitted w w' [] /\ w_h w' = w_h w /\ o = Done tt.
Proof.
  unfold udp_open_reuse. intros H. mrun_in H. open_world w.
  destruct (_ || _)%bool.
  - mrun_in H; rsimpl.
    destruct (os_setsockopt os tr fd SOL_SOCKET (SO_REUSEADDR 1)) as [|e] eqn:R;
      cbn [sys_ret Z.eqb negb] in H; fin H;
      eexists; (split; [emitted_tac|]); split; reflexivity.
  - fin H. split; [emitted_tac|]. split; reflexivity.
Qed.

(** Lines 482-495 *)
Lemma udp_open_bind_run fd my len w o w' :
  udp_open_bind os fd my len w = (o, w') ->
  let s := priv_data (w_h w) in
  w_h w' = w_h w /\
  exists evs failed,
    emitted w w' evs /\
    bind_calls fd (dest_addr s) my len
      (C.truthy (is_multicast s) && negb (has_flag (flags (w_h w)) AVIO_FLAG_WRITE))
      evs failed /\
    o = outcome_of fd failed.
Proof.
  unfold udp_open_bind. intros H. mrun_in H. open_world w.
  destruct (_ && _)%bool eqn:First; mrun_in H; rsimpl.
  - destruct (os_bind os tr fd s_dest len) as [|e] eqn:B1;
      cbn [sys_ret Z.ltb Z.compare] in H; mrun_in H; rsimpl.
    + fin H. split; [reflexivity|]. do 2 eexists. split; [emitted_tac|].
      split; [apply bind_multicast_ok; reflexivity | reflexivity].
    + destruct (os_bind os _ fd my len) as [|e'] eqn:B2;
        cbn [sys_ret Z.ltb Z.compare] in H; fin H;
        (split; [reflexivity|]); do 2 eexists; (split; [emitted_tac|]).
      * split; [apply bind_fallback_ok; reflexivity | reflexivity].
      * split; [apply bind_fallback_failed; reflexivity | reflexivity].
  - cbn [Z.ltb Z.compare] in H. mrun_in H; rsimpl.
    destruct (os_bind os tr fd my len) as [|e'] eqn:B2;
      cbn [sys_ret Z.ltb Z.compare] in H; fin H;
      (split; [reflexivity|]); do 2 eexists; (split; [emitted_tac|]).
    + split; [apply bind_local_ok; reflexivity | reflexivity].
    + split; [apply bind_local_failed; reflexivity | reflexivity].
Qed.

(** The address that [getnameinfo] is asked about: the answer of
    [getsockname], or what [my_addr] held when that call failed. *)
Definition queried_name (my : sockaddr) (name : option (sockaddr * Z)) : sockaddr * Z :=
  match name with
  | Some (a, l) => (a, l)
  | None => (my, SIZEOF_SOCKADDR_STORAGE)
  end.

(** The port that [udp_port] makes of the answer of [getnameinfo]. *)
Definition reported_port (r : option string) : Z :=
  match r with Some sb => C.strtol_int sb | None => -1 end.

Definition name_calls (fd : Z) (my : sockaddr) (name : option (sockaddr * Z))
    (r : option string) : trace :=
  [EGetsockname fd name;
   EGetnameinfo (fst (queried_name my name)) (snd (queried_name my name)) r]
  ++ (if is_some r then [] else [ELog AV_LOG_ERROR "getnameinfo"]).

(** Lines 497-499 *)
Lemma udp_open_local_port_run fd my w o w' :
  udp_open_local_port os fd my w = (o, w') ->
  exists name r,
    o = Done tt /\
    emitted w w' (name_calls fd my name r) /\
    w_h w' = set_priv_data (set_local_port (reported_port r) (priv_data (w_h w))) (w_h w).
Proof.
  unfold udp_open_local_port, udp_port. intros H. mrun_in H. open_world w.
  destruct (os_getsockname os tr fd) as [[a l]|] eqn:N; mrun_in H; rsimpl.
  - destruct (os_getnameinfo os _ a l) as [sb|] eqn:G; fin H;
      [exists (Some (a, l)), (Some sb) | exists (Some (a, l)), None];
      (split; [reflexivity|]); (split; [emitted_tac | reflexivity]).
  - destruct (os_getnameinfo os _ my SIZEOF_SOCKADDR_STORAGE) as [sb|] eqn:G; fin H;
      [exists None, (Some sb) | exists None, None];
      (split; [reflexivity|]); (split; [emitted_tac | reflexivity]).
Qed.

(** The calls of lines 527-543. *)
Definition buffer_calls (fd : Z) (is_output : bool) (size : Z) (r : sysres) : trace :=
  if is_output then
    with_log (ESetsockopt fd SOL_SOCKET (SO_SNDBUF size) r) r
      AV_LOG_ERROR "setsockopt(SO_SNDBUF)"
  else
    with_log (ESetsockopt fd SOL_SOCKET (SO_RCVBUF size) r) r
      AV_LOG_WARNING "setsockopt(SO_RECVBUF)"
    ++ [ENonblock fd 1].

(** Lines 527-543 *)
Lemma udp_open_buffers_run fd is_output w o w' :
  udp_open_buffers os fd is_output w = (o, w') ->
  w_h w' = w_h w /\
  exists r,
    emitted w w' (buffer_calls fd is_output (buffer_size (priv_data (w_h w))) r) /\
    o = outcome_of fd (is_output && sys_failed r).
Proof.
  unfold udp_open_buffers. intros H. mrun_in H. open_world w.
  destruct is_output; mrun_in H; rsimpl.
  - destruct (os_setsockopt os tr fd SOL_SOCKET (SO_SNDBUF _)) as [|e] eqn:R;
      cbn [sys_ret Z.ltb Z.compare] in H; fin H;
      (split; [reflexivity|]); [exists SysOk | exists (SysErr e)];
      (split; [emitted_tac | reflexivity]).
  - destruct (os_setsockopt os tr fd SOL_SOCKET (SO_RCVBUF _)) as [|e] eqn:R;
      cbn [sys_ret Z.ltb Z.compare] in H; fin H;
      (split; [reflexivity|]); [exists SysOk | exists (SysErr e)];
      (split; [emitted_tac | reflexivity]).
Qed.

(** The calls of lines 544-549. *)
Definition connect_calls (fd : Z) (s : UDPContext) (r : sysres) : trace :=
  if C.truthy (is_connected s) then
    with_log (EConnect fd (dest_addr s) (dest_addr_len s) r) r AV_LOG_ERROR "connect"
  else [].

(** Lines 544-549 *)
Lemma udp_open_connect_run fd w o w' :
  udp_open_connect os fd w = (o, w') ->
  let s := priv_data (w_h w) in
  w_h w' = w_h w /\
  exists r,
    emitted w w' (connect_calls fd s r) /\
    o = outcome_of fd (C.truthy (is_connected s) && sys_failed r).
Proof.
  unfold udp_open_connect, connect_calls. intros H. mrun_in H. open_world w.
  destruct (C.truthy s_conn); mrun_in H; rsimpl.
  - destruct (os_connect os tr fd s_dest s_dlen) as [|e] eqn:R;
      cbn [sys_ret C.truthy Z.eqb negb] in H; fin H;
      (split; [reflexivity|]); [exists SysOk | exists (SysErr e)];
      (split; [emitted_tac | reflexivity]).
  - fin H. split; [reflexivity|]. exists SysOk. split; [emitted_tac | reflexivity].
Qed.

(** The calls of [udp_resolve_host]. *)
Definition resolve_calls (hostname : option string) (port type family aiflags : Z)
    (res : list addrinfo) : trace :=
  EGetaddrinfo (node_of hostname) (service_of port) type family aiflags res
  :: match res with [] => [ELog AV_LOG_ERROR "udp_resolve_host"] | _ => [] end.

Lemma udp_resolve_host_run hostname port type family aiflags w o w' :
  udp_resolve_host os hostname port type family aiflags w = (o, w') ->
  exists res,
    o = Done res /\ w_h w' = w_h w /\
    emitted w w' (resolve_calls hostname port type family aiflags res).
Proof.
  unfold udp_resolve_host. intros H. mrun_in H. destruct w as [h tr]. rsimpl.
  destruct (os_getaddrinfo os tr _ _ type family aiflags) as [|ai ais] eqn:R;
    fin H; eexists; (split; [reflexivity|]); (split; [reflexivity|]);
    unfold resolve_calls; emitted_tac.
Qed.

(** The candidates of [udp_socket_create]: the loop stops at the first
    one for which [socket] does not return -1. *)
Lemma socket_loop_run res fd0 w o w' :
  socket_loop os res fd0 w = (o, w') ->
  exists fd res' evs,
    o = Done (fd, res') /\ w_h w' = w_h w /\ emitted w w' evs /\
    forallb (of_kinds [KLog; KSocket]) evs = true /\
    match res' with
    | [] => (res = [] /\ fd = fd0) \/ fd = -1
    | ai :: _ => In ai res /\ In (ESocket (ai_family ai) fd) evs
    end.
Proof.
  revert fd0 w. induction res as [|ai rest IH]; intros fd0 w H; simpl in H.
  - fin H. exists fd0, [], []. repeat split; auto. apply emitted_nil.
  - mrun_in H. destruct w as [h tr]. rsimpl.
    destruct (os_socket os tr (ai_family ai) =? -1) eqn:E; cbn [negb] in H.
    + apply Z.eqb_eq in E.
      apply IH in H as [fd [res' [evs [Ho [Hh [He [Hk Hr]]]]]]].
      exists fd, res', (ESocket (ai_family ai) (os_socket os tr (ai_family ai))
                        :: ELog AV_LOG_ERROR "socket" :: evs).
      rsimpl. repeat split; auto.
      * unfold emitted in *. rsimpl. rewrite He. rewrite <- !app_assoc. reflexivity.
      * destruct res' as [|ai' r']; [|destruct Hr as [Hi Hs]; split; simpl; auto].
        right. destruct Hr as [[_ ->] | Hr]; [exact E | exact Hr].
    + fin H. exists (os_socket os tr (ai_family ai)), (ai :: rest),
        [ESocket (ai_family ai) (os_socket os tr (ai_family ai))].
      repeat split; simpl; auto; try emitted_tac.
Qed.

(** *** [udp_socket_create] *)
Lemma udp_socket_create_run a0 l0 la w o w' :
  udp_socket_create os a0 l0 la w = (o, w') ->
  let s := priv_data (w_h w) in
  exists fd my len res rest,
    o = Done (fd, my, len) /\ w_h w' = w_h w /\
    emitted w w'
      (EGetaddrinfo (if Ascii.eqb (C.head la) zero then None else node_of (Some la))
         (service_of (local_port s)) SOCK_DGRAM
         (if C.truthy (sa_family (dest_addr s)) then sa_family (dest_addr s)
          else AF_UNSPEC)
         AI_PASSIVE res :: rest) /\
    forallb (of_kinds [KLog; KSocket; KClose]) rest = true /\
    (0 <= fd -> exists ai, In ai res /\ my = ai_addr ai /\ len = ai_addrlen ai).
Proof.
  unfold udp_socket_create. intros H.
  apply bind_run in H as [[s [w0 [E0 H]]] | [fd [E0 _]]]; [|discriminate].
  inversion E0; subst; clear E0.
  apply bind_run in H as [[res [w1 [E1 H]]] | [fd [E1 _]]];
    apply udp_resolve_host_run in E1 as [res' [O1 [H1 M1]]]; [|discriminate].
  injection O1 as <-.
  assert (Node : node_of (if Ascii.eqb (C.head la) zero then None else Some la)
                 = (if Ascii.eqb (C.head la) zero then None else node_of (Some la)))
    by (destruct (Ascii.eqb (C.head la) zero); reflexivity).
  unfold resolve_calls in M1. rewrite Node in M1.
  destruct res as [|ai0 ais0].
  - mrun_in H. change (0 <=? -1) with false in H.
    fin H. exists (-1), a0, l0, [], [ELog AV_LOG_ERROR "udp_resolve_host"].
    repeat split; auto. intros Hfd. lia.
  - remember (ai0 :: ais0) as res eqn:Hres.
    assert (H' : (' (udp_fd, res1) <- socket_loop os res (-1) ;;
                  if udp_fd <? 0
                  then when (0 <=? udp_fd) (closesocket udp_fd) ;; ret (-1, a0, l0)
                  else match res1 with
                       | ai :: _ => ret (udp_fd, ai_addr ai, ai_addrlen ai)
                       | [] => when (0 <=? udp_fd) (closesocket udp_fd) ;;
                               ret (-1, a0, l0)
                       end) w1 = (o, w'))
      by (rewrite Hres in *; exact H).
    assert (Hne : res <> []) by (rewrite Hres; discriminate).
    clear H Hres. rename H' into H.
    apply bind_run in H as [[[fd res1] [w2 [E2 H]]] | [fd [E2 _]]];
      apply socket_loop_run in E2 as [fd' [res1' [evs [O2 [H2 [M2 [K2 R2]]]]]]];
      [|discriminate].
    injection O2 as <- <-.
    assert (K2' : forallb (of_kinds [KLog; KSocket; KClose]) evs = true).
    { rewrite forallb_forall in *. intros e He. apply K2 in He.
      eapply covers_of_kinds; [|exact He]. reflexivity. }
    assert (M : emitted w0 w2
                  (EGetaddrinfo
                     (if Ascii.eqb (C.head la) zero then None else node_of (Some la))
                     (service_of (local_port (priv_data (w_h w0)))) SOCK_DGRAM
                     (if C.truthy (sa_family (dest_addr (priv_data (w_h w0))))
                      then sa_family (dest_addr (priv_data (w_h w0))) else AF_UNSPEC)
                     AI_PASSIVE res :: evs)).
    { apply (emitted_trans _ _ _ _ _ M1 M2). }
    destruct (fd <? 0) eqn:L.
    + apply Z.ltb_lt in L.
      assert (N : (0 <=? fd) = false) by (apply Z.leb_gt; lia).
      unfold bind, when in H. rewrite N in H. fin H.
      exists (-1), a0, l0, res, evs. repeat split; auto; try congruence. intros; lia.
    + apply Z.ltb_ge in L. destruct res1 as [|ai r1].
      * destruct R2 as [[R2 _] | R2]; [contradiction | lia].
      * fin H. destruct R2 as [Hin _].
        exists fd, (ai_addr ai), (ai_addrlen ai), res, evs.
        repeat split; auto; try congruence. intros _. exists ai. auto.
Qed.

(** The successful call of the loop compiled with
    [struct group_source_req], and of the IPv4-only loop. *)
Definition generic_source_call (fd : Z) (addr : sockaddr) (include : Z)
    (src : sockaddr) : event :=
  ESetsockopt fd (if sa_family addr =? AF_INET then IPPROTO_IP else IPPROTO_IPV6)
    (if C.truthy include then MCAST_JOIN_SOURCE_GROUP addr src
     else MCAST_BLOCK_SOURCE addr src) SysOk.

Definition ipv4_source_call (fd : Z) (addr : sockaddr) (include : Z)
    (src : sockaddr) : event :=
  ESetsockopt fd IPPROTO_IP
    (if C.truthy include then IP_ADD_SOURCE_MEMBERSHIP addr src
     else IP_BLOCK_SOURCE addr src) SysOk.

(** The one that this build makes. *)
Definition source_call (fd : Z) (addr : sockaddr) (include : Z) : sockaddr -> event :=
  if HAVE_STRUCT_GROUP_SOURCE_REQ then generic_source_call fd addr include
  else ipv4_source_call fd addr include.

Lemma set_sources_generic_ok fd a al srcs inc w code w' :
  set_sources_generic os fd a al srcs inc w = (Done code, w') ->
  0 <= code ->
  w_h w' = w_h w /\
  exists evs, emitted w w' evs /\ source_calls (generic_source_call fd a inc) srcs evs.
Proof.
  revert w. induction srcs as [|src rest IH]; intros w H Hc; simpl in H.
  - fin H. split; [reflexivity|]. exists []. split; [apply emitted_nil | constructor].
  - apply bind_run in H as [[res [w1 [E1 H]]] | [fd' [_ H]]]; [|discriminate].
    apply udp_resolve_host_run in E1 as [res' [O1 [H1 M1]]]. injection O1 as <-.
    destruct res as [|ai ais].
    { fin H. unfold AVERROR, ENOENT in Hc. lia. }
    mrun_in H. destruct w1 as [h1 tr1]. rsimpl.
    destruct (os_setsockopt os tr1 fd _ _) as [|e] eqn:R;
      cbn [sys_ret Z.ltb Z.compare] in H.
    2:{ destruct (C.truthy inc); fin H; simpl in Hc; lia. }
    apply IH in H as [H2 [evs [M2 S2]]]; [|exact Hc]. rsimpl.
    split; [congruence|].
    eexists. split; [|apply source_calls_cons; exact S2].
    unfold emitted, resolve_calls in *. rsimpl. rewrite M2, M1.
    unfold generic_source_call. rewrite <- !app_assoc. reflexivity.
Qed.

Lemma set_sources_ipv4_ok fd a srcs inc w code w' :
  set_sources_ipv4 os fd a srcs inc w = (Done code, w') ->
  0 <= code ->
  w_h w' = w_h w /\
  exists evs, emitted w w' evs /\ source_calls (ipv4_source_call fd a inc) srcs evs.
Proof.
  revert w. induction srcs as [|src rest IH]; intros w H Hc; simpl in H.
  - fin H. split; [reflexivity|]. exists []. split; [apply emitted_nil | constructor].
  - apply bind_run in H as [[res [w1 [E1 H]]] | [fd' [_ H]]]; [|discriminate].
    apply udp_resolve_host_run in E1 as [res' [O1 [H1 M1]]]. injection O1 as <-.
    destruct res as [|ai ais].
    { fin H. unfold AVERROR, ENOENT in Hc. lia. }
    destruct (negb (sa_family (ai_addr ai) =? AF_INET)).
    { fin H. unfold AVERROR, EINVAL in Hc. lia. }
    mrun_in H. destruct w1 as [h1 tr1]. rsimpl.
    destruct (os_setsockopt os tr1 fd _ _) as [|e] eqn:R;
      cbn [sys_ret Z.ltb Z.compare] in H.
    2:{ destruct (C.truthy inc); fin H; simpl in Hc; lia. }
    apply IH in H as [H2 [evs [M2 S2]]]; [|exact Hc]. rsimpl.
    split; [congruence|].
    eexists. split; [|apply source_calls_cons; exact S2].
    unfold emitted, resolve_calls in *. rsimpl. rewrite M2, M1.
    unfold ipv4_source_call. rewrite <- !app_assoc. reflexivity.
Qed.

(** [udp_set_multicast_sources] returned without an error: it made one
    call per host. *)
Lemma udp_set_multicast_sources_ok fd a al srcs inc w code w' :
  udp_set_multicast_sources os fd a al srcs inc w = (Done code, w') ->
  0 <= code ->
  w_h w' = w_h w /\
  exists evs, emitted w w' evs /\ source_calls (source_call fd a inc) srcs evs.
Proof.
  unfold udp_set_multicast_sources, source_call. intros H Hc.
  destruct HAVE_STRUCT_GROUP_SOURCE_REQ.
  - eapply set_sources_generic_ok; eauto.
  - destruct HAVE_STRUCT_IP_MREQ_SOURCE.
    + destruct (negb (sa_family a =? AF_INET)).
      * fin H. unfold AVERROR, EINVAL in Hc. lia.
      * eapply set_sources_ipv4_ok; eauto.
    + fin H. unfold AVERROR, ENOSYS in Hc. lia.
Qed.

(** The call of a successful [udp_join_multicast_group]: one for an
    IPv4 or IPv6 group address when the build has the option, none
    otherwise. *)
Definition join_calls (fd : Z) (a : sockaddr) : trace :=
  (if (HAVE_IP_ADD_MEMBERSHIP && (sa_family a =? AF_INET))%bool
   then [ESetsockopt fd IPPROTO_IP (IP_ADD_MEMBERSHIP a) SysOk] else [])
  ++ (if (HAVE_STRUCT_IPV6_MREQ && (sa_family a =? AF_INET6))%bool
      then [ESetsockopt fd IPPROTO_IPV6 (IPV6_ADD_MEMBERSHIP a) SysOk] else []).

Lemma udp_join_multicast_group_ok fd a w code w' :
  udp_join_multicast_group os fd a w = (Done code, w') ->
  0 <= code ->
  w_h w' = w_h w /\ emitted w w' (join_calls fd a).
Proof.
  unfold udp_join_multicast_group, join_calls. intros H Hc.
  mrun_in H. destruct w as [h tr]. rsimpl.
  destruct (HAVE_IP_ADD_MEMBERSHIP && _)%bool; mrun_in H; rsimpl.
  - destruct (os_setsockopt os tr fd IPPROTO_IP _) as [|e];
      cbn [sys_ret Z.ltb Z.compare] in H; mrun_in H; rsimpl; [|fin H; lia].
    destruct (HAVE_STRUCT_IPV6_MREQ && _)%bool; mrun_in H; rsimpl.
    + destruct (os_setsockopt os _ fd IPPROTO_IPV6 _) as [|e];
        cbn [sys_ret Z.ltb Z.compare] in H; fin H; [|lia].
      split; [reflexivity | emitted_tac].
    + fin H. split; [reflexivity | emitted_tac].
  - destruct (HAVE_STRUCT_IPV6_MREQ && _)%bool; mrun_in H; rsimpl.
    + destruct (os_setsockopt os _ fd IPPROTO_IPV6 _) as [|e];
        cbn [sys_ret Z.ltb Z.compare] in H; fin H; [|lia].
      split; [reflexivity | emitted_tac].
    + fin H. split; [reflexivity | emitted_tac].
Qed.

(** Lines 501-525 passed.  [plain] is the test of line 509: the plain
    join is made, and the hosts are blocked. *)
Lemma udp_open_multicast_ok fd l w w' :
  udp_open_multicast os fd l w = (Done tt, w') ->
  let h := w_h w in
  let s := priv_data h in
  let plain := ((num_sources l =? 0) || negb (C.truthy (include l)))%bool in
  w_h w' = w_h w /\
  exists e_ttl e_grp,
    emitted w w' (e_ttl ++ e_grp) /\
    forallb (of_kinds [KTtl; KLog]) e_ttl = true /\
    if (C.truthy (is_multicast s) && has_flag (flags h) AVIO_FLAG_READ)%bool then
      exists e_src,
        source_calls (source_call fd (dest_addr s) (if plain then 0 else 1))
          (sources l) e_src /\
        e_grp = (if plain then join_calls fd (dest_addr s) else []) ++ e_src
    else e_grp = [].
Proof.
  unfold udp_open_multicast. intros H.
  apply bind_run in H as [[s [w0 [E0 H]]] | [fd' [_ H]]]; [|discriminate].
  inversion E0; subst; clear E0.
  apply bind_run in H as [[h [w1 [E1 H]]] | [fd' [_ H]]]; [|discriminate].
  inversion E1; subst; clear E1. cbv zeta.
  destruct (C.truthy (is_multicast (priv_data (w_h w1)))) eqn:Mc; cbn [when andb] in H.
  2:{ fin H. split; [reflexivity|]. exists [], []. repeat split; auto. apply emitted_nil. }
  apply bind_run in H as [[[] [w2 [E2 H]]] | [fd' [_ H]]]; [|discriminate].
  assert (T : w_h w2 = w_h w1 /\ exists e_ttl, emitted w1 w2 e_ttl
               /\ forallb (of_kinds [KTtl; KLog]) e_ttl = true).
  { destruct (has_flag _ AVIO_FLAG_WRITE); cbn [when] in E2.
    - apply bind_run in E2 as [[r [w3 [E3 E2]]] | [fd' [_ E2]]]; [|discriminate].
      destruct (r <? 0); cbn [when] in E2; [discriminate|]. fin E2.
      apply (helper_run _ _ (udp_set_multicast_ttl_frame os _ _ _)) in E3
        as [code [evs [_ [-> K]]]].
      split; [reflexivity|]. exists evs. split; [emitted_tac | exact K].
    - fin E2. split; [reflexivity|]. exists []. split; [apply emitted_nil | reflexivity]. }
  destruct T as [H2 [e_ttl [M2 K2]]].
  destruct (has_flag (flags (w_h w1)) AVIO_FLAG_READ) eqn:Rd; cbn [when] in H.
  2:{ fin H. split; [exact H2|]. exists e_ttl, []. rewrite app_nil_r.
      cbn [andb]. auto. }
  cbn [andb].
  assert (N : num_sources l = 0 -> sources l = []).
  { unfold num_sources. destruct (sources l); [reflexivity|]. simpl. lia. }
  destruct ((num_sources l =? 0) || negb (C.truthy (include l)))%bool eqn:Plain.
  - (* the plain join, then the blocked hosts *)
    apply bind_run in H as [[r [w3 [E3 H]]] | [fd' [_ H]]]; [|discriminate].
    apply bind_run in H as [[[] [w4 [E4 H]]] | [fd' [_ H]]]; [|discriminate].
    destruct (r <? 0) eqn:Hr; cbn [when] in E4; [discriminate|].
    apply Z.ltb_ge in Hr. fin E4.
    apply udp_join_multicast_group_ok in E3 as [H3 M3]; [|exact Hr].
    destruct (C.truthy (num_sources l)) eqn:Ns; cbn [when] in H.
    + apply bind_run in H as [[r' [w5 [E5 H]]] | [fd' [_ H]]]; [|discriminate].
      destruct (r' <? 0) eqn:Hr'; cbn [when] in H; [discriminate|].
      apply Z.ltb_ge in Hr'. fin H.
      apply udp_set_multicast_sources_ok in E5 as [H5 [e_src [M5 S5]]]; [|exact Hr'].
      split; [congruence|]. exists e_ttl, (join_calls fd (dest_addr (priv_data (w_h w1))) ++ e_src).
      split; [|split; [exact K2|]].
      * apply (emitted_trans _ _ _ _ _ M2).
        apply (emitted_trans _ _ _ _ _ M3). exact M5.
      * exists e_src. auto.
    + fin H. apply truthy_false in Ns. rewrite (N Ns).
      split; [congruence|]. exists e_ttl, (join_calls fd (dest_addr (priv_data (w_h w1))) ++ []).
      split; [|split; [exact K2|]].
      * apply (emitted_trans _ _ _ _ _ M2). rewrite app_nil_r. exact M3.
      * exists []. split; [constructor | reflexivity].
  - apply orb_false_elim in Plain as [Z0 Inc]. apply negb_false_iff in Inc.
    rewrite Inc in H. apply Z.eqb_neq in Z0. apply truthy_true in Z0. rewrite Z0 in H.
    cbn [andb] in H.
    apply bind_run in H as [[r' [w5 [E5 H]]] | [fd' [_ H]]]; [|discriminate].
    destruct (r' <? 0) eqn:Hr'; cbn [when] in H; [discriminate|].
    apply Z.ltb_ge in Hr'. fin H.
    apply udp_set_multicast_sources_ok in E5 as [H5 [e_src [M5 S5]]]; [|exact Hr'].
    split; [congruence|]. exists e_ttl, e_src.
    split; [|split; [exact K2|]].
    * apply (emitted_trans _ _ _ _ _ M2). exact M5.
    * exists e_src. auto.
Qed.

End Blocks.

(* ===================================================================== *)
(** ** Whole runs of [udp_open] *)
(* ===================================================================== *)

Section WholeRuns.

Context {libav : Libav} {platform : Platform} (os : OS).

(** The local port that [udp_socket_create] is called with, after
    lines 467-468: [lport] is the configured local port, [multicast]
    and [reading] the two tests. *)
Definition port_to_bind (lport : Z) (multicast reading : bool) (port : Z) : Z :=
  if ((multicast || (lport =? 0)) && reading)%bool then port else lport.

(** The events of lines 397-471 and what they leave. *)
Lemma open_prefix_facts uri fl w l port fd my len w4 :
  open_prefix os uri fl w l port fd my len w4 ->
  let s := priv_data (w_h w) in
  let s4 := priv_data (w_h w4) in
  flags (w_h w4) = flags (w_h w) /\
  port = snd (av_url_split 1024 uri) /\
  reuse_specified l = (if is_some (url_tag uri "reuse") then 1 else 0) /\
  include l = (if url_include uri then 1 else 0) /\
  sources l = url_sources uri /\
  reuse_socket s4 = reuse_option (url_tag uri "reuse") (reuse_socket s) /\
  exists c_dest node family res rest,
    emitted w w4
      (strdups (url_sources uri) ++ c_dest
       ++ EGetaddrinfo node
            (service_of
               (port_to_bind (int_option (url_tag uri "localport") (local_port s))
                  (C.truthy (is_multicast s4))
                  (has_flag (flags (w_h w)) AVIO_FLAG_READ) port))
            SOCK_DGRAM family AI_PASSIVE res
       :: rest) /\
    forallb (of_kinds dest_kinds) c_dest = true /\
    forallb (of_kinds [KLog; KSocket; KClose]) rest = true /\
    (0 <= fd -> exists ai, In ai res /\ my = ai_addr ai /\ len = ai_addrlen ai).
Proof.
  intros [w0 [w1 [w2 [w3 [E0 [E1 [E2 [E3 E4]]]]]]]].
  apply udp_open_init_done in E0 as [_ [T0 [V0 [R0 [L0 C0]]]]].
  apply udp_open_options_run in E1 as [V1 [R1 [L1 [C1 [[l' [O1 [Rs [Inc [Src M1]]]]] | [O1 _]]]]]];
    [|discriminate].
  injection O1 as <-.
  pose proof (udp_open_dest_port _ _ _ _ _ _ E2) as Hport.
  apply udp_open_dest_frame in E2 as [[[c_dest [T2 K2]] V2] _].
  apply udp_open_default_port_done in E3 as [_ [T3 [V3 [R3 L3]]]].
  apply udp_socket_create_run in E4
    as [fd' [my' [len' [res [rest [O4 [H4 [M4 [K4 A4]]]]]]]]].
  injection O4 as <- <- <-.
  unfold view_options, view_set_remote, view_socket in *.
  injection V0 as V0a V0b V0c V0d V0e. injection V1 as V1a V1b V1c V1d V1e.
  injection V2 as V2a V2b V2c V2d V2e V2f V2g V2h.
  injection V3 as V3a V3b V3c V3d V3e V3f V3g V3h V3i V3j.
  cbv zeta. rewrite H4.
  split; [congruence|]. split; [exact Hport|]. split; [exact Rs|].
  split; [exact Inc|]. split; [exact Src|].
  split; [congruence|].
  exists c_dest. do 4 eexists. split; [|split; [exact K2|split; [exact K4|exact A4]]].
  unfold emitted in *. rewrite M4, T3, T2, M1, T0.
  rewrite <- !app_assoc. do 2 f_equal.
  unfold port_to_bind. rewrite L3.
  replace (local_port (priv_data (w_h w2)))
    with (int_option (url_tag uri "localport") (local_port (priv_data (w_h w))))
    by congruence.
  replace (is_multicast (priv_data (w_h w3))) with (is_multicast (priv_data (w_h w2)))
    by congruence.
  replace (flags (w_h w2)) with (flags (w_h w)) by congruence.
  reflexivity.
Qed.

(** The test of line 476. *)
Definition reuse_wanted (s : UDPContext) (reuse_specified : Z) : bool :=
  (C.truthy (reuse_socket s)
   || (C.truthy (is_multicast s) && negb (C.truthy reuse_specified)))%bool.

(** What each block of lines 473-549 does when it is reached: its
    calls [c], and whether it went to [fail]. *)
Definition reuse_stage (fd rs : Z) (h : URLContext) (c : trace) (f : bool) : Prop :=
  if reuse_wanted (priv_data h) rs
  then exists r, c = [ESetsockopt fd SOL_SOCKET (SO_REUSEADDR 1) r] /\ f = sys_failed r
  else c = [] /\ f = false.

Definition bind_stage (fd : Z) (my : sockaddr) (len : Z) (h : URLContext)
    (c : trace) (f : bool) : Prop :=
  bind_calls fd (dest_addr (priv_data h)) my len
    (C.truthy (is_multicast (priv_data h)) && negb (has_flag (flags h) AVIO_FLAG_WRITE))
    c f.

Definition name_stage (fd : Z) (my : sockaddr) (c : trace) (lport : Z) : Prop :=
  exists name r, c = name_calls fd my name r /\ lport = reported_port r.

Definition multicast_stage (fd : Z) (l : open_locals) (h : URLContext)
    (c : trace) (f : bool) : Prop :=
  forallb (of_kinds multicast_kinds) c = true /\
  (f = false ->
   let plain := ((num_sources l =? 0) || negb (C.truthy (include l)))%bool in
   exists e_ttl e_grp,
     c = e_ttl ++ e_grp /\
     forallb (of_kinds [KTtl; KLog]) e_ttl = true /\
     if (C.truthy (is_multicast (priv_data h))
         && has_flag (flags h) AVIO_FLAG_READ)%bool then
       exists e_src,
         source_calls
           (source_call fd (dest_addr (priv_data h)) (if plain then 0 else 1))
           (sources l) e_src /\
         e_grp = (if plain then join_calls fd (dest_addr (priv_data h)) else [])
                 ++ e_src
     else e_grp = []).

Definition buffer_stage (fd : Z) (is_output : bool) (h : URLContext)
    (c : trace) (f : bool) : Prop :=
  exists r, c = buffer_calls fd is_output (buffer_size (priv_data h)) r /\
            f = (is_output && sys_failed r)%bool.

Definition connect_stage (fd : Z) (h : URLContext) (c : trace) (f : bool) : Prop :=
  exists r, c = connect_calls fd (priv_data h) r /\
            f = (C.truthy (is_connected (priv_data h)) && sys_failed r)%bool.

(** A block after the one that went to [fail] is not run. *)
Definition stage (stopped : bool) (P : Prop) (c : trace) (f : bool) : Prop :=
  if stopped then c = [] /\ f = false else P.

Lemma outcome_of_fail fd failed fd' :
  GotoFail fd' = outcome_of fd failed -> failed = true.
Proof. destruct failed; [reflexivity | discriminate]. Qed.

Lemma outcome_of_done fd failed :
  Done tt = outcome_of fd failed -> failed = false.
Proof. destruct failed; [discriminate | reflexivity]. Qed.

Lemma view_socket_fields h h' :
  view_socket h' = view_socket h ->
  flags h' = flags h /\
  is_multicast (priv_data h') = is_multicast (priv_data h) /\
  dest_addr (priv_data h') = dest_addr (priv_data h) /\
  dest_addr_len (priv_data h') = dest_addr_len (priv_data h) /\
  is_connected (priv_data h') = is_connected (priv_data h) /\
  buffer_size (priv_data h') = buffer_size (priv_data h) /\
  udp_fd (priv_data h') = udp_fd (priv_data h).
Proof. unfold view_socket. intros V. injection V. intros. repeat split; assumption. Qed.

Ltac use_view V :=
  let F := fresh "F" in
  pose proof (view_socket_fields _ _ V) as F;
  destruct F as [?Vf [?Vm [?Vd [?Vl [?Vc [?Vb ?Vu]]]]]].

Lemma bind_stage_view fd my len h h' c f :
  view_socket h' = view_socket h ->
  bind_stage fd my len h' c f -> bind_stage fd my len h c f.
Proof. intros V. use_view V. unfold bind_stage. rewrite Vf, Vm, Vd. auto. Qed.

Lemma multicast_stage_view fd l h h' c f :
  view_socket h' = view_socket h ->
  multicast_stage fd l h' c f -> multicast_stage fd l h c f.
Proof. intros V. use_view V. unfold multicast_stage. rewrite Vf, Vm, Vd. auto. Qed.

Lemma buffer_stage_view fd io h h' c f :
  view_socket h' = view_socket h ->
  buffer_stage fd io h' c f -> buffer_stage fd io h c f.
Proof. intros V. use_view V. unfold buffer_stage. rewrite Vb. auto. Qed.

Lemma connect_stage_view fd h h' c f :
  view_socket h' = view_socket h ->
  connect_stage fd h' c f -> connect_stage fd h c f.
Proof.
  intros V. use_view V. unfold connect_stage, connect_calls. rewrite Vc, Vd, Vl. auto.
Qed.

(** Each block in the words of its stage. *)
Lemma reuse_block fd rs w o w' :
  udp_open_reuse os fd rs w = (o, w') ->
  exists c f,
    emitted w w' c /\ o = outcome_of fd f /\ reuse_stage fd rs (w_h w) c f /\
    view_socket (w_h w') = view_socket (w_h w) /\
    reuse_socket (priv_data (w_h w'))
      = (if reuse_wanted (priv_data (w_h w)) rs then 1
         else reuse_socket (priv_data (w_h w))).
Proof.
  intros H.
  pose proof (udp_open_reuse_frame os fd rs _ _ _ H) as [[_ V] _].
  apply (f_equal fst) in V. cbn [fst] in V.
  apply udp_open_reuse_run in H. cbv zeta in H.
  unfold reuse_stage, reuse_wanted.
  destruct (_ || _)%bool.
  - destruct H as [r [M [R O]]]. exists [ESetsockopt fd SOL_SOCKET (SO_REUSEADDR 1) r],
      (sys_failed r). repeat split; eauto.
  - destruct H as [M [Hh O]]. exists [], false. rewrite Hh. repeat split; auto.
Qed.

Lemma bind_block fd my len w o w' :
  udp_open_bind os fd my len w = (o, w') ->
  exists c f,
    emitted w w' c /\ o = outcome_of fd f /\ bind_stage fd my len (w_h w) c f /\
    w_h w' = w_h w.
Proof.
  intros H. apply udp_open_bind_run in H as [Hh [c [f [M [B O]]]]].
  exists c, f. auto.
Qed.

Lemma name_block fd my w o w' :
  udp_open_local_port os fd my w = (o, w') ->
  exists c,
    emitted w w' c /\ o = Done tt /\
    name_stage fd my c (local_port (priv_data (w_h w'))) /\
    view_socket (w_h w') = view_socket (w_h w) /\
    reuse_socket (priv_data (w_h w')) = reuse_socket (priv_data (w_h w)).
Proof.
  intros H. apply udp_open_local_port_run in H as [name [r [O [M Hh]]]].
  exists (name_calls fd my name r). rewrite Hh. repeat split; auto.
  exists name, r. split; reflexivity.
Qed.

Lemma multicast_block fd l w o w' :
  udp_open_multicast os fd l w = (o, w') ->
  exists c f,
    emitted w w' c /\ o = outcome_of fd f /\ multicast_stage fd l (w_h w) c f /\
    w_h w' = w_h w.
Proof.
  intros H.
  pose proof (udp_open_multicast_frame os fd l _ _ _ H) as [[[c [T K]] V] Fo].
  simpl in V. destruct o as [[]|fd'].
  - exists c, false. split; [exact T|]. split; [reflexivity|]. split; [|exact V].
    split; [exact K|]. intros _.
    apply udp_open_multicast_ok in H as [_ [e_ttl [e_grp [M [Kt G]]]]].
    exists e_ttl, e_grp. split; [|split; [exact Kt | exact G]].
    unfold emitted in *. rewrite T in M. apply app_inv_head in M. exact M.
  - simpl in Fo. subst fd'. exists c, true. split; [exact T|]. split; [reflexivity|].
    split; [|exact V]. split; [exact K|]. discriminate.
Qed.

Lemma buffers_block fd io w o w' :
  udp_open_buffers os fd io w = (o, w') ->
  exists c f,
    emitted w w' c /\ o = outcome_of fd f /\ buffer_stage fd io (w_h w) c f /\
    w_h w' = w_h w.
Proof.
  intros H. apply udp_open_buffers_run in H as [Hh [r [M O]]].
  do 2 eexists. split; [exact M|]. split; [exact O|]. split; [|exact Hh].
  exists r. auto.
Qed.

Lemma connect_block fd w o w' :
  udp_open_connect os fd w = (o, w') ->
  exists c f,
    emitted w w' c /\ o = outcome_of fd f /\ connect_stage fd (w_h w) c f /\
    w_h w' = w_h w.
Proof.
  intros H. apply udp_open_connect_run in H as [Hh [r [M O]]].
  do 2 eexists. split; [exact M|]. split; [exact O|]. split; [|exact Hh].
  exists r. auto.
Qed.

Ltac blocks :=
  repeat match goal with
  | E : udp_open_reuse _ _ _ _ = _ |- _ =>
      apply reuse_block in E as [?c1 [?f1 [?M1 [?O1 [?S1 [?V1 ?R1]]]]]]
  | E : udp_open_bind _ _ _ _ _ = _ |- _ =>
      apply bind_block in E as [?c2 [?f2 [?M2 [?O2 [?S2 ?H2]]]]]
  | E : udp_open_local_port _ _ _ _ = _ |- _ =>
      apply name_block in E as [?c3 [?M3 [_ [?S3 [?V3 ?R3]]]]]
  | E : udp_open_multicast _ _ _ _ = _ |- _ =>
      apply multicast_block in E as [?c4 [?f4 [?M4 [?O4 [?S4 ?H4]]]]]
  | E : udp_open_buffers _ _ _ _ = _ |- _ =>
      apply buffers_block in E as [?c5 [?f5 [?M5 [?O5 [?S5 ?H5]]]]]
  | E : udp_open_connect _ _ _ = _ |- _ =>
      apply connect_block in E as [?c6 [?f6 [?M6 [?O6 [?S6 ?H6]]]]]
  end;
  repeat match goal with
  | O : Done tt = outcome_of _ _ |- _ => apply outcome_of_done in O; subst
  | O : GotoFail _ = outcome_of _ _ |- _ => apply outcome_of_fail in O; subst
  end.

Ltac chain :=
  cbn [app]; rewrite ?app_nil_r;
  repeat (eapply emitted_trans; [eassumption|]); eassumption.

Ltac views :=
  repeat match goal with
  | H : w_h ?a = w_h ?b |- _ => rewrite H in *; clear H
  end.

Ltac stage_goal :=
  cbn [orb stage];
  first
    [ split; reflexivity
    | assumption
    | eapply bind_stage_view; [|eassumption]; congruence
    | eapply multicast_stage_view; [|eassumption]; congruence
    | eapply buffer_stage_view; [|eassumption]; congruence
    | eapply connect_stage_view; [|eassumption]; congruence ].

Ltac stages :=
  views;
  split; [chain|];
  split; [reflexivity|];
  split; [congruence|];
  split; [congruence|];
  split; [assumption|];
  split; [stage_goal|];
  split; [stage_goal|];
  split; [stage_goal|];
  split; [stage_goal|];
  stage_goal.

(** A run of lines 473-549, stage by stage. *)
Lemma socket_run_stages fd my len l io w o w' :
  socket_run os fd my len l io w o w' ->
  let h := w_h w in
  exists c1 c2 c3 c4 c5 c6 f1 f2 f4 f5 f6,
    emitted w w' (c1 ++ c2 ++ c3 ++ c4 ++ c5 ++ c6) /\
    o = outcome_of fd (f1 || f2 || f4 || f5 || f6) /\
    view_socket (w_h w') = view_socket h /\
    reuse_socket (priv_data (w_h w'))
      = (if reuse_wanted (priv_data h) (reuse_specified l) then 1
         else reuse_socket (priv_data h)) /\
    reuse_stage fd (reuse_specified l) h c1 f1 /\
    stage f1 (bind_stage fd my len h c2 f2) c2 f2 /\
    stage (f1 || f2) (name_stage fd my c3 (local_port (priv_data (w_h w')))) c3 false /\
    stage (f1 || f2) (multicast_stage fd l h c4 f4) c4 f4 /\
    stage (f1 || f2 || f4) (buffer_stage fd io h c5 f5) c5 f5 /\
    stage (f1 || f2 || f4 || f5) (connect_stage fd h c6 f6) c6 f6.
Proof.
  intros R. cbv zeta. inversion R; subst; clear R; blocks.
  - exists c1, [], [], [], [], [], true, false, false, false, false. stages.
  - exists c1, c2, [], [], [], [], false, true, false, false, false. stages.
  - exists c1, c2, c3, c4, [], [], false, false, true, false, false. stages.
  - exists c1, c2, c3, c4, c5, [], false, false, false, true, false. stages.
  - exists c1, c2, c3, c4, c5, c6, false, false, false, false, true. stages.
  - exists c1, c2, c3, c4, c5, c6, false, false, false, false, false. stages.
Qed.

(** The kinds of the calls of each stage. *)
Lemma strdups_kinds hosts : forallb (of_kinds [KAlloc]) (strdups hosts) = true.
Proof. induction hosts; simpl; auto. Qed.

Lemma reuse_stage_kinds fd rs h c f :
  reuse_stage fd rs h c f -> forallb (of_kinds [KReuse]) c = true.
Proof.
  unfold reuse_stage. destruct (reuse_wanted _ _).
  - intros [r [-> _]]. reflexivity.
  - intros [-> _]. reflexivity.
Qed.

Lemma bind_calls_kinds fd dest my len first c f :
  bind_calls fd dest my len first c f -> forallb (of_kinds bind_kinds) c = true.
Proof. intros B. destruct B; reflexivity. Qed.

Lemma name_stage_kinds fd my c p :
  name_stage fd my c p -> forallb (of_kinds name_kinds) c = true.
Proof. intros [name [r [-> _]]]. destruct r; reflexivity. Qed.

Lemma buffer_stage_kinds fd io h c f :
  buffer_stage fd io h c f -> forallb (of_kinds buffer_kinds) c = true.
Proof. intros [r [-> _]]. destruct io, r; reflexivity. Qed.

Lemma connect_stage_kinds fd h c f :
  connect_stage fd h c f -> forallb (of_kinds connect_kinds) c = true.
Proof.
  intros [r [-> _]]. unfold connect_calls.
  destruct (C.truthy _), r; reflexivity.
Qed.

Lemma stage_kinds stopped (P : Prop) c f ks :
  (P -> forallb (of_kinds ks) c = true) ->
  stage stopped P c f -> forallb (of_kinds ks) c = true.
Proof. destruct stopped; simpl; [intros _ [-> _]; reflexivity | auto]. Qed.

Lemma stages_kinds fd my len l io h p c1 c2 c3 c4 c5 c6 f1 f2 f4 f5 f6 :
  reuse_stage fd (reuse_specified l) h c1 f1 ->
  stage f1 (bind_stage fd my len h c2 f2) c2 f2 ->
  stage (f1 || f2) (name_stage fd my c3 p) c3 false ->
  stage (f1 || f2) (multicast_stage fd l h c4 f4) c4 f4 ->
  stage (f1 || f2 || f4) (buffer_stage fd io h c5 f5) c5 f5 ->
  stage (f1 || f2 || f4 || f5) (connect_stage fd h c6 f6) c6 f6 ->
  forallb (of_kinds [KReuse]) c1 = true /\
  forallb (of_kinds bind_kinds) c2 = true /\
  forallb (of_kinds name_kinds) c3 = true /\
  forallb (of_kinds multicast_kinds) c4 = true /\
  forallb (of_kinds buffer_kinds) c5 = true /\
  forallb (of_kinds connect_kinds) c6 = true.
Proof.
  intros S1 S2 S3 S4 S5 S6.
  split; [eapply reuse_stage_kinds; eauto|].
  split; [eapply stage_kinds; [|exact S2]; apply bind_calls_kinds|].
  split; [eapply stage_kinds; [|exact S3]; apply name_stage_kinds|].
  split; [eapply stage_kinds; [|exact S4]; intros [K _]; exact K|].
  split; [eapply stage_kinds; [|exact S5]; apply buffer_stage_kinds|].
  eapply stage_kinds; [|exact S6]; apply connect_stage_kinds.
Qed.

(** The context after the label [fail] and after lines 551-555. *)
Lemma closed_view fd w : w_h (closed fd w) = w_h w.
Proof. reflexivity. Qed.

Lemma opened_fields fd w :
  let s := priv_data (w_h w) in
  let s' := priv_data (w_h (opened fd w)) in
  flags (w_h (opened fd w)) = flags (w_h w) /\
  udp_fd s' = fd /\
  is_multicast s' = is_multicast s /\ dest_addr s' = dest_addr s /\
  dest_addr_len s' = dest_addr_len s /\ is_connected s' = is_connected s /\
  local_port s' = local_port s /\ reuse_socket s' = reuse_socket s /\
  buffer_size s' = buffer_size s.
Proof. repeat split; reflexivity. Qed.

Lemma emitted_closed fd w w5 evs :
  emitted w w5 evs -> emitted w (closed fd w5) (evs ++ [EClosesocket fd]).
Proof. unfold emitted, closed. simpl. intros ->. rewrite app_assoc. reflexivity. Qed.

Lemma emitted_opened fd w w5 evs :
  emitted w w5 evs -> emitted w (opened fd w5) evs.
Proof. unfold emitted, opened. simpl. auto. Qed.

(** [udp_open] stopped before it asked for the local address. *)
Lemma early_fail_calls uri fl w w0 w1 o1 :
  udp_open_init fl w = (Done tt, w0) ->
  udp_open_options os uri w0 = (o1, w1) ->
  forall o2 w2,
    (o1 = GotoFail (-1) /\ w2 = w1) \/
    (exists l, o1 = Done l /\ udp_open_dest os uri fl w1 = (o2, w2)) ->
    exists evs, emitted w w2 evs /\
                forallb (of_kinds [KAlloc; KResolve; KLog; KConnect]) evs = true.
Proof.
  intros E0 E1 o2 w2 Hc.
  apply udp_open_init_done in E0 as [_ [T0 _]].
  apply udp_open_options_frame in E1 as [[[e1 [T1 K1]] _] _].
  assert (K1' : forallb (of_kinds [KAlloc; KResolve; KLog; KConnect]) e1 = true).
  { rewrite forallb_forall in *. intros e He. apply K1 in He.
    eapply covers_of_kinds; [|exact He]. reflexivity. }
  destruct Hc as [[_ ->] | [l [_ E2]]].
  - exists e1. split; [|exact K1']. unfold emitted. congruence.
  - apply udp_open_dest_frame in E2 as [[[e2 [T2 K2]] _] _].
    exists (e1 ++ e2). split.
    + unfold emitted. rewrite T2, T1, T0, app_assoc. reflexivity.
    + rewrite forallb_app, K1'. simpl.
      rewrite forallb_forall in *. intros e He. apply K2 in He.
      eapply covers_of_kinds; [|exact He]. reflexivity.
Qed.

End WholeRuns.

(** Compute [select k] on a list of segments whose kinds are known. *)
Ltac select_kinds :=
  repeat rewrite select_app;
  repeat match goal with
         | K : forallb (of_kinds ?ks) ?c = true |- context [select ?k ?c] =>
             rewrite (select_none ks k c K eq_refl)
         end;
  cbn [app].

(* ===================================================================== *)
(** ** Reading and writing datagrams *)
(* ===================================================================== *)

(** The answer of [recv]: the datagram that was stored in the buffer
    (the return value is its length), or -1 with [errno]. *)
Inductive recvres :=
| RecvData (data : list Byte.byte)
| RecvErr (errno : positive).

(** The answer of [send] and [sendto]: the number of bytes sent, or -1
    with [errno]. *)
Inductive sendres :=
| SendDone (n : N)
| SendErr (errno : positive).

(** The calls of [udp_read] and [udp_write], with their answers. *)
Inductive io_event :=
| EWaitFd (fd : Z) (write : Z) (r : Z)
| ERecv (fd : Z) (size : Z) (r : recvres)
| ESendto (fd : Z) (buf : list Byte.byte) (addr : sockaddr) (len : Z) (r : sendres)
| ESend (fd : Z) (buf : list Byte.byte) (r : sendres).

Definition io_trace := list io_event.

(** The system seen by [udp_read] and [udp_write].  [ff_network_wait_fd]
    lives in another file of libav: its result is a parameter too. *)
Record IO := mk_IO {
  io_wait_fd : io_trace -> Z -> Z -> Z;
  io_recv : io_trace -> Z -> Z -> recvres;
  io_sendto : io_trace -> Z -> list Byte.byte -> sockaddr -> Z -> sendres;
  io_send : io_trace -> Z -> list Byte.byte -> sendres
}.

(** [ret < 0 ? ff_neterrno() : ret] *)
Definition recv_ret (r : recvres) : Z :=
  match r with
  | RecvData data => Z.of_nat (List.length data)
  | RecvErr e => AVERROR (Zpos e)
  end.

Definition send_ret (r : sendres) : Z :=
  match r with
  | SendDone n => Z.of_N n
  | SendErr e => AVERROR (Zpos e)
  end.

(** What [recv] left in the buffer. *)
Definition recv_data (r : recvres) : list Byte.byte :=
  match r with
  | RecvData data => data
  | RecvErr _ => []
  end.

Section Transfer.

Variable io : IO.

(** Lines 567-571 and 583-587: unless the context is non-blocking, wait
    for the socket; a negative result is returned to the caller. *)
Definition wait_unless_nonblock (h : URLContext) (write : Z) (tr : io_trace)
    : option Z * io_trace :=
  if negb (has_flag (flags h) AVIO_FLAG_NONBLOCK) then
    let ret := io_wait_fd io tr (udp_fd (priv_data h)) write in
    (if ret <? 0 then Some ret else None,
     tr ++ [EWaitFd (udp_fd (priv_data h)) write ret])
  else (None, tr).

(** *** [udp_read] (lines 564-576)

    Returns the C return value and what the call left in [buf]. *)
Definition udp_read (h : URLContext) (size : Z) (tr : io_trace)
    : Z * list Byte.byte * io_trace :=
  let s := priv_data h in
  match wait_unless_nonblock h 0 tr with
  | (Some ret, tr1) => (ret, [], tr1)
  | (None, tr1) =>
      let r := io_recv io tr1 (udp_fd s) size in
      (recv_ret r, recv_data r, tr1 ++ [ERecv (udp_fd s) size r])
  end.

(** *** [udp_write] (lines 578-597)

    [buf] holds the [size] bytes to send. *)
Definition udp_write (h : URLContext) (buf : list Byte.byte) (tr : io_trace)
    : Z * io_trace :=
  let s := priv_data h in
  match wait_unless_nonblock h 1 tr with
  | (Some ret, tr1) => (ret, tr1)
  | (None, tr1) =>
      if negb (C.truthy (is_connected s)) then
        let r := io_sendto io tr1 (udp_fd s) buf (dest_addr s) (dest_addr_len s) in
        (send_ret r, tr1 ++ [ESendto (udp_fd s) buf (dest_addr s) (dest_addr_len s) r])
      else
        let r := io_send io tr1 (udp_fd s) buf in
        (send_ret r, tr1 ++ [ESend (udp_fd s) buf r])
  end.

End Transfer.

(* ===================================================================== *)
(** ** The properties of the specification *)
(* ===================================================================== *)

Section Properties.

Context {libav : Libav} {platform : Platform} (os : OS).

(** The cases of a run of [udp_open]: stopped before the local address
    was asked for (two cases), no socket, a block of lines 473-549 went
    to [fail], or success. *)
Ltac open_cases H :=
  let code := fresh "code" in
  let R := fresh "R" in
  apply udp_open_inv in H as [code [-> R]]; inversion R; subst; clear R;
  [ match goal with
    | E0 : udp_open_init _ _ = _, E1 : udp_open_options _ _ _ = _ |- _ =>
        destruct (early_fail_calls os _ _ _ _ _ _ E0 E1 (Done 0) _
                    (or_introl (conj eq_refl eq_refl))) as [?evs [?Me ?Ke]];
        clear E0 E1
    end
  | match goal with
    | E0 : udp_open_init _ _ = _, E1 : udp_open_options _ _ _ = _,
      E2 : udp_open_dest _ _ _ _ = _ |- _ =>
        destruct (early_fail_calls os _ _ _ _ _ _ E0 E1 _ _
                    (or_intror (ex_intro _ _ (conj eq_refl E2))))
          as [?evs [?Me ?Ke]];
        clear E0 E1 E2
    end
  | match goal with
    | P : open_prefix _ _ _ _ _ _ _ _ _ _ |- _ =>
        apply open_prefix_facts in P; cbv zeta in P;
        destruct P as [?Pf [?Pp [?Prs [?Pinc [?Psrc [?Pre
          [?c_dest [?node [?family [?res [?rest [?Mp [?Kd [?Kr ?Pa]]]]]]]]]]]]]]
    end
  | match goal with
    | P : open_prefix _ _ _ _ _ _ _ _ _ _, S : socket_run _ _ _ _ _ _ _ _ _ |- _ =>
        apply open_prefix_facts in P; cbv zeta in P;
        destruct P as [?Pf [?Pp [?Prs [?Pinc [?Psrc [?Pre
          [?c_dest [?node [?family [?res [?rest [?Mp [?Kd [?Kr ?Pa]]]]]]]]]]]]]];
        apply socket_run_stages in S; cbv zeta in S;
        destruct S as [?c1 [?c2 [?c3 [?c4 [?c5 [?c6 [?f1 [?f2 [?f4 [?f5 [?f6
          [?Ms [?Os [?Vs [?Rs [?S1 [?S2 [?S3 [?S4 [?S5 ?S6]]]]]]]]]]]]]]]]]]]];
        apply outcome_of_fail in Os
    end
  | match goal with
    | P : open_prefix _ _ _ _ _ _ _ _ _ _, S : socket_run _ _ _ _ _ _ _ _ _ |- _ =>
        apply open_prefix_facts in P; cbv zeta in P;
        destruct P as [?Pf [?Pp [?Prs [?Pinc [?Psrc [?Pre
          [?c_dest [?node [?family [?res [?rest [?Mp [?Kd [?Kr ?Pa]]]]]]]]]]]]]];
        apply socket_run_stages in S; cbv zeta in S;
        destruct S as [?c1 [?c2 [?c3 [?c4 [?c5 [?c6 [?f1 [?f2 [?f4 [?f5 [?f6
          [?Ms [?Os [?Vs [?Rs [?S1 [?S2 [?S3 [?S4 [?S5 ?S6]]]]]]]]]]]]]]]]]]]];
        apply outcome_of_done in Os
    end ].

Ltac use_view V :=
  let F := fresh "F" in
  pose proof (view_socket_fields _ _ V) as F;
  destruct F as [?Vf [?Vm [?Vd [?Vl [?Vc [?Vb ?Vu]]]]]].

Definition prefix_kinds : list kind :=
  [KAlloc; KResolve; KLog; KConnect; KLocal; KSocket; KClose].

Lemma forallb_kinds_weaken ks ks' evs :
  covers ks' ks = true ->
  forallb (of_kinds ks) evs = true -> forallb (of_kinds ks') evs = true.
Proof.
  intros C K. rewrite forallb_forall in *. intros e He.
  eapply covers_of_kinds; [exact C | auto].
Qed.

Lemma prefix_calls_kinds hosts c_dest node service family res rest :
  forallb (of_kinds dest_kinds) c_dest = true ->
  forallb (of_kinds [KLog; KSocket; KClose]) rest = true ->
  forallb (of_kinds prefix_kinds)
    (strdups hosts ++ c_dest
     ++ EGetaddrinfo node service SOCK_DGRAM family AI_PASSIVE res :: rest) = true.
Proof.
  intros Kd Kr. rewrite !forallb_app. cbn [forallb].
  rewrite (forallb_kinds_weaken [KAlloc] prefix_kinds _ eq_refl (strdups_kinds hosts)).
  rewrite (forallb_kinds_weaken dest_kinds prefix_kinds _ eq_refl Kd).
  rewrite (forallb_kinds_weaken [KLog; KSocket; KClose] prefix_kinds _ eq_refl Kr).
  reflexivity.
Qed.

Ltac prefix_kinds_of Mp :=
  match type of Mp with
  | emitted _ _ ?pre =>
      assert (Kp : forallb (of_kinds prefix_kinds) pre = true)
        by (apply prefix_calls_kinds; assumption)
  end.

(** In the cases with a socket: name the events before it ([pre], with
    the lookup of the local address among them), the kinds of all
    stages, and the calls of the whole run. *)
Ltac socket_calls :=
  match goal with
  | Mp : emitted ?w ?w4
           (?a ++ ?b ++ EGetaddrinfo ?node ?svc SOCK_DGRAM ?fam AI_PASSIVE ?res :: ?rest),
    Kd : forallb (of_kinds dest_kinds) ?b = true,
    Kr : forallb (of_kinds [KLog; KSocket; KClose]) ?rest = true,
    Ms : emitted ?w4 ?w5 _,
    S1 : reuse_stage _ _ _ _ _, S2 : stage _ _ _ _, S3 : stage _ _ _ _,
    S4 : stage _ _ _ _, S5 : stage _ _ _ _, S6 : stage _ _ _ _ |- _ =>
      assert (Kp : forallb (of_kinds prefix_kinds)
                     (a ++ b ++ EGetaddrinfo node svc SOCK_DGRAM fam AI_PASSIVE res :: rest)
                   = true)
        by (apply prefix_calls_kinds; assumption);
      assert (Lp : In (EGetaddrinfo node svc SOCK_DGRAM fam AI_PASSIVE res)
                     (a ++ b ++ EGetaddrinfo node svc SOCK_DGRAM fam AI_PASSIVE res :: rest))
        by (apply in_or_app; right; apply in_or_app; right; left; reflexivity);
      let service := fresh "service" in
      let pre := fresh "pre" in
      set (service := svc) in *;
      remember (a ++ b ++ EGetaddrinfo node service SOCK_DGRAM fam AI_PASSIVE res :: rest)
        as pre eqn:Hpre;
      destruct (stages_kinds _ _ _ _ _ _ _ _ _ _ _ _ _ _ _ _ _ _ S1 S2 S3 S4 S5 S6)
        as [?K1 [?K2 [?K3 [?K4 [?K5 ?K6]]]]];
      pose proof (emitted_trans _ _ _ _ _ Mp Ms) as M;
      match goal with
      | |- context [closed ?fd w5] =>
          apply (emitted_closed fd) in M;
          assert (Kc : forallb (of_kinds [KClose]) [EClosesocket fd] = true)
            by reflexivity
      | |- context [opened ?fd w5] => apply (emitted_opened fd) in M
      end;
      apply emitted_calls in M
  end.

Lemma orb5_false a b c d e :
  (a || b || c || d || e)%bool = false ->
  a = false /\ b = false /\ c = false /\ d = false /\ e = false.
Proof. destruct a, b, c, d, e; simpl; intros H; try discriminate; auto. Qed.

(** C3: the bind policy.  In every run of [udp_open], either no bind
    was attempted and open failed, or the bind calls are those of the
    policy: for a multicast destination on a context not opened for
    writing the multicast address is tried first and the locally
    resolved address only after that failed; otherwise the locally
    resolved address is bound directly.  When the last bind fails the
    socket is closed and open returns an error; when it succeeds open
    goes on to query the name of the socket. *)
Theorem open_bind_policy uri fl w o w' :
  udp_open os uri fl w = (o, w') ->
  let s' := priv_data (w_h w') in
  let first :=
    (C.truthy (is_multicast s') && negb (has_flag (flags (w_h w)) AVIO_FLAG_WRITE))%bool in
  (select KBind (calls w w') = [] /\ o = Done (AVERROR EIO)) \/
  exists fd my len pre b post failed,
    calls w w' = pre ++ b ++ post /\
    select KBind pre = [] /\ select KBind post = [] /\
    bind_calls fd (dest_addr s') my len first b failed /\
    (exists node service family res ai,
       In (EGetaddrinfo node service SOCK_DGRAM family AI_PASSIVE res) pre /\
       In ai res /\ my = ai_addr ai /\ len = ai_addrlen ai) /\
    (failed = true -> post = [EClosesocket fd] /\ o = Done (AVERROR EIO)) /\
    (failed = false -> exists name post', post = EGetsockname fd name :: post').
Proof.
  intros H. cbv zeta. open_cases H.
  - left. rewrite (emitted_calls _ _ _ Me). split; [select_kinds|]; reflexivity.
  - left. rewrite (emitted_calls _ _ _ Me). split; [select_kinds|]; reflexivity.
  - left. rewrite (emitted_calls _ _ _ Mp). prefix_kinds_of Mp.
    split; [|reflexivity]. eapply select_none; [exact Kp | reflexivity].
  - socket_calls. use_view Vs. rewrite closed_view, Vm, Vd, <- Pf.
    destruct f1; cbn [stage orb] in *.
    + left. destruct S2 as [-> _]. rewrite M. split; [|reflexivity].
      select_kinds. reflexivity.
    + right. exists udp_fd0, my_addr, len, (pre ++ c1), c2,
        (c3 ++ c4 ++ c5 ++ c6 ++ [EClosesocket udp_fd0]), f2.
      split; [rewrite M, <- !app_assoc; reflexivity|].
      split; [select_kinds; reflexivity|].
      split; [select_kinds; reflexivity|].
      split; [exact S2|].
      split; [destruct (Pa H0) as [ai Hai]; exists node, service, family, res, ai;
              split; [apply in_or_app; left; exact Lp | exact Hai]|].
      split.
      * intros ->. cbn [stage orb] in *.
        destruct S3 as [-> _], S4 as [-> _], S5 as [-> _], S6 as [-> _]. auto.
      * intros ->. cbn [stage orb] in *. destruct S3 as [name [r [-> _]]].
        eexists. eexists. reflexivity.
  - socket_calls. use_view Vs.
    destruct (opened_fields udp_fd0 w5) as [Of [_ [Om [Od _]]]].
    cbv zeta in Om, Od. rewrite Om, Od, Vm, Vd, <- Pf.
    apply orb5_false in Os as [-> [-> [-> [-> ->]]]]. cbn [stage orb] in *.
    right. exists udp_fd0, my_addr, len, (pre ++ c1), c2, (c3 ++ c4 ++ c5 ++ c6), false.
    split; [rewrite M, <- !app_assoc; reflexivity|].
    split; [select_kinds; reflexivity|].
    split; [select_kinds; reflexivity|].
    split; [exact S2|].
    split; [destruct (Pa H0) as [ai Hai]; exists node, service, family, res, ai;
            split; [apply in_or_app; left; exact Lp | exact Hai]|].
    split; [discriminate|].
    intros _. destruct S3 as [name [r [-> _]]]. eexists. eexists. reflexivity.
Qed.

(** An event of a kind that a segment does not have is not in it. *)
Ltac not_in_segment H :=
  match goal with
  | K : forallb (of_kinds ?ks) ?c = true |- _ =>
      match type of H with
      | In ?e c =>
          let X := fresh "X" in
          pose proof (of_kinds_in ks c e K H) as X; cbv in X; discriminate X
      end
  end.

(** Find the segment that holds an event, by the kinds. *)
Ltac in_segments H :=
  repeat (apply in_app_or in H as [H|H]; [try not_in_segment H|]);
  try not_in_segment H.

Lemma buffer_stage_sndbuf fd0 io h c5 f5 fd lvl v e :
  buffer_stage fd0 io h c5 f5 ->
  In (ESetsockopt fd lvl (SO_SNDBUF v) (SysErr e)) c5 ->
  io = true /\ f5 = true /\ fd = fd0 /\
  c5 = [ESetsockopt fd SOL_SOCKET (SO_SNDBUF v) (SysErr e);
        ELog AV_LOG_ERROR "setsockopt(SO_SNDBUF)"].
Proof.
  intros [r [-> ->]] I. unfold buffer_calls, with_log in *.
  destruct io, r; simpl in I;
    repeat match goal with
           | I : _ \/ _ |- _ => destruct I as [I|I]
           | I : False |- _ => destruct I
           | I : _ = _ |- _ => try discriminate I; injection I as <- <- <- <-
           end.
  repeat split; reflexivity.
Qed.

Lemma buffer_stage_rcvbuf fd0 io h c5 f5 fd lvl v e :
  buffer_stage fd0 io h c5 f5 ->
  In (ESetsockopt fd lvl (SO_RCVBUF v) (SysErr e)) c5 ->
  io = false /\ f5 = false /\ fd = fd0 /\
  c5 = [ESetsockopt fd SOL_SOCKET (SO_RCVBUF v) (SysErr e);
        ELog AV_LOG_WARNING "setsockopt(SO_RECVBUF)"; ENonblock fd 1].
Proof.
  intros [r [-> ->]] I. unfold buffer_calls, with_log in *.
  destruct io, r; simpl in I;
    repeat match goal with
           | I : _ \/ _ |- _ => destruct I as [I|I]
           | I : False |- _ => destruct I
           | I : _ = _ |- _ => try discriminate I; injection I as <- <- <- <-
           end.
  repeat split; reflexivity.
Qed.

Lemma connect_stage_failed fd h c6 :
  connect_stage fd h c6 true ->
  exists a l e, c6 = [EConnect fd a l (SysErr e); ELog AV_LOG_ERROR "connect"].
Proof.
  intros [r [-> F]]. unfold connect_calls, with_log.
  destruct (C.truthy _); [|discriminate]. destruct r; [discriminate|].
  simpl. eauto.
Qed.

(** C6: the buffer sizes.  A failed [SO_SNDBUF] call is made only on an
    output context and is the end of the open: the error is logged, the
    socket is closed and [udp_open] returns an error.  A failed
    [SO_RCVBUF] call is made only on an input context and is followed by
    a warning and by the switch to non-blocking mode; the open then
    succeeds, unless the connect that was asked for fails. *)
Theorem open_buffer_size_failures uri fl w o w' :
  udp_open os uri fl w = (o, w') ->
  (forall fd lvl v e,
     In (ESetsockopt fd lvl (SO_SNDBUF v) (SysErr e)) (calls w w') ->
     has_flag fl AVIO_FLAG_READ = false /\
     o = Done (AVERROR EIO) /\
     exists pre,
       calls w w' = pre ++ [ESetsockopt fd SOL_SOCKET (SO_SNDBUF v) (SysErr e);
                            ELog AV_LOG_ERROR "setsockopt(SO_SNDBUF)";
                            EClosesocket fd]) /\
  (forall fd lvl v e,
     In (ESetsockopt fd lvl (SO_RCVBUF v) (SysErr e)) (calls w w') ->
     has_flag fl AVIO_FLAG_READ = true /\
     exists pre post,
       calls w w' = pre ++ [ESetsockopt fd SOL_SOCKET (SO_RCVBUF v) (SysErr e);
                            ELog AV_LOG_WARNING "setsockopt(SO_RECVBUF)";
                            ENonblock fd 1] ++ post /\
       (o = Done 0 \/
        exists a l e',
          o = Done (AVERROR EIO) /\
          post = [EConnect fd a l (SysErr e'); ELog AV_LOG_ERROR "connect";
                  EClosesocket fd])).
Proof.
  intros H. open_cases H.
  - rewrite (emitted_calls _ _ _ Me). split; intros fd lvl v e I; not_in_segment I.
  - rewrite (emitted_calls _ _ _ Me). split; intros fd lvl v e I; not_in_segment I.
  - rewrite (emitted_calls _ _ _ Mp). prefix_kinds_of Mp.
    split; intros fd lvl v e I; not_in_segment I.
  - socket_calls. rewrite M. clear M. split; intros fd lvl v e I; in_segments I.
    + destruct (f1 || f2 || f4)%bool eqn:F; cbn [stage] in S5;
        [destruct S5 as [-> _]; destruct I|].
      apply orb_false_elim in F as [F ->]. apply orb_false_elim in F as [-> ->].
      destruct (buffer_stage_sndbuf _ _ _ _ _ _ _ _ _ S5 I) as [Io [-> [-> ->]]].
      cbn [orb stage] in *. destruct S6 as [-> _].
      split; [apply negb_true_iff in Io; exact Io|]. split; [reflexivity|].
      exists (pre ++ c1 ++ c2 ++ c3 ++ c4). rewrite <- !app_assoc. reflexivity.
    + destruct (f1 || f2 || f4)%bool eqn:F; cbn [stage] in S5;
        [destruct S5 as [-> _]; destruct I|].
      apply orb_false_elim in F as [F ->]. apply orb_false_elim in F as [-> ->].
      destruct (buffer_stage_rcvbuf _ _ _ _ _ _ _ _ _ S5 I) as [Io [-> [-> ->]]].
      cbn [orb stage] in *. subst f6.
      destruct (connect_stage_failed _ _ _ S6) as [a [l' [e' ->]]].
      split; [apply negb_false_iff in Io; exact Io|].
      exists (pre ++ c1 ++ c2 ++ c3 ++ c4),
        [EConnect udp_fd0 a l' (SysErr e'); ELog AV_LOG_ERROR "connect";
         EClosesocket udp_fd0].
      split; [rewrite <- !app_assoc; reflexivity|].
      right. exists a, l', e'. auto.
  - socket_calls. rewrite M. clear M.
    apply orb5_false in Os as [-> [-> [-> [-> ->]]]]. cbn [stage orb] in *.
    split; intros fd lvl v e I; in_segments I.
    + destruct (buffer_stage_sndbuf _ _ _ _ _ _ _ _ _ S5 I) as [_ [F _]]. discriminate.
    + destruct (buffer_stage_rcvbuf _ _ _ _ _ _ _ _ _ S5 I) as [Io [_ [-> ->]]].
      split; [apply negb_false_iff in Io; exact Io|].
      exists (pre ++ c1 ++ c2 ++ c3 ++ c4), c6.
      split; [rewrite <- !app_assoc; reflexivity|]. left. reflexivity.
Qed.

(** The URL asks for address reuse: the [reuse] option is there with a
    number that is not zero, or with no number at all. *)
Definition reuse_requested (uri : string) : bool :=
  C.truthy (reuse_option (url_tag uri "reuse") 0).

(** The reuse policy in the words of the URL. *)
Definition reuse_enabled (uri : string) (multicast : bool) : bool :=
  (reuse_requested uri || (multicast && negb (is_some (url_tag uri "reuse"))))%bool.

Lemma reuse_wanted_url uri l (h h0 : URLContext) :
  reuse_socket (priv_data h0) = 0 ->
  reuse_socket (priv_data h)
    = reuse_option (url_tag uri "reuse") (reuse_socket (priv_data h0)) ->
  reuse_specified l = (if is_some (url_tag uri "reuse") then 1 else 0) ->
  reuse_wanted (priv_data h) (reuse_specified l)
  = reuse_enabled uri (C.truthy (is_multicast (priv_data h))).
Proof.
  intros Z R S. unfold reuse_wanted, reuse_enabled, reuse_requested.
  rewrite R, S, Z. destruct (url_tag uri "reuse"); reflexivity.
Qed.

Lemma reuse_stage_in fd0 rs h c f fd lvl v r :
  reuse_stage fd0 rs h c f ->
  In (ESetsockopt fd lvl (SO_REUSEADDR v) r) c ->
  reuse_wanted (priv_data h) rs = true /\ lvl = SOL_SOCKET /\ v = 1.
Proof.
  unfold reuse_stage. destruct (reuse_wanted _ _).
  - intros [r' [-> _]] [I|[]]. injection I as <- <- <- <-. auto.
  - intros [-> _] [].
Qed.

(** C4: the reuse policy.  On a fresh context, [SO_REUSEADDR] is set
    only when the URL asks for reuse or the destination is multicast
    and the URL has no [reuse] option; when the open succeeds it is set
    (once, to 1) exactly in that case.  A [reuse] option without a
    number asks for reuse. *)
Theorem open_reuse_policy uri fl w o w' :
  udp_open os uri fl w = (o, w') ->
  reuse_socket (priv_data (w_h w)) = 0 ->
  let s' := priv_data (w_h w') in
  let enabled := reuse_enabled uri (C.truthy (is_multicast s')) in
  (forall fd lvl v r,
     In (ESetsockopt fd lvl (SO_REUSEADDR v) r) (calls w w') ->
     enabled = true /\ lvl = SOL_SOCKET /\ v = 1) /\
  (o = Done 0 ->
   select KReuse (calls w w')
     = (if enabled
        then [ESetsockopt (udp_fd s') SOL_SOCKET (SO_REUSEADDR 1) SysOk]
        else []) /\
   reuse_socket s' = (if enabled then 1 else 0)) /\
  (forall buf,
     url_tag uri "reuse" = Some buf -> snd (C.strtol buf) = 0%nat ->
     reuse_requested uri = true).
Proof.
  intros H Fresh. cbv zeta.
  assert (Bare : forall buf,
             url_tag uri "reuse" = Some buf -> snd (C.strtol buf) = 0%nat ->
             reuse_requested uri = true).
  { intros buf T N. unfold reuse_requested, reuse_option. rewrite T, N. reflexivity. }
  open_cases H.
  - rewrite (emitted_calls _ _ _ Me).
    split; [intros fd lvl v r I; not_in_segment I|]. split; [discriminate | exact Bare].
  - rewrite (emitted_calls _ _ _ Me).
    split; [intros fd lvl v r I; not_in_segment I|]. split; [discriminate | exact Bare].
  - rewrite (emitted_calls _ _ _ Mp). prefix_kinds_of Mp.
    split; [intros fd lvl v r I; not_in_segment I|]. split; [discriminate | exact Bare].
  - pose proof (reuse_wanted_url uri l _ _ Fresh Pre Prs) as W.
    socket_calls. use_view Vs. rewrite closed_view, Vm, M. clear M.
    split; [|split; [discriminate | exact Bare]].
    intros fd lvl v r I. in_segments I.
    rewrite <- W. eapply reuse_stage_in; eauto.
  - pose proof (reuse_wanted_url uri l _ _ Fresh Pre Prs) as W.
    socket_calls. use_view Vs.
    destruct (opened_fields udp_fd0 w5) as [_ [Ou [Om [_ [_ [_ [_ [Or _]]]]]]]].
    cbv zeta in Ou, Om, Or. rewrite Ou, Om, Or, Vm, M, <- W, Rs. clear M.
    apply orb5_false in Os as [-> [-> [-> [-> ->]]]]. cbn [stage orb] in *.
    split; [|split; [|exact Bare]].
    + intros fd lvl v r I. in_segments I. eapply reuse_stage_in; eauto.
    + intros _. select_kinds. rewrite ?app_nil_r.
      unfold reuse_stage in S1. unfold reuse_wanted in *.
      destruct (_ || _)%bool eqn:Wt.
      * destruct S1 as [r [-> F]]. destruct r; [|discriminate]. auto.
      * destruct S1 as [-> _]. split; [reflexivity|].
        apply orb_false_elim in Wt as [Wt _]. apply truthy_false in Wt. exact Wt.
Qed.

Lemma select_name_calls fd my name r :
  select KName (name_calls fd my name r)
  = [EGetsockname fd name;
     EGetnameinfo (fst (queried_name my name)) (snd (queried_name my name)) r].
Proof. destruct r; reflexivity. Qed.

Lemma bind_calls_done fd dest my len first c :
  bind_calls fd dest my len first c false ->
  exists a, In (EBind fd a len SysOk) c.
Proof.
  intros B. inversion B; subst; eexists; simpl; eauto.
Qed.



Lemma port_to_bind_url lport multicast port :
  multicast = true \/ lport = 0 -> port_to_bind lport multicast true port = port.
Proof.
  unfold port_to_bind. intros [-> | ->]; [reflexivity|].
  rewrite Z.eqb_refl, orb_true_r. reflexivity.
Qed.

(** C9: the default of the local port.  On a context opened for
    reading, when the destination is multicast or the configured local
    port is zero (no [localport] option on a fresh context, or one that
    reads zero), the local address is looked up for the port of the
    URL, whatever [localport] says: every lookup of the local address
    in the run asks for that port, and a successful open made exactly
    one such lookup, from which the address of the bind is taken. *)
Theorem open_binds_url_port uri fl w o w' :
  udp_open os uri fl w = (o, w') ->
  has_flag (flags (w_h w)) AVIO_FLAG_READ = true ->
  let s := priv_data (w_h w) in
  let s' := priv_data (w_h w') in
  let port := snd (av_url_split 1024 uri) in
  C.truthy (is_multicast s') = true
  \/ int_option (url_tag uri "localport") (local_port s) = 0 ->
  (forall node service st fam res,
     In (EGetaddrinfo node service st fam AI_PASSIVE res) (calls w w') ->
     service = service_of port /\ st = SOCK_DGRAM) /\
  (o = Done 0 ->
   exists node fam res,
     select KLocal (calls w w')
       = [EGetaddrinfo node (service_of port) SOCK_DGRAM fam AI_PASSIVE res]).
Proof.
  intros H Rd. cbv zeta. intros Hc. open_cases H.
  - rewrite (emitted_calls _ _ _ Me).
    split; [intros nd sv st fm rs I; not_in_segment I | discriminate].
  - rewrite (emitted_calls _ _ _ Me).
    split; [intros nd sv st fm rs I; not_in_segment I | discriminate].
  - rewrite Rd in Mp. rewrite port_to_bind_url in Mp by exact Hc.
    rewrite (emitted_calls _ _ _ Mp).
    pose proof (strdups_kinds (url_sources uri)) as Ka.
    split; [|discriminate]. intros nd sv st fm rs I. in_segments I.
    destruct I as [I|I]; [|not_in_segment I].
    injection I as <- <- <- <- <-. subst port. auto.
  - use_view Vs. rewrite closed_view, Vm in Hc.
    rewrite Rd in Mp. rewrite port_to_bind_url in Mp by exact Hc.
    pose proof (strdups_kinds (url_sources uri)) as Ka.
    socket_calls. rewrite M. clear M.
    split; [|discriminate]. intros nd sv st fm rs I. in_segments I.
    rewrite Hpre in I. in_segments I.
    destruct I as [I|I]; [|not_in_segment I].
    injection I as <- <- <- <- <-. subst port service. auto.
  - use_view Vs.
    destruct (opened_fields udp_fd0 w5) as [_ [_ [Om _]]]. cbv zeta in Om.
    rewrite Om, Vm in Hc.
    rewrite Rd in Mp. rewrite port_to_bind_url in Mp by exact Hc.
    pose proof (strdups_kinds (url_sources uri)) as Ka.
    socket_calls. rewrite M. clear M. split.
    + intros nd sv st fm rs I. in_segments I.
      rewrite Hpre in I. in_segments I.
      destruct I as [I|I]; [|not_in_segment I].
      injection I as <- <- <- <- <-. subst port service. auto.
    + intros _. exists node, family, res. select_kinds. rewrite ?app_nil_r.
      rewrite Hpre. select_kinds.
      rewrite select_cons_same by reflexivity.
      rewrite (select_none _ KLocal _ Kr eq_refl).
      subst port service. reflexivity.
Qed.

(** The calls that change the membership of a multicast group: the
    plain join and the calls that name a source. *)
Definition membership_kinds : list kind := [KJoin; KSourceJoin; KSourceBlock].

Definition membership (tr : trace) : trace := filter (of_kinds membership_kinds) tr.

Lemma membership_app a b : membership (a ++ b) = membership a ++ membership b.
Proof. apply filter_app. Qed.

Definition disjoint (ks ks' : list kind) : bool :=
  forallb (fun k => negb (existsb (kind_eqb k) ks')) ks.

Lemma membership_none ks evs :
  forallb (of_kinds ks) evs = true -> disjoint membership_kinds ks = true ->
  membership evs = [].
Proof.
  intros K D. induction evs as [|e evs IH]; [reflexivity|].
  cbn [forallb] in K. apply andb_prop in K as [Ke K].
  unfold membership in *. cbn [filter]. rewrite (IH K).
  destruct (of_kinds membership_kinds e) eqn:Em; [|reflexivity].
  unfold of_kinds in Ke, Em. destruct (kind_of e); cbn in D, Em; try discriminate Em;
    cbn in Ke; rewrite ?Ke, ?andb_false_r in D; cbn in D; discriminate D.
Qed.

(** The host [host] was resolved to [a], the first address of the
    answer. *)
Definition resolved_in (tr : trace) (host : string) (a : sockaddr) : Prop :=
  exists ai ais,
    In (EGetaddrinfo (node_of (Some host)) (service_of 0) SOCK_DGRAM AF_UNSPEC
          AI_NUMERICHOST (ai :: ais)) tr /\
    a = ai_addr ai.

Lemma source_calls_membership call srcs evs :
  source_calls call srcs evs ->
  (forall a, of_kinds membership_kinds (call a) = true) ->
  exists addrs,
    Forall2 (resolved_in evs) srcs addrs /\ membership evs = map call addrs.
Proof.
  intros S Kc. induction S as [|src rest ai ais evs S IH].
  - exists []. split; [constructor | reflexivity].
  - destruct IH as [addrs [F E]]. exists (ai_addr ai :: addrs). split.
    + constructor.
      * exists ai, ais. split; [left; reflexivity | reflexivity].
      * eapply Forall2_impl; [|exact F].
        intros h a [ai' [ais' [I ->]]]. exists ai', ais'.
        split; [right; right; exact I | reflexivity].
    + unfold membership in *. cbn [filter map]. rewrite Kc.
      change (of_kinds membership_kinds
                (EGetaddrinfo (node_of (Some src)) (service_of 0) SOCK_DGRAM
                   AF_UNSPEC AI_NUMERICHOST (ai :: ais))) with false.
      cbv iota. rewrite E. reflexivity.
Qed.

Lemma source_calls_select k call srcs evs :
  source_calls call srcs evs ->
  (forall a, kind_eqb (kind_of (call a)) k = false) -> kind_eqb KResolve k = false ->
  select k evs = [].
Proof.
  intros S Kc Kr. induction S as [|src rest ai ais evs S IH]; [reflexivity|].
  unfold select in *. cbn [filter]. rewrite Kc.
  change (kind_of (EGetaddrinfo (node_of (Some src)) (service_of 0) SOCK_DGRAM
                     AF_UNSPEC AI_NUMERICHOST (ai :: ais))) with KResolve.
  rewrite Kr. exact IH.
Qed.

Lemma source_call_kind fd group inc a :
  kind_of (source_call fd group inc a)
  = if C.truthy inc then KSourceJoin else KSourceBlock.
Proof.
  unfold source_call, generic_source_call, ipv4_source_call.
  destruct HAVE_STRUCT_GROUP_SOURCE_REQ, (C.truthy inc); reflexivity.
Qed.

Lemma source_call_membership fd group inc a :
  of_kinds membership_kinds (source_call fd group inc a) = true.
Proof.
  unfold of_kinds. rewrite source_call_kind. destruct (C.truthy inc); reflexivity.
Qed.

Lemma join_calls_membership fd a : membership (join_calls fd a) = join_calls fd a.
Proof.
  unfold join_calls.
  destruct (HAVE_IP_ADD_MEMBERSHIP && _)%bool, (HAVE_STRUCT_IPV6_MREQ && _)%bool;
    reflexivity.
Qed.

(** The build can join a group of the family of [a]. *)
Definition join_supported (a : sockaddr) : bool :=
  ((HAVE_IP_ADD_MEMBERSHIP && (sa_family a =? AF_INET))
   || (HAVE_STRUCT_IPV6_MREQ && (sa_family a =? AF_INET6)))%bool.

(** The plain, any-source join of the group [a]. *)
Definition plain_join (fd : Z) (a : sockaddr) : event :=
  if sa_family a =? AF_INET
  then ESetsockopt fd IPPROTO_IP (IP_ADD_MEMBERSHIP a) SysOk
  else ESetsockopt fd IPPROTO_IPV6 (IPV6_ADD_MEMBERSHIP a) SysOk.

Lemma join_calls_supported fd a :
  join_supported a = true -> join_calls fd a = [plain_join fd a].
Proof.
  unfold join_supported, join_calls, plain_join.
  destruct (sa_family a =? AF_INET) eqn:E4.
  - apply Z.eqb_eq in E4. rewrite E4.
    change (AF_INET =? AF_INET6) with false.
    destruct HAVE_IP_ADD_MEMBERSHIP, HAVE_STRUCT_IPV6_MREQ; cbn;
      intros X; try discriminate X; reflexivity.
  - destruct HAVE_IP_ADD_MEMBERSHIP, HAVE_STRUCT_IPV6_MREQ, (sa_family a =? AF_INET6);
      cbn; intros X; try discriminate X; reflexivity.
Qed.

Lemma url_include_sources uri : url_include uri = true -> url_sources uri <> [].
Proof.
  unfold url_include, url_sources. destruct (url_tag uri "sources") as [buf|];
    [|discriminate].
  intros _. unfold host_list. pose proof (split_commas_nonempty buf) as N.
  destruct (split_commas buf); [congruence|]. discriminate.
Qed.

Lemma select_membership k tr :
  existsb (kind_eqb k) membership_kinds = true ->
  select k (membership tr) = select k tr.
Proof.
  intros Hk. induction tr as [|e tr IH]; [reflexivity|].
  unfold membership, select in *. cbn [filter].
  destruct (of_kinds membership_kinds e) eqn:Em.
  - cbn [filter]. rewrite IH. reflexivity.
  - rewrite IH. destruct (kind_eqb (kind_of e) k) eqn:Ek; [|reflexivity].
    apply kind_eqb_eq in Ek. unfold of_kinds in Em. rewrite Ek in Em. congruence.
Qed.

Lemma select_source_calls fd group inc k addrs :
  select k (map (source_call fd group inc) addrs)
  = if kind_eqb (if C.truthy inc then KSourceJoin else KSourceBlock) k
    then map (source_call fd group inc) addrs else [].
Proof.
  induction addrs as [|a addrs IH]; [destruct (kind_eqb _ k); reflexivity|].
  unfold select in *. cbn [map filter]. rewrite source_call_kind, IH.
  destruct (kind_eqb _ k); reflexivity.
Qed.

(** The membership calls of a successful open of a multicast
    destination for reading: the test of line 509 is whether the URL
    has [sources=]; without it the plain join comes first; then there
    is one call per host. *)
Lemma open_membership_calls uri fl w w' :
  udp_open os uri fl w = (Done 0, w') ->
  let s' := priv_data (w_h w') in
  let fd := udp_fd s' in
  let group := dest_addr s' in
  C.truthy (is_multicast s') = true ->
  has_flag (flags (w_h w)) AVIO_FLAG_READ = true ->
  select KLeave (calls w w') = [] /\
  exists addrs,
    Forall2 (resolved_in (calls w w')) (url_sources uri) addrs /\
    membership (calls w w')
    = if url_include uri
      then map (source_call fd group 1) addrs
      else join_calls fd group ++ map (source_call fd group 0) addrs.
Proof.
  intros H. cbv zeta. intros Mc Rd. remember (Done 0) as o eqn:Ho.
  open_cases H; try discriminate Ho. clear Ho.
  use_view Vs.
  destruct (opened_fields udp_fd0 w5) as [_ [Ou [Om [Od _]]]].
  cbv zeta in Ou, Om, Od. rewrite Ou, Od, Vd. rewrite Om, Vm in Mc.
  socket_calls. rewrite M. clear M.
  apply orb5_false in Os as [-> [-> [-> [-> ->]]]]. cbn [stage orb] in *.
  split; [select_kinds; reflexivity|].
  destruct S4 as [_ S4]. specialize (S4 eq_refl). cbv zeta in S4.
  destruct S4 as [e_ttl [e_grp [-> [Kt S4]]]].
  rewrite Mc, Pf, Rd in S4. cbn [andb] in S4.
  destruct S4 as [e_src [Sc ->]].
  assert (Pl : ((num_sources l =? 0) || negb (C.truthy (include l)))%bool
               = negb (url_include uri)).
  { rewrite Pinc. destruct (url_include uri) eqn:Inc; [|apply orb_true_r].
    cbn [C.truthy Z.eqb negb]. rewrite orb_false_r. apply Z.eqb_neq.
    unfold num_sources. rewrite Psrc. pose proof (url_include_sources uri Inc) as Ne.
    destruct (url_sources uri); [congruence|]. simpl. lia. }
  rewrite Pl, Psrc in Sc. rewrite Pl.
  assert (Kpm : membership pre = [])
    by (apply (membership_none _ _ Kp); reflexivity).
  assert (Km : forall ks c, forallb (of_kinds ks) c = true ->
                 disjoint membership_kinds ks = true -> membership c = [])
    by (intros; eapply membership_none; eauto).
  rewrite !membership_app, Kpm.
  rewrite (Km _ _ K1 eq_refl), (Km _ _ K2 eq_refl), (Km _ _ K3 eq_refl),
    (Km _ _ K5 eq_refl), (Km _ _ K6 eq_refl), (Km _ _ Kt eq_refl).
  destruct (source_calls_membership _ _ _ Sc (source_call_membership _ _ _))
    as [addrs [F E]].
  exists addrs. split.
  - eapply Forall2_impl; [|exact F].
    intros h a [ai [ais [I ->]]]. exists ai, ais. split; [|reflexivity].
    rewrite !in_app_iff. tauto.
  - rewrite E. destruct (url_include uri); cbn [negb];
      rewrite ?join_calls_membership; cbn [app membership filter];
      rewrite ?app_nil_r; reflexivity.
Qed.

(** Whatever the URL lists, the hosts kept are the first 32 fields of
    the value of the option. *)
Lemma url_sources_capped uri :
  (List.length (url_sources uri) <= 32)%nat /\
  forall buf,
    url_tag uri "sources" = Some buf \/
    (url_tag uri "sources" = None /\ url_tag uri "block" = Some buf) ->
    url_sources uri = firstn 32 (split_commas buf).
Proof.
  unfold url_sources, host_list. change (Z.to_nat SOURCES_ELEMS) with 32%nat.
  split.
  - destruct (url_tag uri "sources"); [apply firstn_le_length|].
    destruct (url_tag uri "block"); [apply firstn_le_length | simpl; lia].
  - intros buf [-> | [-> ->]]; reflexivity.
Qed.

Lemma join_calls_unsupported fd a :
  join_supported a = false -> join_calls fd a = [].
Proof.
  unfold join_supported, join_calls. intros N.
  apply orb_false_elim in N as [-> ->]. reflexivity.
Qed.

(** C1, as the code has it: the source filter.  The hosts that open
    keeps are the first 32 fields of the value of [sources=] (of
    [block=] without it): the hosts listed after them are dropped.
    After a successful open of a multicast destination for reading, each
    host kept was resolved, and the calls that change the group
    membership are, in this order: with [sources=], one source join per
    host kept and nothing else (no plain join); with [block=] and no
    [sources=], the plain join (one call when the build supports the
    family of the group, none otherwise) and then one block call per
    host kept. *)
Theorem open_source_filter uri fl w w' :
  udp_open os uri fl w = (Done 0, w') ->
  let s' := priv_data (w_h w') in
  let fd := udp_fd s' in
  let group := dest_addr s' in
  C.truthy (is_multicast s') = true ->
  has_flag (flags (w_h w)) AVIO_FLAG_READ = true ->
  (List.length (url_sources uri) <= 32)%nat /\
  (forall buf,
     url_tag uri "sources" = Some buf \/
     (url_tag uri "sources" = None /\ url_tag uri "block" = Some buf) ->
     url_sources uri = firstn 32 (split_commas buf)) /\
  exists addrs,
    Forall2 (resolved_in (calls w w')) (url_sources uri) addrs /\
    (url_include uri = true ->
     membership (calls w w') = map (source_call fd group 1) addrs /\
     (forall a, kind_of (source_call fd group 1 a) = KSourceJoin) /\
     select KJoin (calls w w') = []) /\
    (url_include uri = false ->
     membership (calls w w')
       = join_calls fd group ++ map (source_call fd group 0) addrs /\
     (forall a, kind_of (source_call fd group 0 a) = KSourceBlock) /\
     (join_supported group = true -> join_calls fd group = [plain_join fd group]) /\
     (join_supported group = false -> join_calls fd group = [])).
Proof.
  intros H. cbv zeta. intros Mc Rd.
  split; [exact (proj1 (url_sources_capped uri))|].
  split; [exact (proj2 (url_sources_capped uri))|].
  destruct (open_membership_calls uri fl w w' H Mc Rd) as [_ [addrs [F E]]].
  exists addrs. split; [exact F|]. split; intros Inc; rewrite Inc in E.
  - split; [exact E|]. split; [intros a; apply source_call_kind|].
    rewrite <- (select_membership KJoin) by reflexivity.
    rewrite E, select_source_calls. reflexivity.
  - split; [exact E|].
    split; [intros a; apply source_call_kind|].
    split; [apply join_calls_supported | apply join_calls_unsupported].
Qed.

(** The build can leave a group of the family of [a]. *)
Definition leave_supported (a : sockaddr) : bool :=
  ((HAVE_IP_DROP_MEMBERSHIP && (sa_family a =? AF_INET))
   || (HAVE_STRUCT_IPV6_MREQ && (sa_family a =? AF_INET6)))%bool.

(** The call that leaves the group [a], with its answer. *)
Definition plain_leave (fd : Z) (a : sockaddr) (r : sysres) : event :=
  if sa_family a =? AF_INET
  then ESetsockopt fd IPPROTO_IP (IP_DROP_MEMBERSHIP a) r
  else ESetsockopt fd IPPROTO_IPV6 (IPV6_DROP_MEMBERSHIP a) r.

(** [udp_leave_multicast_group] always returns; it makes one leave call
    when the build supports the family, and only logs besides. *)
Lemma udp_leave_multicast_group_run fd a w o w' :
  udp_leave_multicast_group os fd a w = (o, w') ->
  w_h w' = w_h w /\
  exists code c,
    o = Done code /\ emitted w w' c /\
    forallb (of_kinds [KLeave; KLog]) c = true /\
    (leave_supported a = true -> exists r, select KLeave c = [plain_leave fd a r]) /\
    (leave_supported a = false -> c = []).
Proof.
  unfold udp_leave_multicast_group, leave_supported, plain_leave. intros H.
  mrun_in H. destruct w as [h tr]. rsimpl.
  destruct (sa_family a =? AF_INET) eqn:E4.
  - apply Z.eqb_eq in E4. rewrite E4 in H.
    change (AF_INET =? AF_INET6) with false in H.
    change (AF_INET =? AF_INET) with true in H.
    rewrite !andb_false_r, !andb_true_r in H. rewrite E4.
    change (AF_INET =? AF_INET6) with false.
    rewrite !andb_false_r, !andb_true_r, orb_false_r.
    destruct HAVE_IP_DROP_MEMBERSHIP; mrun_in H; rsimpl.
    + destruct (os_setsockopt os tr fd IPPROTO_IP _) as [|e] eqn:R;
        cbn [sys_ret Z.ltb Z.compare] in H; fin H;
        (split; [reflexivity|]); do 2 eexists;
        (split; [reflexivity|]); (split; [emitted_tac|]);
        (split; [reflexivity|]); (split; [intros _; eexists; reflexivity | discriminate]).
    + fin H. split; [reflexivity|]. exists 0, [].
      split; [reflexivity|]. split; [apply emitted_nil|].
      split; [reflexivity|]. split; [discriminate | reflexivity].
  - rewrite !andb_false_r in *. cbn [orb]. mrun_in H; rsimpl.
    destruct (HAVE_STRUCT_IPV6_MREQ && (sa_family a =? AF_INET6))%bool;
      mrun_in H; rsimpl.
    + destruct (os_setsockopt os tr fd IPPROTO_IPV6 _) as [|e] eqn:R;
        cbn [sys_ret Z.ltb Z.compare] in H; fin H;
        (split; [reflexivity|]); do 2 eexists;
        (split; [reflexivity|]); (split; [emitted_tac|]);
        (split; [reflexivity|]); (split; [intros _; eexists; reflexivity | discriminate]).
    + fin H. split; [reflexivity|]. exists 0, [].
      split; [reflexivity|]. split; [apply emitted_nil|].
      split; [reflexivity|]. split; [discriminate | reflexivity].
Qed.

(** [udp_close] returns 0 and leaves the context as it was; its last
    call closes the socket, and before it an input multicast session
    leaves the group. *)
Lemma udp_close_run w o w' :
  udp_close os w = (o, w') ->
  let s := priv_data (w_h w) in
  o = Done 0 /\ w_h w' = w_h w /\
  exists c,
    calls w w' = c ++ [EClosesocket (udp_fd s)] /\
    forallb (of_kinds [KLeave; KLog]) c = true /\
    if (C.truthy (is_multicast s) && has_flag (flags (w_h w)) AVIO_FLAG_READ)%bool
    then leave_supported (dest_addr s) = true ->
         exists r, select KLeave c = [plain_leave (udp_fd s) (dest_addr s) r]
    else c = [].
Proof.
  unfold udp_close. intros H. cbv zeta.
  apply bind_run in H as [[s [w0 [E0 H]]] | [fd' [E0 _]]]; [|discriminate].
  inversion E0; subst; clear E0.
  apply bind_run in H as [[h [w1 [E1 H]]] | [fd' [E1 _]]]; [|discriminate].
  inversion E1; subst; clear E1.
  destruct (C.truthy (is_multicast (priv_data (w_h w1)))
            && has_flag (flags (w_h w1)) AVIO_FLAG_READ)%bool; cbn [when] in H.
  - apply bind_run in H as [[[] [w2 [E2 H]]] | [fd' [E2 ->]]].
    + apply bind_run in E2 as [[code [w3 [E3 E2]]] | [fd' [E3 E2]]]; [|discriminate].
      inversion E2; subst; clear E2.
      apply udp_leave_multicast_group_run in E3
        as [Hh [code' [c [_ [Mc [Kc [Ls _]]]]]]].
      fin H. split; [reflexivity|]. split; [exact Hh|].
      exists c. split; [|split; [exact Kc | exact Ls]].
      apply emitted_calls. unfold emitted in *. rsimpl.
      rewrite Mc, <- app_assoc. reflexivity.
    + apply bind_run in E2 as [[code [w3 [E3 E2]]] | [fd'' [E3 E2]]];
        [discriminate|].
      apply udp_leave_multicast_group_run in E3 as [_ [code' [c [O _]]]].
      discriminate O.
  - fin H. split; [reflexivity|]. split; [reflexivity|].
    exists []. split; [|split; reflexivity].
    apply emitted_calls. emitted_tac.
Qed.

Lemma open_keeps_flags uri fl w w' :
  udp_open os uri fl w = (Done 0, w') -> flags (w_h w') = flags (w_h w).
Proof.
  intros H. remember (Done 0) as o eqn:Ho.
  open_cases H; try discriminate Ho. use_view Vs.
  destruct (opened_fields udp_fd0 w5) as [Of _]. congruence.
Qed.

(** C5, as the code has it: the session of a multicast destination
    opened for reading, on a build that can join and leave a group of
    its family.  Open makes exactly one plain join when the URL has no
    [sources=]; with [sources=] it makes no plain join but one source
    join per host kept, and it keeps at most 32 hosts, the first fields
    of the value of the option.  Open never leaves the group.  Close
    returns 0 after exactly one leave call, and the last call of close
    is the one that closes the socket. *)
Theorem session_joins_and_leaves uri fl w w1 o w2 :
  udp_open os uri fl w = (Done 0, w1) ->
  udp_close os w1 = (o, w2) ->
  let s := priv_data (w_h w1) in
  let fd := udp_fd s in
  let group := dest_addr s in
  C.truthy (is_multicast s) = true ->
  has_flag (flags (w_h w)) AVIO_FLAG_READ = true ->
  join_supported group = true ->
  leave_supported group = true ->
  select KJoin (calls w w1)
    = (if url_include uri then [] else [plain_join fd group]) /\
  List.length (select KSourceJoin (calls w w1))
    = (if url_include uri then List.length (url_sources uri) else 0%nat) /\
  (List.length (url_sources uri) <= 32)%nat /\
  (forall buf, url_tag uri "sources" = Some buf ->
               url_sources uri = firstn 32 (split_commas buf)) /\
  select KLeave (calls w w1) = [] /\
  o = Done 0 /\
  exists r c,
    calls w1 w2 = c ++ [EClosesocket fd] /\
    select KLeave c = [plain_leave fd group r] /\
    select KJoin c = [] /\ select KSourceJoin c = [].
Proof.
  intros Ho Hc. cbv zeta. intros Mc Rd Js Ls.
  destruct (open_membership_calls uri fl w w1 Ho Mc Rd) as [Nl [addrs [F E]]].
  pose proof (Forall2_length F) as Len.
  rewrite <- (select_membership KJoin) by reflexivity.
  rewrite <- (select_membership KSourceJoin) by reflexivity.
  rewrite E.
  split; [|split; [|split; [exact (proj1 (url_sources_capped uri))
                           |split; [intros buf Hb;
                                    exact (proj2 (url_sources_capped uri) buf
                                             (or_introl Hb))
                                   |split; [exact Nl|]]]]].
  - destruct (url_include uri).
    + rewrite select_source_calls. reflexivity.
    + rewrite select_app, select_source_calls, (join_calls_supported _ _ Js).
      cbn [C.truthy Z.eqb negb kind_eqb app]. unfold plain_join.
      destruct (sa_family _ =? AF_INET); reflexivity.
  - destruct (url_include uri).
    + rewrite select_source_calls. cbn [C.truthy Z.eqb negb kind_eqb].
      rewrite length_map. congruence.
    + rewrite select_app, select_source_calls, (join_calls_supported _ _ Js).
      cbn [C.truthy Z.eqb negb kind_eqb app]. unfold plain_join.
      destruct (sa_family _ =? AF_INET); reflexivity.
  - apply udp_close_run in Hc. cbv zeta in Hc.
    destruct Hc as [-> [_ [c [Cc [Kc Lc]]]]]. split; [reflexivity|].
    rewrite (open_keeps_flags _ _ _ _ Ho), Mc, Rd in Lc. cbn [andb] in Lc.
    destruct (Lc Ls) as [r Lr]. exists r, c.
    split; [exact Cc|]. split; [exact Lr|].
    split; eapply select_none; first [exact Kc | reflexivity].
Qed.

(** The message of line 521 is never logged: no run of [udp_open]
    refuses a URL for its list of sources. *)
Lemma open_never_reports_invalid_settings uri fl w o w' :
  udp_open os uri fl w = (o, w') ->
  forall lvl, ~ In (ELog lvl invalid_settings) (calls w w').
Proof.
  intros H lvl I. open_cases H.
  - rewrite (emitted_calls _ _ _ Me) in I. not_in_segment I.
  - rewrite (emitted_calls _ _ _ Me) in I. not_in_segment I.
  - rewrite (emitted_calls _ _ _ Mp) in I. prefix_kinds_of Mp. not_in_segment I.
  - revert I. socket_calls. rewrite M. clear M. intros I. in_segments I.
  - revert I. socket_calls. rewrite M. clear M. intros I. in_segments I.
Qed.

(** C10: the host list is capped.  For a URL whose [sources=] (or,
    without it, [block=]) option has the value [buf], the hosts that
    open keeps are the first 32 fields of [buf].  The option parsing
    copies these and no other, and it does not fail unless the allocator
    does; and the membership calls of a successful open of a multicast
    destination for reading name the addresses of these hosts only. *)
Theorem open_host_list_capped uri buf :
  url_tag uri "sources" = Some buf \/
  (url_tag uri "sources" = None /\ url_tag uri "block" = Some buf) ->
  let kept := firstn 32 (split_commas buf) in
  (List.length kept <= 32)%nat /\
  (forall w o w',
     udp_open_options os uri w = (o, w') ->
     (exists l, o = Done l /\ sources l = kept /\ calls w w' = strdups kept) \/
     (o = GotoFail (-1) /\
      exists done failed, calls w w' = strdups done ++ [EStrdup failed false])) /\
  (forall fl w w',
     udp_open os uri fl w = (Done 0, w') ->
     let s' := priv_data (w_h w') in
     C.truthy (is_multicast s') = true ->
     has_flag (flags (w_h w)) AVIO_FLAG_READ = true ->
     exists addrs,
       Forall2 (resolved_in (calls w w')) kept addrs /\
       membership (calls w w')
       = if url_include uri
         then map (source_call (udp_fd s') (dest_addr s') 1) addrs
         else join_calls (udp_fd s') (dest_addr s')
              ++ map (source_call (udp_fd s') (dest_addr s') 0) addrs).
Proof.
  intros T. cbv zeta.
  assert (U : url_sources uri = firstn 32 (split_commas buf)).
  { unfold url_sources. destruct T as [-> | [-> ->]]; reflexivity. }
  split; [apply firstn_le_length|]. split.
  - intros w o w' H. apply udp_open_options_run in H. cbv zeta in H.
    destruct H as [_ [_ [_ [_ [[l [-> [_ [_ [S M]]]]] | [-> [d [f M]]]]]]]].
    + left. exists l. rewrite <- U. split; [reflexivity|]. split; [exact S|].
      apply emitted_calls. exact M.
    + right. split; [reflexivity|]. exists d, f. apply emitted_calls. exact M.
  - intros fl w w' H Mc Rd. rewrite <- U.
    destruct (open_membership_calls uri fl w w' H Mc Rd) as [_ R]. exact R.
Qed.

(* ===================================================================== *)
(** ** Further properties of the code *)
(* ===================================================================== *)

(* --------------------------------------------------------------------- *)
(** *** Sockets created and released *)

(** The sockets that the calls of a trace created (the results of
    [socket] that are descriptors) and the ones they closed. *)
Definition created (tr : trace) : list Z :=
  flat_map (fun e => match e with
                     | ESocket _ fd => if 0 <=? fd then [fd] else []
                     | _ => []
                     end) tr.

Definition released (tr : trace) : list Z :=
  flat_map (fun e => match e with EClosesocket fd => [fd] | _ => [] end) tr.

Lemma created_app a b : created (a ++ b) = created a ++ created b.
Proof. apply flat_map_app. Qed.

Lemma released_app a b : released (a ++ b) = released a ++ released b.
Proof. apply flat_map_app. Qed.

Lemma created_none ks evs :
  forallb (of_kinds ks) evs = true -> existsb (kind_eqb KSocket) ks = false ->
  created evs = [].
Proof.
  intros K N. induction evs as [|e evs IH]; [reflexivity|].
  cbn [forallb] in K. apply andb_prop in K as [Ke K].
  unfold created in *. cbn [flat_map]. rewrite (IH K).
  destruct e; try reflexivity.
  unfold of_kinds in Ke. cbn [kind_of] in Ke. congruence.
Qed.

Lemma released_none ks evs :
  forallb (of_kinds ks) evs = true -> existsb (kind_eqb KClose) ks = false ->
  released evs = [].
Proof.
  intros K N. induction evs as [|e evs IH]; [reflexivity|].
  cbn [forallb] in K. apply andb_prop in K as [Ke K].
  unfold released in *. cbn [flat_map]. rewrite (IH K).
  destruct e; try reflexivity.
  unfold of_kinds in Ke. cbn [kind_of] in Ke. congruence.
Qed.

(** The calls of the loop of lines 272-276 on the candidates [res]: each
    candidate that [socket] refuses (with -1) is followed by a message;
    the loop stops at the first one that is not refused, with what is
    left of the list, or at the end of the list, with -1. *)
Inductive tried : list addrinfo -> trace -> Z -> list addrinfo -> Prop :=
| tried_all : tried [] [] (-1) []
| tried_taken ai rest fd :
    fd <> -1 ->
    tried (ai :: rest) [ESocket (ai_family ai) fd] fd (ai :: rest)
| tried_refused ai rest evs fd res' :
    tried rest evs fd res' ->
    tried (ai :: rest)
      (ESocket (ai_family ai) (-1) :: ELog AV_LOG_ERROR "socket" :: evs) fd res'.

Lemma socket_loop_tried res w o w' :
  socket_loop os res (-1) w = (o, w') ->
  exists fd res' evs,
    o = Done (fd, res') /\ w_h w' = w_h w /\ emitted w w' evs /\
    tried res evs fd res'.
Proof.
  revert w. induction res as [|ai rest IH]; intros w H; simpl in H.
  - fin H. exists (-1), [], []. repeat split; [apply emitted_nil | constructor].
  - mrun_in H. destruct w as [h tr]. rsimpl.
    destruct (os_socket os tr (ai_family ai) =? -1) eqn:E; cbn [negb] in H.
    + apply Z.eqb_eq in E. rewrite E in H.
      apply IH in H as [fd [res' [evs [-> [Hh [M T]]]]]]. rsimpl.
      exists fd, res'. eexists. split; [reflexivity|]. split; [exact Hh|].
      split; [|apply tried_refused; exact T].
      unfold emitted in *. rsimpl. rewrite M, <- !app_assoc. reflexivity.
    + apply Z.eqb_neq in E. fin H.
      do 3 eexists. split; [reflexivity|]. split; [reflexivity|].
      split; [emitted_tac | apply tried_taken; exact E].
Qed.

Lemma tried_sockets res evs fd res' :
  tried res evs fd res' ->
  created evs = (if 0 <=? fd then [fd] else []) /\ released evs = [] /\
  forallb (of_kinds [KLog; KSocket]) evs = true /\
  (res' = [] -> fd = -1).
Proof.
  induction 1 as [|ai rest fd Hfd|ai rest evs fd res' T IH].
  - split; [reflexivity|]. split; [reflexivity|]. split; reflexivity.
  - split; [unfold created; cbn [flat_map]; apply app_nil_r|].
    split; [reflexivity|]. split; [reflexivity | discriminate].
  - destruct IH as [C [R [K N]]].
    split; [exact C|]. split; [exact R|]. split; [exact K | exact N].
Qed.

(** The local address that [udp_socket_create] asks for. *)
Definition local_lookup (s : UDPContext) (localaddr : string)
    (res : list addrinfo) : trace :=
  resolve_calls (if Ascii.eqb (C.head localaddr) zero then None else Some localaddr)
    (local_port s) SOCK_DGRAM
    (if C.truthy (sa_family (dest_addr s)) then sa_family (dest_addr s) else AF_UNSPEC)
    AI_PASSIVE res.

Lemma udp_socket_create_tried a0 l0 la w o w' :
  udp_socket_create os a0 l0 la w = (o, w') ->
  w_h w' = w_h w /\
  exists res evs fd res',
    emitted w w' (local_lookup (priv_data (w_h w)) la res ++ evs) /\
    tried res evs fd res' /\
    o = Done (match res' with
              | ai :: _ => if fd <? 0 then (-1, a0, l0)
                           else (fd, ai_addr ai, ai_addrlen ai)
              | [] => (-1, a0, l0)
              end).
Proof.
  unfold udp_socket_create, local_lookup. intros H.
  apply bind_run in H as [[s [w0 [E0 H]]] | [fd [E0 _]]]; [|discriminate].
  inversion E0; subst; clear E0.
  apply bind_run in H as [[res [w1 [E1 H]]] | [fd [E1 _]]];
    apply udp_resolve_host_run in E1 as [res' [O1 [H1 M1]]]; [|discriminate].
  injection O1 as <-.
  destruct res as [|ai0 rest0] eqn:Hres.
  - change (0 <=? -1) with false in H. fin H. split; [exact H1|].
    exists [], [], (-1), []. split; [|split; [constructor | reflexivity]].
    rewrite app_nil_r. exact M1.
  - rewrite <- Hres in *. clear Hres.
    apply bind_run in H as [[[fd rs] [w2 [E2 H]]] | [fd [E2 _]]];
      apply socket_loop_tried in E2 as [fd' [rs' [evs [O2 [H2 [M2 T]]]]]];
      [|discriminate].
    injection O2 as <- <-.
    assert (Fin : w' = w2 /\
                  o = Done (match rs with
                            | ai :: _ => if fd <? 0 then (-1, a0, l0)
                                         else (fd, ai_addr ai, ai_addrlen ai)
                            | [] => (-1, a0, l0)
                            end)).
    { destruct (fd <? 0) eqn:L.
      - apply Z.ltb_lt in L.
        assert (Hn : (0 <=? fd) = false) by (apply Z.leb_gt; lia).
        rewrite Hn in H. destruct w2. fin H. destruct rs; auto.
      - apply Z.ltb_ge in L. destruct rs.
        + pose proof (proj2 (proj2 (proj2 (tried_sockets _ _ _ _ T))) eq_refl). lia.
        + destruct w2. fin H. auto. }
    destruct Fin as [-> ->]. split; [congruence|].
    exists res, evs, fd, rs.
    split; [exact (emitted_trans _ _ _ _ _ M1 M2)|]. split; [exact T | reflexivity].
Qed.

(** X1: [udp_socket_create].  It leaves the context alone and asks once
    for the local address.  It then goes over the candidates in order,
    logging a message after each one that [socket] refuses, up to the
    first one that is not refused.  With a descriptor it returns the
    address and the length of that candidate; otherwise it returns -1
    and leaves [addr] and [addr_len] alone.  It creates at most the
    socket it returns, and never closes one. *)
Theorem udp_socket_create_candidates a0 l0 la w o w' :
  udp_socket_create os a0 l0 la w = (o, w') ->
  w_h w' = w_h w /\
  exists res evs fd res' ret addr len,
    calls w w' = local_lookup (priv_data (w_h w)) la res ++ evs /\
    tried res evs fd res' /\
    o = Done (ret, addr, len) /\
    (0 <= ret ->
     ret = fd /\ created (calls w w') = [ret] /\
     exists ai rest, res' = ai :: rest /\ addr = ai_addr ai /\ len = ai_addrlen ai) /\
    (ret < 0 -> ret = -1 /\ addr = a0 /\ len = l0 /\ created (calls w w') = []) /\
    released (calls w w') = [].
Proof.
  intros H. apply udp_socket_create_tried in H as [Hh [res [evs [fd [res' [M [T O]]]]]]].
  split; [exact Hh|]. apply emitted_calls in M.
  destruct (tried_sockets _ _ _ _ T) as [C [R [_ N]]].
  assert (CL : created (local_lookup (priv_data (w_h w)) la res) = []
               /\ released (local_lookup (priv_data (w_h w)) la res) = [])
    by (unfold local_lookup, resolve_calls; destruct res; split; reflexivity).
  destruct CL as [CL RL].
  assert (Cc : created (calls w w') = (if 0 <=? fd then [fd] else []))
    by (rewrite M, created_app, CL, C; reflexivity).
  assert (Rc : released (calls w w') = [])
    by (rewrite M, released_app, RL, R; reflexivity).
  destruct res' as [|ai rest].
  - exists res, evs, fd, [], (-1), a0, l0. rewrite (N eq_refl) in Cc.
    split; [exact M|]. split; [exact T|]. split; [exact O|].
    split; [lia|]. split; [auto | exact Rc].
  - destruct (fd <? 0) eqn:L.
    + apply Z.ltb_lt in L. exists res, evs, fd, (ai :: rest), (-1), a0, l0.
      assert (Hn : (0 <=? fd) = false) by (apply Z.leb_gt; lia).
      rewrite Hn in Cc.
      split; [exact M|]. split; [exact T|]. split; [exact O|].
      split; [lia|]. split; [auto | exact Rc].
    + apply Z.ltb_ge in L.
      exists res, evs, fd, (ai :: rest), fd, (ai_addr ai), (ai_addrlen ai).
      assert (Hp : (0 <=? fd) = true) by (apply Z.leb_le; lia).
      rewrite Hp in Cc.
      split; [exact M|]. split; [exact T|]. split; [exact O|].
      split; [|split; [lia | exact Rc]].
      intros _. split; [reflexivity|]. split; [exact Cc|]. eauto.
Qed.

(* --------------------------------------------------------------------- *)
(** *** What lines 397-471 leave *)

(** A run of [udp_open] is one of five. *)
Ltac open_runs H :=
  let code := fresh "code" in
  let R := fresh "R" in
  apply udp_open_inv in H as [code [-> R]]; inversion R; subst; clear R.

Lemma created_released_none ks evs :
  forallb (of_kinds ks) evs = true ->
  existsb (kind_eqb KSocket) ks = false -> existsb (kind_eqb KClose) ks = false ->
  created evs = [] /\ released evs = [].
Proof. intros K S C. split; [eapply created_none | eapply released_none]; eauto. Qed.

(** [udp_open] stopped before it asked for the local address: the
    descriptor of the context is what it was, and no socket was made. *)
Lemma early_fail_sockets uri fl w w0 w1 o1 :
  udp_open_init fl w = (Done tt, w0) ->
  udp_open_options os uri w0 = (o1, w1) ->
  forall o2 w2,
    (o1 = GotoFail (-1) /\ w2 = w1) \/
    (exists l, o1 = Done l /\ udp_open_dest os uri fl w1 = (o2, w2)) ->
    udp_fd (priv_data (w_h w2)) = udp_fd (priv_data (w_h w)) /\
    created (calls w w2) = [] /\ released (calls w w2) = [].
Proof.
  intros E0 E1 o2 w2 Hc.
  destruct (early_fail_calls os uri fl w w0 w1 o1 E0 E1 o2 w2 Hc) as [evs [M K]].
  rewrite (emitted_calls _ _ _ M).
  split; [|eapply created_released_none; eauto].
  apply udp_open_init_done in E0 as [_ [_ [V0 _]]].
  apply udp_open_options_frame in E1 as [[_ V1] _].
  unfold view_options in *. injection V0 as _ V0 _ _ _. injection V1 as _ V1 _ _ _.
  destruct Hc as [[_ ->] | [l [_ E2]]]; [congruence|].
  apply udp_open_dest_frame in E2 as [[_ V2] _].
  unfold view_set_remote in V2. injection V2 as _ _ _ V2 _ _ _ _. congruence.
Qed.

(** The sockets of lines 397-471: the one that [udp_socket_create]
    returned, if any. *)
Lemma open_prefix_sockets uri fl w l port fd my len w4 :
  open_prefix os uri fl w l port fd my len w4 ->
  emitted w w4 (calls w w4) /\
  forallb (of_kinds prefix_kinds) (calls w w4) = true /\
  created (calls w w4) = (if 0 <=? fd then [fd] else []) /\
  released (calls w w4) = [] /\
  udp_fd (priv_data (w_h w4)) = udp_fd (priv_data (w_h w)) /\
  (fd < 0 -> fd = -1).
Proof.
  intros [w0 [w1 [w2 [w3 [E0 [E1 [E2 [E3 E4]]]]]]]].
  destruct (early_fail_calls os uri fl w w0 w1 _ E0 E1 (Done port) w2
              (or_intror (ex_intro _ l (conj eq_refl E2)))) as [e12 [M12 K12]].
  destruct (early_fail_sockets uri fl w w0 w1 _ E0 E1 (Done port) w2
              (or_intror (ex_intro _ l (conj eq_refl E2)))) as [F2 [C12 R12]].
  rewrite (emitted_calls _ _ _ M12) in C12, R12.
  apply udp_open_default_port_done in E3 as [_ [T3 [V3 _]]].
  apply udp_socket_create_tried in E4 as [H4 [res [evs [fd0 [res' [M4 [T O]]]]]]].
  destruct (tried_sockets _ _ _ _ T) as [C [R [Ks N]]].
  set (lk := local_lookup (priv_data (w_h w3)) (localaddr l) res) in *.
  assert (CL : created lk = [] /\ released lk = []
               /\ forallb (of_kinds prefix_kinds) lk = true)
    by (unfold lk, local_lookup, resolve_calls; destruct res; repeat split).
  destruct CL as [CL [RL KL]].
  assert (M : emitted w w4 (e12 ++ lk ++ evs)).
  { unfold emitted in *. rewrite M4, T3, M12, <- app_assoc. reflexivity. }
  rewrite (emitted_calls _ _ _ M).
  split; [exact M|]. split.
  { rewrite !forallb_app, KL.
    rewrite (forallb_kinds_weaken [KAlloc; KResolve; KLog; KConnect] prefix_kinds _
               eq_refl K12).
    rewrite (forallb_kinds_weaken [KLog; KSocket] prefix_kinds _ eq_refl Ks).
    reflexivity. }
  rewrite !created_app, !released_app, C12, R12, CL, RL, C, R. cbn [app].
  assert (Fd : udp_fd (priv_data (w_h w4)) = udp_fd (priv_data (w_h w))).
  { unfold view_socket in V3. injection V3 as _ _ _ V3 _ _ _ _ _ _. congruence. }
  assert (Ret : fd = match res' with
                     | ai :: _ => if fd0 <? 0 then -1 else fd0
                     | [] => -1
                     end).
  { destruct res'; [congruence|]. destruct (fd0 <? 0); congruence. }
  destruct res' as [|ai rest].
  - subst fd. rewrite (N eq_refl). repeat split; auto.
  - destruct (fd0 <? 0) eqn:L.
    + apply Z.ltb_lt in L. subst fd.
      assert (Hn : (0 <=? fd0) = false) by (apply Z.leb_gt; lia).
      rewrite Hn. repeat split; auto.
    + subst fd. apply Z.ltb_ge in L. repeat split; auto. lia.
Qed.

Lemma stage_sockets fd my len l io h p c1 c2 c3 c4 c5 c6 f1 f2 f4 f5 f6 :
  reuse_stage fd (reuse_specified l) h c1 f1 ->
  stage f1 (bind_stage fd my len h c2 f2) c2 f2 ->
  stage (f1 || f2) (name_stage fd my c3 p) c3 false ->
  stage (f1 || f2) (multicast_stage fd l h c4 f4) c4 f4 ->
  stage (f1 || f2 || f4) (buffer_stage fd io h c5 f5) c5 f5 ->
  stage (f1 || f2 || f4 || f5) (connect_stage fd h c6 f6) c6 f6 ->
  created (c1 ++ c2 ++ c3 ++ c4 ++ c5 ++ c6) = [] /\
  released (c1 ++ c2 ++ c3 ++ c4 ++ c5 ++ c6) = [].
Proof.
  intros S1 S2 S3 S4 S5 S6.
  destruct (stages_kinds _ _ _ _ _ _ _ _ _ _ _ _ _ _ _ _ _ _ S1 S2 S3 S4 S5 S6)
    as [K1 [K2 [K3 [K4 [K5 K6]]]]].
  rewrite !created_app, !released_app.
  destruct (created_released_none _ _ K1 eq_refl eq_refl) as [-> ->].
  destruct (created_released_none _ _ K2 eq_refl eq_refl) as [-> ->].
  destruct (created_released_none _ _ K3 eq_refl eq_refl) as [-> ->].
  destruct (created_released_none _ _ K4 eq_refl eq_refl) as [-> ->].
  destruct (created_released_none _ _ K5 eq_refl eq_refl) as [-> ->].
  destruct (created_released_none _ _ K6 eq_refl eq_refl) as [-> ->].
  split; reflexivity.
Qed.

(** The sockets of a run that returned 0. *)
Lemma open_socket_sockets uri fl w w' :
  udp_open os uri fl w = (Done 0, w') ->
  created (calls w w') = [udp_get_file_handle (w_h w')] /\
  released (calls w w') = [].
Proof.
  intros H. remember (Done 0) as o eqn:Ho. open_runs H; try discriminate Ho.
  match goal with
  | P : open_prefix _ _ _ _ _ _ _ _ _ _, S : socket_run _ _ _ _ _ _ _ _ _ |- _ =>
      destruct (open_prefix_sockets _ _ _ _ _ _ _ _ _ P) as [Mp [_ [C [R [F N]]]]];
      apply socket_run_stages in S; cbv zeta in S;
      destruct S as [c1 [c2 [c3 [c4 [c5 [c6 [f1 [f2 [f4 [f5 [f6
        [Ms [Os [Vs [Rs [S1 [S2 [S3 [S4 [S5 S6]]]]]]]]]]]]]]]]]]]]
  end.
  destruct (stage_sockets _ _ _ _ _ _ _ _ _ _ _ _ _ _ _ _ _ _ S1 S2 S3 S4 S5 S6)
    as [Cs Rs'].
  remember (c1 ++ c2 ++ c3 ++ c4 ++ c5 ++ c6) as cs eqn:Hcs.
  assert (Hp : (0 <=? udp_fd0) = true) by (apply Z.leb_le; lia).
  rewrite Hp in C.
  pose proof (emitted_opened udp_fd0 _ _ _ (emitted_trans _ _ _ _ _ Mp Ms)) as M.
  apply emitted_calls in M. rewrite M.
  rewrite !created_app, !released_app, C, R, Cs, Rs'. split; reflexivity.
Qed.

(** X2: no socket is lost.  [udp_open] returns 0 or [AVERROR(EIO)].
    When it returns 0, the one socket that the run created is the
    descriptor of the context, the one that [udp_get_file_handle]
    returns, and the run closed nothing.  When it
    fails, the descriptor of the context is what it was before, the run
    created at most one socket, and if it created one, closing it is the
    last call of the run: the sockets closed are the sockets created. *)
Theorem open_socket_accounting uri fl w o w' :
  udp_open os uri fl w = (o, w') ->
  let s := priv_data (w_h w) in
  let s' := priv_data (w_h w') in
  (o = Done 0 /\ 0 <= udp_get_file_handle (w_h w') /\
   created (calls w w') = [udp_get_file_handle (w_h w')] /\
   released (calls w w') = []) \/
  (o = Done (AVERROR EIO) /\ udp_fd s' = udp_fd s /\
   released (calls w w') = created (calls w w') /\
   (created (calls w w') = [] \/
    exists fd pre, calls w w' = pre ++ [EClosesocket fd] /\ 0 <= fd /\
                   created pre = [fd] /\ released pre = [])).
Proof.
  intros H. cbv zeta. open_runs H.
  - right. match goal with
    | E0 : udp_open_init _ _ = _, E1 : udp_open_options _ _ _ = _ |- _ =>
        destruct (early_fail_sockets uri fl w _ _ _ E0 E1 (Done 0) _
                    (or_introl (conj eq_refl eq_refl))) as [F [C R]]
    end.
    rewrite C, R. auto.
  - right. match goal with
    | E0 : udp_open_init _ _ = _, E1 : udp_open_options _ _ _ = _,
      E2 : udp_open_dest _ _ _ _ = _ |- _ =>
        destruct (early_fail_sockets uri fl w _ _ _ E0 E1 _ _
                    (or_intror (ex_intro _ _ (conj eq_refl E2)))) as [F [C R]]
    end.
    rewrite C, R. auto.
  - right. match goal with
    | P : open_prefix _ _ _ _ _ _ _ _ _ _ |- _ =>
        destruct (open_prefix_sockets _ _ _ _ _ _ _ _ _ P) as [_ [_ [C [R [F N]]]]]
    end.
    assert (Hn : (0 <=? udp_fd0) = false) by (apply Z.leb_gt; lia).
    rewrite Hn in C. rewrite C, R. auto.
  - right. match goal with
    | P : open_prefix _ _ _ _ _ _ _ _ _ _, S : socket_run _ _ _ _ _ _ _ _ _ |- _ =>
        destruct (open_prefix_sockets _ _ _ _ _ _ _ _ _ P) as [Mp [_ [C [R [F N]]]]];
        apply socket_run_stages in S; cbv zeta in S;
        destruct S as [c1 [c2 [c3 [c4 [c5 [c6 [f1 [f2 [f4 [f5 [f6
          [Ms [Os [Vs [Rs [S1 [S2 [S3 [S4 [S5 S6]]]]]]]]]]]]]]]]]]]]
    end.
    destruct (stage_sockets _ _ _ _ _ _ _ _ _ _ _ _ _ _ _ _ _ _ S1 S2 S3 S4 S5 S6)
      as [Cs Rs'].
    remember (c1 ++ c2 ++ c3 ++ c4 ++ c5 ++ c6) as cs eqn:Hcs.
    assert (Hp : (0 <=? udp_fd0) = true) by (apply Z.leb_le; lia).
    rewrite Hp in C.
    pose proof (emitted_closed udp_fd0 _ _ _ (emitted_trans _ _ _ _ _ Mp Ms)) as M.
    apply emitted_calls in M. rewrite M, closed_view.
    unfold view_socket in Vs. injection Vs as _ _ _ Vu _ _ _ _ _ _.
    split; [reflexivity|]. split; [congruence|].
    rewrite !created_app, !released_app, C, R, Cs, Rs'. cbn.
    split; [reflexivity|]. right.
    exists udp_fd0, (calls w w4 ++ cs).
    split; [reflexivity|]. split; [assumption|].
    rewrite !created_app, !released_app, C, R, Cs, Rs'. split; reflexivity.
  - left. match goal with
    | P : open_prefix _ _ _ _ _ _ _ _ _ _, S : socket_run _ _ _ _ _ _ _ _ _ |- _ =>
        destruct (open_prefix_sockets _ _ _ _ _ _ _ _ _ P) as [Mp [_ [C [R [F N]]]]];
        apply socket_run_stages in S; cbv zeta in S;
        destruct S as [c1 [c2 [c3 [c4 [c5 [c6 [f1 [f2 [f4 [f5 [f6
          [Ms [Os [Vs [Rs [S1 [S2 [S3 [S4 [S5 S6]]]]]]]]]]]]]]]]]]]]
    end.
    destruct (stage_sockets _ _ _ _ _ _ _ _ _ _ _ _ _ _ _ _ _ _ S1 S2 S3 S4 S5 S6)
      as [Cs Rs'].
    remember (c1 ++ c2 ++ c3 ++ c4 ++ c5 ++ c6) as cs eqn:Hcs.
    assert (Hp : (0 <=? udp_fd0) = true) by (apply Z.leb_le; lia).
    rewrite Hp in C.
    pose proof (emitted_opened udp_fd0 _ _ _ (emitted_trans _ _ _ _ _ Mp Ms)) as M.
    apply emitted_calls in M. rewrite M.
    destruct (opened_fields udp_fd0 w5) as [_ [Ou _]]. cbv zeta in Ou.
    unfold udp_get_file_handle. rewrite Ou.
    split; [reflexivity|]. split; [assumption|].
    rewrite !created_app, !released_app, C, R, Cs, Rs'. split; reflexivity.
Qed.

(* --------------------------------------------------------------------- *)
(** *** The destination *)

Lemma udp_set_url_run a hn port w o w' :
  udp_set_url os a hn port w = (o, w') ->
  w_h w' = w_h w /\
  exists res,
    emitted w w' (resolve_calls (Some hn) port SOCK_DGRAM AF_UNSPEC 0 res) /\
    o = Done (match res with
              | [] => (AVERROR EIO, a)
              | ai :: _ => (ai_addrlen ai, ai_addr ai)
              end).
Proof.
  unfold udp_set_url. intros H.
  apply bind_run in H as [[res [w1 [E1 H]]] | [fd [E1 _]]];
    apply udp_resolve_host_run in E1 as [res' [O1 [H1 M1]]]; [|discriminate].
  injection O1 as <-.
  destruct res; mrun_in H; inversion H; subst; (split; [exact H1|]);
    eexists; (split; [exact M1 | reflexivity]).
Qed.

(** What the connect of [ff_udp_set_remote_url] does (lines 343-353),
    for the number [v] read from the URL and the flag [was] found in the
    context. *)
Definition remote_connect_calls (fd : Z) (addr : sockaddr) (len : Z)
    (v was : Z) (r : sysres) : trace :=
  if (C.truthy v && negb (C.truthy was))%bool
  then with_log (EConnect fd addr len r) r AV_LOG_ERROR "connect"
  else [].

(** A run of [ff_udp_set_remote_url]: the lookup of the host of the URL,
    and the connect if one is made; the result, the destination and the
    flags it leaves.  [tag] is the [connect] option. *)
Lemma ff_udp_set_remote_url_run uri w o w' :
  ff_udp_set_remote_url os uri w = (o, w') ->
  let s := priv_data (w_h w) in
  let s' := priv_data (w_h w') in
  let hostname := fst (av_url_split 256 uri) in
  let port := snd (av_url_split 256 uri) in
  let tag :=
    match C.strchr uri "?"%char with
    | Some off =>
        if C.truthy (fst (av_find_info_tag 10 "connect" (C.drop off uri)))
        then Some (snd (av_find_info_tag 10 "connect" (C.drop off uri)))
        else None
    | None => None
    end in
  view_set_remote (w_h w') = view_set_remote (w_h w) /\
  exists res,
    match res with
    | [] =>
        o = Done (AVERROR EIO) /\
        emitted w w' (resolve_calls (Some hostname) port SOCK_DGRAM AF_UNSPEC 0 res) /\
        dest_addr s' = dest_addr s /\ dest_addr_len s' = AVERROR EIO /\
        is_multicast s' = is_multicast s /\ is_connected s' = is_connected s
    | ai :: _ =>
        dest_addr s' = ai_addr ai /\ dest_addr_len s' = ai_addrlen ai /\
        if ai_addrlen ai <? 0 then
          o = Done (AVERROR EIO) /\
          emitted w w' (resolve_calls (Some hostname) port SOCK_DGRAM AF_UNSPEC 0 res) /\
          is_multicast s' = is_multicast s /\ is_connected s' = is_connected s
        else
          is_multicast s' = ff_is_multicast_address (ai_addr ai) /\
          match tag with
          | None =>
              o = Done 0 /\ is_connected s' = is_connected s /\
              emitted w w'
                (resolve_calls (Some hostname) port SOCK_DGRAM AF_UNSPEC 0 res)
          | Some buf =>
              exists r,
                emitted w w'
                  (resolve_calls (Some hostname) port SOCK_DGRAM AF_UNSPEC 0 res
                   ++ remote_connect_calls (udp_fd s) (ai_addr ai) (ai_addrlen ai)
                        (C.strtol_int buf) (is_connected s) r) /\
                if (C.truthy (C.strtol_int buf) && negb (C.truthy (is_connected s))
                    && sys_failed r)%bool
                then o = Done (AVERROR EIO) /\ is_connected s' = 0
                else o = Done 0 /\ is_connected s' = C.strtol_int buf
          end
    end.
Proof.
  intros H. cbv zeta.
  split; [exact (proj2 (proj1 (ff_udp_set_remote_url_frame os uri _ _ _ H)))|].
  unfold ff_udp_set_remote_url in H.
  destruct (av_url_split 256 uri) as [hostname port]. cbn [fst snd].
  mrun_in H.
  destruct (udp_set_url os _ hostname port w) as [o1 w1] eqn:E.
  apply udp_set_url_run in E as [H1 [res [M1 ->]]].
  exists res. destruct w as [h tr]. destruct w1 as [h1 tr1].
  unfold emitted in M1. rsimpl. subst h1 tr1.
  destruct res as [|ai ais].
  - change (AVERROR EIO <? 0) with true in H. fin H.
    split; [reflexivity|]. split; [emitted_tac|]. auto.
  - rsimpl. destruct (ai_addrlen ai <? 0) eqn:L.
    { fin H. split; [reflexivity|]. split; [reflexivity|].
      split; [reflexivity|]. split; [emitted_tac|]. auto. }
    destruct (C.strchr uri "?") as [off|].
    2:{ fin H. split; [reflexivity|]. split; [reflexivity|].
        split; [reflexivity|]. split; [reflexivity|].
        split; [reflexivity | emitted_tac]. }
    destruct (av_find_info_tag 10 "connect" (C.drop off uri)) as [found buf].
    cbn [fst snd]. destruct (C.truthy found).
    2:{ fin H. split; [reflexivity|]. split; [reflexivity|].
        split; [reflexivity|]. split; [reflexivity|].
        split; [reflexivity | emitted_tac]. }
    mrun_in H; rsimpl. unfold remote_connect_calls.
    destruct (C.truthy (C.strtol_int buf) && negb (C.truthy (is_connected (priv_data h))))%bool
      eqn:Hc.
    2:{ fin H. split; [reflexivity|]. split; [reflexivity|].
        split; [reflexivity|]. exists SysOk. cbn [andb].
        split; [rewrite app_nil_r; emitted_tac | auto]. }
    mrun_in H; rsimpl.
    destruct (os_connect os _ _ _ _) as [|e] eqn:Hos;
      cbn [sys_ret C.truthy Z.eqb negb] in H; fin H.
    + split; [reflexivity|]. split; [reflexivity|]. split; [reflexivity|].
      exists SysOk. cbn [andb sys_failed with_log].
      split; [emitted_tac | auto].
    + split; [reflexivity|]. split; [reflexivity|]. split; [reflexivity|].
      exists (SysErr e). cbn [andb sys_failed with_log].
      split; [emitted_tac | auto].
Qed.

(** X3: [ff_udp_set_remote_url].  It looks the host of the URL up once,
    and makes no other call but a connect and messages: no socket, no
    bind, no option, no membership call.  When the lookup finds nothing
    it returns [AVERROR(EIO)] without a connect; it keeps the address of
    the destination, the multicast flag and the connected flag, but the
    length of the destination is overwritten with [AVERROR(EIO)] (line
    335).  When the lookup finds addresses, the first one becomes the
    destination, address and length, and decides the multicast flag.
    The descriptor, the flags of the context, the packet size, the TTL,
    the buffer size, the local port and the reuse flag are what they
    were in every case. *)
Theorem set_remote_destination uri w o w' :
  ff_udp_set_remote_url os uri w = (o, w') ->
  let s := priv_data (w_h w) in
  let s' := priv_data (w_h w') in
  let hostname := fst (av_url_split 256 uri) in
  let port := snd (av_url_split 256 uri) in
  view_set_remote (w_h w') = view_set_remote (w_h w) /\
  forallb (of_kinds [KResolve; KLog; KConnect]) (calls w w') = true /\
  exists res,
    select KResolve (calls w w')
      = [EGetaddrinfo (node_of (Some hostname)) (service_of port) SOCK_DGRAM
           AF_UNSPEC 0 res] /\
    (res = [] ->
     o = Done (AVERROR EIO) /\ select KConnect (calls w w') = [] /\
     dest_addr s' = dest_addr s /\ dest_addr_len s' = AVERROR EIO /\
     is_multicast s' = is_multicast s /\
     is_connected s' = is_connected s) /\
    (forall ai ais, res = ai :: ais ->
       dest_addr s' = ai_addr ai /\ dest_addr_len s' = ai_addrlen ai /\
       (0 <= ai_addrlen ai ->
        is_multicast s' = ff_is_multicast_address (ai_addr ai))).
Proof.
  intros H. cbv zeta.
  pose proof (ff_udp_set_remote_url_frame os uri _ _ _ H) as [F _].
  apply frame_calls in F as [_ K].
  apply ff_udp_set_remote_url_run in H. cbv zeta in H. destruct H as [V [res R]].
  split; [exact V|]. split; [exact K|]. exists res.
  assert (Sel : forall c, forallb (of_kinds [KConnect; KLog]) c = true ->
            select KResolve
              (resolve_calls (Some (fst (av_url_split 256 uri)))
                 (snd (av_url_split 256 uri)) SOCK_DGRAM AF_UNSPEC 0 res ++ c)
            = [EGetaddrinfo (node_of (Some (fst (av_url_split 256 uri))))
                 (service_of (snd (av_url_split 256 uri))) SOCK_DGRAM AF_UNSPEC 0 res]).
  { intros c Kc. rewrite select_app, (select_none _ KResolve _ Kc eq_refl).
    unfold resolve_calls. destruct res; reflexivity. }
  destruct res as [|ai ais].
  - destruct R as [-> [M [D [Dl [Mc C]]]]]. rewrite (emitted_calls _ _ _ M).
    split; [rewrite <- (app_nil_r (resolve_calls _ _ _ _ _ _)); apply Sel; reflexivity|].
    split; [|intros ai ais E; discriminate E].
    intros _. split; [reflexivity|]. split; [reflexivity|]. auto.
  - destruct R as [D [L R]].
    assert (X : select KResolve (calls w w')
                = [EGetaddrinfo (node_of (Some (fst (av_url_split 256 uri))))
                     (service_of (snd (av_url_split 256 uri))) SOCK_DGRAM AF_UNSPEC 0
                     (ai :: ais)]
                /\ (0 <= ai_addrlen ai ->
                    is_multicast (priv_data (w_h w'))
                    = ff_is_multicast_address (ai_addr ai))).
    { destruct (ai_addrlen ai <? 0) eqn:Ln.
      - destruct R as [_ [M _]]. rewrite (emitted_calls _ _ _ M).
        split; [rewrite <- (app_nil_r (resolve_calls _ _ _ _ _ _)); apply Sel; reflexivity|].
        apply Z.ltb_lt in Ln. lia.
      - destruct R as [Mc R]. split; [|intros _; exact Mc].
        destruct (match C.strchr uri "?"%char with Some _ => _ | None => _ end)
          as [buf|].
        + destruct R as [r [M _]]. rewrite (emitted_calls _ _ _ M). apply Sel.
          unfold remote_connect_calls, with_log.
          destruct (_ && _)%bool, r; reflexivity.
        + destruct R as [_ [_ M]]. rewrite (emitted_calls _ _ _ M).
          rewrite <- (app_nil_r (resolve_calls _ _ _ _ _ _)); apply Sel; reflexivity. }
    destruct X as [X1 X2]. split; [exact X1|]. split; [discriminate|].
    intros ai' ais' E. injection E as <- <-. auto.
Qed.

(** Lines 454-465.  The URL has no host when the host name that
    [av_url_split] returns is empty or starts with ['?']. *)
Definition null_host (uri : string) : bool :=
  (Ascii.eqb (C.head (fst (av_url_split 1024 uri))) zero
   || Ascii.eqb (C.head (fst (av_url_split 1024 uri))) "?"%char)%bool.

Lemma udp_open_dest_run uri fl w o w' :
  udp_open_dest os uri fl w = (o, w') ->
  if null_host uri then
    w' = w /\
    o = (if has_flag fl AVIO_FLAG_READ
         then Done (snd (av_url_split 1024 uri)) else GotoFail (-1))
  else
    exists r,
      ff_udp_set_remote_url os uri w = (Done r, w') /\
      o = (if r <? 0 then GotoFail (-1) else Done (snd (av_url_split 1024 uri))).
Proof.
  unfold udp_open_dest, null_host. destruct (av_url_split 1024 uri) as [hn port].
  cbn [fst snd]. intros H.
  destruct (_ || _)%bool.
  - destruct (has_flag fl AVIO_FLAG_READ); cbn [negb when] in H; inversion H; auto.
  - apply bind_run in H as [[[] [w1 [E1 H]]] | [fd [E1 ->]]].
    + apply bind_run in E1 as [[r [w2 [E2 E1]]] | [fd [E2 E1]]].
      * exists r. destruct (r <? 0); cbn [when] in E1; [discriminate|].
        inversion E1; subst. inversion H; subst. auto.
      * pose proof (proj2 (ff_udp_set_remote_url_frame os uri _ _ _ E2)) as [].
    + apply bind_run in E1 as [[r [w2 [E2 E1]]] | [fd' [E2 E1]]].
      * exists r. destruct (r <? 0); cbn [when] in E1; [|discriminate].
        inversion E1; subst. auto.
      * pose proof (proj2 (ff_udp_set_remote_url_frame os uri _ _ _ E2)) as [].
Qed.

(* --------------------------------------------------------------------- *)
(** *** The parameters of the session *)

(** The options with one value that [udp_open_options] stores, and the
    local address it returns. *)
Lemma udp_open_options_params uri w o w' :
  udp_open_options os uri w = (o, w') ->
  let h := w_h w in
  let h' := w_h w' in
  is_streamed h' = is_streamed h /\
  max_packet_size h' = int_option (url_tag uri "pkt_size") (max_packet_size h) /\
  ttl (priv_data h') = int_option (url_tag uri "ttl") (ttl (priv_data h)) /\
  buffer_size (priv_data h')
    = int_option (url_tag uri "buffer_size") (buffer_size (priv_data h)) /\
  (forall l, o = Done l ->
     localaddr l = match url_tag uri "localaddr" with
                   | Some buf => av_strlcpy buf 1024
                   | None => EmptyString
                   end).
Proof.
  unfold udp_open_options, url_tag. intros H. cbv zeta.
  destruct (C.strchr uri "?") as [off|].
  2:{ fin H. repeat split. intros l E. injection E as <-. reflexivity. }
  apply bind_run in H as [[[rs la] [w1 [E1 H]]] | [fd [E1 ->]]];
    rewrite udp_open_plain_options_eq in E1; inversion E1; subst; clear E1.
  apply bind_run in H as [[[inc srcs] [w2 [E2 H]]] | [fd [E2 ->]]];
    apply udp_open_source_options_run in E2 as [H2 _]; rsimpl.
  - inversion H; subst; clear H. rewrite H2. rsimpl.
    repeat split. intros l E. injection E as <-. reflexivity.
  - rewrite H2. rsimpl. repeat split. intros l E. discriminate E.
Qed.

(** The buffer size of lines 402-403. *)
Definition default_buffer_size (fl : Z) : Z :=
  if negb (has_flag fl AVIO_FLAG_READ) then UDP_TX_BUF_SIZE else UDP_MAX_PKT_SIZE.

(** What lines 397-471 leave in the context: the parameters, and the
    destination. *)
Lemma open_prefix_context uri fl w l port fd my len w4 :
  open_prefix os uri fl w l port fd my len w4 ->
  let s := priv_data (w_h w) in
  let h4 := w_h w4 in
  let s4 := priv_data h4 in
  flags h4 = flags (w_h w) /\
  is_streamed h4 = 1 /\
  max_packet_size h4 = int_option (url_tag uri "pkt_size") 1472 /\
  ttl s4 = int_option (url_tag uri "ttl") 16 /\
  buffer_size s4 = int_option (url_tag uri "buffer_size") (default_buffer_size fl) /\
  localaddr l = match url_tag uri "localaddr" with
                | Some buf => av_strlcpy buf 1024
                | None => EmptyString
                end /\
  (exists res,
     select KLocal (calls w w4)
       = [EGetaddrinfo
            (node_of (if Ascii.eqb (C.head (localaddr l)) zero then None
                      else Some (localaddr l)))
            (service_of (local_port s4)) SOCK_DGRAM
            (if C.truthy (sa_family (dest_addr s4)) then sa_family (dest_addr s4)
             else AF_UNSPEC)
            AI_PASSIVE res]) /\
  (C.truthy (is_connected s4) = false -> select KConnect (calls w w4) = []) /\
  if null_host uri then
    has_flag fl AVIO_FLAG_READ = true /\
    select KResolve (calls w w4) = [] /\ select KConnect (calls w w4) = [] /\
    dest_addr s4 = dest_addr s /\ dest_addr_len s4 = dest_addr_len s /\
    is_multicast s4 = is_multicast s /\
    is_connected s4 = int_option (url_tag uri "connect") (is_connected s)
  else
    exists ai ais,
      select KResolve (calls w w4)
        = [EGetaddrinfo (node_of (Some (fst (av_url_split 256 uri))))
             (service_of (snd (av_url_split 256 uri))) SOCK_DGRAM AF_UNSPEC 0
             (ai :: ais)] /\
      dest_addr s4 = ai_addr ai /\ dest_addr_len s4 = ai_addrlen ai /\
      0 <= ai_addrlen ai /\
      is_multicast s4 = ff_is_multicast_address (ai_addr ai).
Proof.
  intros [w0 [w1 [w2 [w3 [E0 [E1 [E2 [E3 E4]]]]]]]]. cbv zeta.
  assert (I0 : is_streamed (w_h w0) = 1 /\ max_packet_size (w_h w0) = 1472 /\
               ttl (priv_data (w_h w0)) = 16 /\
               buffer_size (priv_data (w_h w0)) = default_buffer_size fl)
    by (inversion E0; subst; repeat split).
  destruct I0 as [Is0 [Mp0 [Tt0 Bs0]]].
  pose proof (udp_open_init_done _ _ _ _ E0) as [_ [T0 [V0 [_ [_ C0]]]]].
  pose proof (udp_open_options_params _ _ _ _ E1) as P1. cbv zeta in P1.
  destruct P1 as [Is1 [Mp1 [Tt1 [Bs1 La1]]]]. specialize (La1 l eq_refl).
  pose proof (udp_open_options_run os _ _ _ _ E1) as R1. cbv zeta in R1.
  destruct R1 as [V1 [_ [_ [C1 _]]]].
  pose proof (udp_open_options_frame os uri _ _ _ E1) as [F1 _].
  apply frame_calls in F1 as [T1 K1].
  pose proof (udp_open_dest_frame os uri fl _ _ _ E2) as [[_ V2] _].
  pose proof (udp_open_default_port_done _ _ _ _ E3) as [_ [T3 [V3 _]]].
  pose proof (udp_socket_create_tried _ _ _ _ _ _ E4)
    as [H4 [res [evs [fd0 [res' [M4 [T _]]]]]]].
  destruct (tried_sockets _ _ _ _ T) as [_ [_ [Ks _]]].
  set (lk := local_lookup (priv_data (w_h w3)) (localaddr l) res) in *.
  assert (KL : forallb (of_kinds [KLocal; KLog]) lk = true)
    by (unfold lk, local_lookup, resolve_calls; destruct res; reflexivity).
  unfold view_options in V0, V1. unfold view_set_remote in V2. unfold view_socket in V3.
  injection V0 as V0f V0u V0m V0d V0l. injection V1 as V1f V1u V1m V1d V1l.
  injection V2 as V2f V2s V2p V2u V2t V2b V2lp V2r.
  injection V3 as V3f V3s V3p V3u V3t V3b V3m V3d V3l V3c.
  rewrite H4.
  split; [congruence|]. split; [congruence|]. split; [congruence|].
  split; [congruence|]. split; [congruence|]. split; [exact La1|].
  assert (Lk : forall c2, w_trace w2 = w_trace w1 ++ c2 ->
            forallb (of_kinds dest_kinds) c2 = true ->
            select KLocal (calls w w4)
            = [EGetaddrinfo
                 (node_of (if Ascii.eqb (C.head (localaddr l)) zero then None
                           else Some (localaddr l)))
                 (service_of (local_port (priv_data (w_h w3)))) SOCK_DGRAM
                 (if C.truthy (sa_family (dest_addr (priv_data (w_h w3))))
                  then sa_family (dest_addr (priv_data (w_h w3))) else AF_UNSPEC)
                 AI_PASSIVE res]).
  { intros c2 T2 K2.
    assert (M : emitted w w4 (calls w0 w1 ++ c2 ++ lk ++ evs)).
    { unfold emitted in *. rewrite M4, T3, T2, T1, T0, <- !app_assoc. reflexivity. }
    rewrite (emitted_calls _ _ _ M), !select_app.
    rewrite (select_none _ KLocal _ K1 eq_refl), (select_none _ KLocal _ K2 eq_refl),
      (select_none _ KLocal _ Ks eq_refl), app_nil_r.
    unfold lk, local_lookup, resolve_calls. destruct res; reflexivity. }
  pose proof (udp_open_dest_frame os uri fl _ _ _ E2) as [Fd _].
  apply frame_calls in Fd as [Td Kd].
  split; [exists res; exact (Lk _ Td Kd)|].
  assert (Sel : forall k c2,
            calls w1 w2 = c2 -> w_trace w2 = w_trace w1 ++ c2 ->
            existsb (kind_eqb k) [KAlloc; KLocal; KLog; KSocket] = false ->
            select k (calls w w4) = select k c2).
  { intros k c2 Ec T2 Nk.
    assert (M : emitted w w4 (calls w0 w1 ++ c2 ++ lk ++ evs)).
    { unfold emitted in *. rewrite M4, T3, T2, T1, T0, <- !app_assoc. reflexivity. }
    rewrite (emitted_calls _ _ _ M), !select_app.
    assert (N : forall ks c, forallb (of_kinds ks) c = true ->
                  covers [KAlloc; KLocal; KLog; KSocket] ks = true ->
                  select k c = []).
    { intros ks c Kc Cv. eapply select_none;
        [exact (forallb_kinds_weaken ks [KAlloc; KLocal; KLog; KSocket] c Cv Kc)
        | exact Nk]. }
    rewrite (N _ _ K1 eq_refl), (N _ _ KL eq_refl), (N _ _ Ks eq_refl), app_nil_r.
    reflexivity. }
  apply udp_open_dest_run in E2. destruct (null_host uri).
  - destruct E2 as [-> E2]. destruct (has_flag fl AVIO_FLAG_READ); [|discriminate E2].
    assert (Cn : calls w1 w1 = []) by (apply calls_same; reflexivity).
    split; [intros _; rewrite (Sel KConnect [] Cn) by (rewrite ?app_nil_r; reflexivity);
            reflexivity|].
    split; [reflexivity|].
    split; [rewrite (Sel KResolve [] Cn) by (rewrite ?app_nil_r; reflexivity);
            reflexivity|].
    split; [rewrite (Sel KConnect [] Cn) by (rewrite ?app_nil_r; reflexivity);
            reflexivity|].
    split; [congruence|]. split; [congruence|]. split; [congruence|]. congruence.
  - destruct E2 as [r [E2 O2]].
    pose proof (ff_udp_set_remote_url_frame os uri _ _ _ E2) as [F2 _].
    apply frame_calls in F2 as [T2 _].
    apply ff_udp_set_remote_url_run in E2. cbv zeta in E2. destruct E2 as [_ [rs R]].
    destruct rs as [|ai ais].
    { destruct R as [Or _]. injection Or as ->.
      change (AVERROR EIO <? 0) with true in O2. discriminate O2. }
    destruct R as [D [L R]].
    destruct (ai_addrlen ai <? 0) eqn:Ln.
    { destruct R as [Or _]. injection Or as ->.
      change (AVERROR EIO <? 0) with true in O2. discriminate O2. }
    apply Z.ltb_ge in Ln. destruct R as [Mc R].
    assert (Sc : forall c,
              select KConnect
                (resolve_calls (Some (fst (av_url_split 256 uri)))
                   (snd (av_url_split 256 uri)) SOCK_DGRAM AF_UNSPEC 0 (ai :: ais) ++ c)
              = select KConnect c) by (intros c; reflexivity).
    split.
    { intros Nc. rewrite (Sel KConnect (calls w1 w2) eq_refl T2 eq_refl).
      assert (Cf : C.truthy (is_connected (priv_data (w_h w2))) = false) by congruence.
      destruct (match C.strchr uri "?"%char with Some _ => _ | None => _ end) as [buf|].
      - destruct R as [r' [M R]]. rewrite (emitted_calls _ _ _ M), Sc.
        unfold remote_connect_calls.
        destruct (C.truthy (C.strtol_int buf)
                  && negb (C.truthy (is_connected (priv_data (w_h w1)))))%bool eqn:Hc;
          [|reflexivity].
        cbn [andb] in R. destruct r' as [|e]; cbn [sys_failed] in R.
        + destruct R as [_ R]. apply andb_prop in Hc as [Hv _]. congruence.
        + destruct R as [Or _]. injection Or as ->.
          change (AVERROR EIO <? 0) with true in O2. discriminate O2.
      - destruct R as [_ [_ M]]. rewrite (emitted_calls _ _ _ M).
        unfold resolve_calls. reflexivity. }
    exists ai, ais.
    split; [|split; [congruence|split; [congruence|split; [exact Ln|congruence]]]].
    rewrite (Sel KResolve (calls w1 w2) eq_refl T2 eq_refl).
    assert (Sr : forall c, forallb (of_kinds [KConnect; KLog]) c = true ->
              select KResolve
                (resolve_calls (Some (fst (av_url_split 256 uri)))
                   (snd (av_url_split 256 uri)) SOCK_DGRAM AF_UNSPEC 0 (ai :: ais) ++ c)
              = [EGetaddrinfo (node_of (Some (fst (av_url_split 256 uri))))
                   (service_of (snd (av_url_split 256 uri))) SOCK_DGRAM AF_UNSPEC 0
                   (ai :: ais)]).
    { intros c Kc. rewrite select_app, (select_none _ KResolve _ Kc eq_refl).
      reflexivity. }
    destruct (match C.strchr uri "?"%char with Some _ => _ | None => _ end) as [buf|].
    + destruct R as [r' [M _]]. rewrite (emitted_calls _ _ _ M). apply Sr.
      unfold remote_connect_calls, with_log. destruct (_ && _)%bool, r'; reflexivity.
    + destruct R as [_ [_ M]]. rewrite (emitted_calls _ _ _ M).
      rewrite <- (app_nil_r (resolve_calls _ _ _ _ _ _)). apply Sr. reflexivity.
Qed.

(** The destination that the options and the label [fail] leave alone. *)
Definition destination (h : URLContext) :=
  (dest_addr (priv_data h), dest_addr_len (priv_data h), is_multicast (priv_data h)).

Lemma socket_run_destination fd my len l io w o w' :
  socket_run os fd my len l io w o w' -> destination (w_h w') = destination (w_h w).
Proof.
  intros S. apply socket_run_stages in S. cbv zeta in S.
  destruct S as [c1 [c2 [c3 [c4 [c5 [c6 [f1 [f2 [f4 [f5 [f6 [_ [_ [V _]]]]]]]]]]]]]].
  unfold view_socket in V. injection V as _ _ _ _ _ _ Vm Vd Vl _.
  unfold destination. congruence.
Qed.

(** X4: a URL without a host.  [udp_open] then never touches the
    destination: the address, its length and the multicast flag of the
    context are what they were, however the run ends.  Such a URL is
    accepted for reading only: when [flags] has no [AVIO_FLAG_READ], open
    returns [AVERROR(EIO)] without a single system call (it only copied
    the host list). *)
Theorem open_without_host uri fl w o w' :
  udp_open os uri fl w = (o, w') ->
  null_host uri = true ->
  destination (w_h w') = destination (w_h w) /\
  (has_flag fl AVIO_FLAG_READ = false ->
   o = Done (AVERROR EIO) /\ forallb (of_kinds [KAlloc]) (calls w w') = true).
Proof.
  intros H N. open_runs H.
  - match goal with
    | E0 : udp_open_init _ _ = _, E1 : udp_open_options _ _ _ = _ |- _ =>
        apply udp_open_init_done in E0 as [_ [T0 [V0 _]]];
        apply udp_open_options_frame in E1 as [[[e1 [T1 K1]] V1] _]
    end.
    unfold view_options in *. injection V0 as _ _ V0m V0d V0l.
    injection V1 as _ _ V1m V1d V1l.
    split; [unfold destination; congruence|]. intros _. split; [reflexivity|].
    erewrite emitted_calls; [exact K1|]. unfold emitted. congruence.
  - match goal with
    | E0 : udp_open_init _ _ = _, E1 : udp_open_options _ _ _ = _,
      E2 : udp_open_dest _ _ _ _ = _ |- _ =>
        apply udp_open_init_done in E0 as [_ [T0 [V0 _]]];
        apply udp_open_options_frame in E1 as [[[e1 [T1 K1]] V1] _];
        apply udp_open_dest_run in E2; rewrite N in E2; destruct E2 as [-> E2]
    end.
    unfold view_options in *. injection V0 as _ _ V0m V0d V0l.
    injection V1 as _ _ V1m V1d V1l.
    split; [unfold destination; congruence|]. intros _. split; [reflexivity|].
    erewrite emitted_calls; [exact K1|]. unfold emitted. congruence.
  - match goal with
    | P : open_prefix _ _ _ _ _ _ _ _ _ _ |- _ =>
        pose proof (open_prefix_context _ _ _ _ _ _ _ _ _ P) as C
    end.
    cbv zeta in C. rewrite N in C.
    destruct C as [_ [_ [_ [_ [_ [_ [_ [_ [Rd [_ [_ [Da [Dl [Dm _]]]]]]]]]]]]]].
    split; [unfold destination; congruence|]. intros R. congruence.
  - match goal with
    | P : open_prefix _ _ _ _ _ _ _ _ _ _, S : socket_run _ _ _ _ _ _ _ _ _ |- _ =>
        pose proof (open_prefix_context _ _ _ _ _ _ _ _ _ P) as C;
        pose proof (socket_run_destination _ _ _ _ _ _ _ _ S) as D
    end.
    cbv zeta in C. rewrite N in C.
    destruct C as [_ [_ [_ [_ [_ [_ [_ [_ [Rd [_ [_ [Da [Dl [Dm _]]]]]]]]]]]]]].
    split; [|intros R; congruence].
    unfold destination in *. rewrite closed_view. congruence.
  - match goal with
    | P : open_prefix _ _ _ _ _ _ _ _ _ _, S : socket_run _ _ _ _ _ _ _ _ _ |- _ =>
        pose proof (open_prefix_context _ _ _ _ _ _ _ _ _ P) as C;
        pose proof (socket_run_destination _ _ _ _ _ _ _ _ S) as D
    end.
    cbv zeta in C. rewrite N in C.
    destruct C as [_ [_ [_ [_ [_ [_ [_ [_ [Rd [_ [_ [Da [Dl [Dm _]]]]]]]]]]]]]].
    split; [|intros R; congruence].
    unfold destination in *. cbn. congruence.
Qed.


(* --------------------------------------------------------------------- *)
(** *** A successful open *)

(** A run of [udp_open] that returned 0, block by block. *)
Lemma open_ok_stages uri fl w w' :
  udp_open os uri fl w = (Done 0, w') ->
  exists l port fd my len w4 w5 c1 c2 c3 c4 c5 c6,
    open_prefix os uri fl w l port fd my len w4 /\ 0 <= fd /\
    w' = opened fd w5 /\
    calls w w' = calls w w4 ++ c1 ++ c2 ++ c3 ++ c4 ++ c5 ++ c6 /\
    view_socket (w_h w5) = view_socket (w_h w4) /\
    reuse_stage fd (reuse_specified l) (w_h w4) c1 false /\
    bind_stage fd my len (w_h w4) c2 false /\
    name_stage fd my c3 (local_port (priv_data (w_h w5))) /\
    multicast_stage fd l (w_h w4) c4 false /\
    buffer_stage fd (negb (has_flag fl AVIO_FLAG_READ)) (w_h w4) c5 false /\
    connect_stage fd (w_h w4) c6 false.
Proof.
  intros H. remember (Done 0) as o eqn:Ho. open_runs H; try discriminate Ho.
  match goal with
  | P : open_prefix _ _ _ _ _ _ _ _ _ _, S : socket_run _ _ _ _ _ _ _ _ _ |- _ =>
      destruct (open_prefix_sockets _ _ _ _ _ _ _ _ _ P) as [Mp _];
      pose proof P as P';
      apply socket_run_stages in S; cbv zeta in S;
      destruct S as [c1 [c2 [c3 [c4 [c5 [c6 [f1 [f2 [f4 [f5 [f6
        [Ms [Os [Vs [Rs [S1 [S2 [S3 [S4 [S5 S6]]]]]]]]]]]]]]]]]]]]
  end.
  apply outcome_of_done in Os.
  apply orb_false_elim in Os as [Os ->]. apply orb_false_elim in Os as [Os ->].
  apply orb_false_elim in Os as [Os ->]. apply orb_false_elim in Os as [-> ->].
  cbn [orb stage] in *.
  exists l, port, udp_fd0, my_addr, len, w4, w5, c1, c2, c3, c4, c5, c6.
  split; [exact P'|]. split; [assumption|]. split; [reflexivity|].
  split; [|auto 10].
  apply emitted_calls. apply emitted_opened.
  exact (emitted_trans _ _ _ _ _ Mp Ms).
Qed.

(** The kinds of the calls before the buffer size is set. *)
Lemma open_ok_kinds uri fl w l port fd my len w4 c1 c2 c3 c4 p :
  open_prefix os uri fl w l port fd my len w4 ->
  reuse_stage fd (reuse_specified l) (w_h w4) c1 false ->
  bind_stage fd my len (w_h w4) c2 false ->
  name_stage fd my c3 p ->
  multicast_stage fd l (w_h w4) c4 false ->
  forallb (of_kinds prefix_kinds) (calls w w4) = true /\
  forallb (of_kinds [KReuse]) c1 = true /\
  forallb (of_kinds bind_kinds) c2 = true /\
  forallb (of_kinds name_kinds) c3 = true /\
  forallb (of_kinds multicast_kinds) c4 = true.
Proof.
  intros P S1 S2 S3 S4.
  destruct (open_prefix_sockets _ _ _ _ _ _ _ _ _ P) as [_ [Kp _]].
  split; [exact Kp|].
  split; [eapply reuse_stage_kinds; eauto|].
  split; [eapply bind_calls_kinds; exact S2|].
  split; [eapply name_stage_kinds; eauto|].
  exact (proj1 S4).
Qed.

(** X5: the parameters of a session.  After a successful [udp_open] the
    context is a stream of packets of at most [pkt_size] bytes (1472 when
    the URL does not say), with the [ttl] of the URL (16 when it does not
    say) and the [buffer_size] of the URL (the default of the direction
    when it does not say).  That buffer size is what the one buffer call
    on the new socket asks for: [SO_RCVBUF] when [flags] has
    [AVIO_FLAG_READ], and then the socket is made non-blocking;
    [SO_SNDBUF] otherwise, which succeeded, and then the socket is left
    blocking. *)
Theorem open_session_parameters uri fl w w' :
  udp_open os uri fl w = (Done 0, w') ->
  let h' := w_h w' in
  let s' := priv_data h' in
  let fd := udp_fd s' in
  is_streamed h' = 1 /\
  max_packet_size h' = int_option (url_tag uri "pkt_size") 1472 /\
  ttl s' = int_option (url_tag uri "ttl") 16 /\
  buffer_size s' = int_option (url_tag uri "buffer_size") (default_buffer_size fl) /\
  if has_flag fl AVIO_FLAG_READ then
    (exists r, select KRcvbuf (calls w w')
               = [ESetsockopt fd SOL_SOCKET (SO_RCVBUF (buffer_size s')) r]) /\
    select KSndbuf (calls w w') = [] /\
    select KNonblock (calls w w') = [ENonblock fd 1]
  else
    select KSndbuf (calls w w')
      = [ESetsockopt fd SOL_SOCKET (SO_SNDBUF (buffer_size s')) SysOk] /\
    select KRcvbuf (calls w w') = [] /\
    select KNonblock (calls w w') = [].
Proof.
  intros H. cbv zeta.
  apply open_ok_stages in H
    as [l [port [fd [my [len [w4 [w5 [c1 [c2 [c3 [c4 [c5 [c6
         [P [Fd [-> [Cs [Vs [S1 [S2 [S3 [S4 [S5 S6]]]]]]]]]]]]]]]]]]]]]]].
  pose proof (open_prefix_context _ _ _ _ _ _ _ _ _ P) as C. cbv zeta in C.
  destruct C as [_ [Is [Mp [Tt [Bs _]]]]].
  destruct (open_ok_kinds _ _ _ _ _ _ _ _ _ _ _ _ _ _ P S1 S2 S3 S4)
    as [Kp [K1 [K2 [K3 K4]]]].
  pose proof (connect_stage_kinds _ _ _ _ S6) as K6.
  unfold view_socket in Vs. injection Vs as _ Vi Vp _ Vt Vb _ _ _ _.
  change (is_streamed (w_h (opened fd w5))) with (is_streamed (w_h w5)).
  change (max_packet_size (w_h (opened fd w5))) with (max_packet_size (w_h w5)).
  change (ttl (priv_data (w_h (opened fd w5)))) with (ttl (priv_data (w_h w5))).
  change (buffer_size (priv_data (w_h (opened fd w5))))
    with (buffer_size (priv_data (w_h w5))).
  change (udp_fd (priv_data (w_h (opened fd w5)))) with fd.
  split; [congruence|]. split; [congruence|]. split; [congruence|].
  split; [congruence|].
  rewrite Cs, Vb. destruct S5 as [r [-> F]].
  assert (N : forall k, existsb (kind_eqb k) [KSndbuf; KRcvbuf; KNonblock] = true ->
              forall c, select k (calls w w4 ++ c1 ++ c2 ++ c3 ++ c4 ++ c ++ c6)
                        = select k c).
  { intros k Hk c.
    destruct k; try discriminate Hk; select_kinds; rewrite ?app_nil_r; reflexivity. }
  rewrite !N by reflexivity. unfold buffer_calls.
  destruct (has_flag fl AVIO_FLAG_READ); cbn [negb andb] in *.
  - split; [exists r; destruct r; reflexivity|].
    split; destruct r; reflexivity.
  - destruct r; [|discriminate F]. repeat split.
Qed.

(** X6: the connect of lines 544-549.  After a successful [udp_open],
    when the context is connected the last call of the run is the
    connect of the new socket to the destination of the context; it
    succeeded, and it came after the socket was bound.  When the context
    is not connected the run made no connect at all. *)
Theorem open_connect_policy uri fl w w' :
  udp_open os uri fl w = (Done 0, w') ->
  let s' := priv_data (w_h w') in
  let fd := udp_fd s' in
  if C.truthy (is_connected s') then
    exists pre,
      calls w w' = pre ++ [EConnect fd (dest_addr s') (dest_addr_len s') SysOk] /\
      exists a len, In (EBind fd a len SysOk) pre
  else select KConnect (calls w w') = [].
Proof.
  intros H. cbv zeta.
  apply open_ok_stages in H
    as [l [port [fd [my [len [w4 [w5 [c1 [c2 [c3 [c4 [c5 [c6
         [P [Fd [-> [Cs [Vs [S1 [S2 [S3 [S4 [S5 S6]]]]]]]]]]]]]]]]]]]]]]].
  pose proof (open_prefix_context _ _ _ _ _ _ _ _ _ P) as C. cbv zeta in C.
  destruct C as [_ [_ [_ [_ [_ [_ [_ [Nc _]]]]]]]].
  destruct (open_ok_kinds _ _ _ _ _ _ _ _ _ _ _ _ _ _ P S1 S2 S3 S4)
    as [Kp [K1 [K2 [K3 K4]]]].
  pose proof (buffer_stage_kinds _ _ _ _ _ S5) as K5.
  unfold view_socket in Vs. injection Vs as _ _ _ _ _ _ _ Vd Vl Vc.
  change (is_connected (priv_data (w_h (opened fd w5))))
    with (is_connected (priv_data (w_h w5))).
  change (dest_addr (priv_data (w_h (opened fd w5))))
    with (dest_addr (priv_data (w_h w5))).
  change (dest_addr_len (priv_data (w_h (opened fd w5))))
    with (dest_addr_len (priv_data (w_h w5))).
  change (udp_fd (priv_data (w_h (opened fd w5)))) with fd.
  rewrite Vc, Vd, Vl, Cs. destruct S6 as [r [-> F]]. unfold connect_calls.
  destruct (C.truthy (is_connected (priv_data (w_h w4)))) eqn:Ic.
  - destruct r; [|discriminate F]. cbn [with_log sys_failed].
    exists (calls w w4 ++ c1 ++ c2 ++ c3 ++ c4 ++ c5).
    split; [rewrite <- !app_assoc; reflexivity|].
    assert (B : exists a n, In (EBind fd a n SysOk) c2).
    { unfold bind_stage in S2. inversion S2; subst; do 2 eexists;
        [left | right; left | left]; reflexivity. }
    destruct B as [a [n B]]. exists a, n. rewrite !in_app_iff. tauto.
  - rewrite !select_app, (Nc eq_refl).
    rewrite (select_none _ KConnect _ K1 eq_refl), (select_none _ KConnect _ K2 eq_refl),
      (select_none _ KConnect _ K3 eq_refl), (select_none _ KConnect _ K4 eq_refl),
      (select_none _ KConnect _ K5 eq_refl).
    reflexivity.
Qed.

(** The node of the lookup of the local address: the [localaddr] of the
    URL, or none. *)
Definition local_node (uri : string) : option string :=
  match url_tag uri "localaddr" with
  | Some buf =>
      if Ascii.eqb (C.head (av_strlcpy buf 1024)) zero then None
      else Some (av_strlcpy buf 1024)
  | None => None
  end.

(** X7: the lookup of the local address.  A successful [udp_open] asks
    for the address to bind exactly once, with [AI_PASSIVE]: the node is
    the [localaddr] option of the URL (the null node when it is absent or
    empty), the socket type is [SOCK_DGRAM], and the family is the family
    of the destination of the context, [AF_UNSPEC] when that is 0. *)
Theorem open_local_lookup uri fl w w' :
  udp_open os uri fl w = (Done 0, w') ->
  let s' := priv_data (w_h w') in
  exists service res,
    select KLocal (calls w w')
    = [EGetaddrinfo (node_of (local_node uri)) service SOCK_DGRAM
         (if C.truthy (sa_family (dest_addr s')) then sa_family (dest_addr s')
          else AF_UNSPEC)
         AI_PASSIVE res].
Proof.
  intros H. cbv zeta.
  apply open_ok_stages in H
    as [l [port [fd [my [len [w4 [w5 [c1 [c2 [c3 [c4 [c5 [c6
         [P [Fd [-> [Cs [Vs [S1 [S2 [S3 [S4 [S5 S6]]]]]]]]]]]]]]]]]]]]]]].
  pose proof (open_prefix_context _ _ _ _ _ _ _ _ _ P) as C. cbv zeta in C.
  destruct C as [_ [_ [_ [_ [_ [La [[res Lk] _]]]]]]].
  destruct (open_ok_kinds _ _ _ _ _ _ _ _ _ _ _ _ _ _ P S1 S2 S3 S4)
    as [Kp [K1 [K2 [K3 K4]]]].
  pose proof (buffer_stage_kinds _ _ _ _ _ S5) as K5.
  pose proof (connect_stage_kinds _ _ _ _ S6) as K6.
  unfold view_socket in Vs. injection Vs as _ _ _ _ _ _ _ Vd _ _.
  change (dest_addr (priv_data (w_h (opened fd w5))))
    with (dest_addr (priv_data (w_h w5))).
  exists (service_of (local_port (priv_data (w_h w4)))), res.
  rewrite Cs, !select_app, Lk, Vd.
  rewrite (select_none _ KLocal _ K1 eq_refl), (select_none _ KLocal _ K2 eq_refl),
    (select_none _ KLocal _ K3 eq_refl), (select_none _ KLocal _ K4 eq_refl),
    (select_none _ KLocal _ K5 eq_refl), (select_none _ KLocal _ K6 eq_refl).
  cbn [app]. unfold local_node. rewrite La.
  destruct (url_tag uri "localaddr"); reflexivity.
Qed.

(* --------------------------------------------------------------------- *)
(** *** The time to live *)

(** The build can set the time to live for the family of [a]. *)
Definition ttl_supported (a : sockaddr) : bool :=
  ((HAVE_IP_MULTICAST_TTL && (sa_family a =? AF_INET))
   || (HAVE_IPV6_MULTICAST_HOPS && (sa_family a =? AF_INET6)))%bool.

(** The call that sets it, with its answer. *)
Definition ttl_call (fd v : Z) (a : sockaddr) (r : sysres) : event :=
  if sa_family a =? AF_INET
  then ESetsockopt fd IPPROTO_IP (IP_MULTICAST_TTL v) r
  else ESetsockopt fd IPPROTO_IPV6 (IPV6_MULTICAST_HOPS v) r.

(** [udp_set_multicast_ttl] makes one call when the build supports the
    family, and returns its result; it makes none otherwise. *)
Lemma udp_set_multicast_ttl_run fd v a w o w' :
  udp_set_multicast_ttl os fd v a w = (o, w') ->
  w_h w' = w_h w /\
  exists c,
    emitted w w' c /\
    if ttl_supported a
    then exists r, o = Done (sys_ret r) /\ select KTtl c = [ttl_call fd v a r]
    else o = Done 0 /\ c = [].
Proof.
  unfold udp_set_multicast_ttl, ttl_supported, ttl_call. intros H.
  mrun_in H. destruct w as [h tr]. rsimpl.
  destruct (sa_family a =? AF_INET) eqn:E4.
  - apply Z.eqb_eq in E4. rewrite E4 in H.
    change (AF_INET =? AF_INET6) with false in H.
    change (AF_INET =? AF_INET) with true in H.
    rewrite !andb_false_r, !andb_true_r in H. rewrite E4.
    change (AF_INET =? AF_INET6) with false.
    rewrite !andb_false_r, !andb_true_r, orb_false_r.
    destruct HAVE_IP_MULTICAST_TTL; mrun_in H; rsimpl.
    + destruct (os_setsockopt os tr fd IPPROTO_IP _) as [|e] eqn:R;
        cbn [sys_ret Z.ltb Z.compare] in H; fin H;
        (split; [reflexivity|]); eexists; (split; [emitted_tac|]);
        [exists SysOk | exists (SysErr e)]; split; reflexivity.
    + fin H. split; [reflexivity|]. exists []. split; [apply emitted_nil|].
      split; reflexivity.
  - rewrite !andb_false_r in *. cbn [orb]. mrun_in H; rsimpl.
    destruct (HAVE_IPV6_MULTICAST_HOPS && (sa_family a =? AF_INET6))%bool;
      mrun_in H; rsimpl.
    + destruct (os_setsockopt os tr fd IPPROTO_IPV6 _) as [|e] eqn:R;
        cbn [sys_ret Z.ltb Z.compare] in H; fin H;
        (split; [reflexivity|]); eexists; (split; [emitted_tac|]);
        [exists SysOk | exists (SysErr e)]; split; reflexivity.
    + fin H. split; [reflexivity|]. exists []. split; [apply emitted_nil|].
      split; reflexivity.
Qed.

(** The calls of lines 501-525 that set the time to live, when the
    block is passed. *)
Definition ttl_calls (fd : Z) (h : URLContext) : trace :=
  if (C.truthy (is_multicast (priv_data h)) && has_flag (flags h) AVIO_FLAG_WRITE
      && ttl_supported (dest_addr (priv_data h)))%bool
  then [ttl_call fd (ttl (priv_data h)) (dest_addr (priv_data h)) SysOk]
  else [].

Lemma multicast_block_ttl fd l w w' :
  udp_open_multicast os fd l w = (Done tt, w') ->
  select KTtl (calls w w') = ttl_calls fd (w_h w).
Proof.
  unfold udp_open_multicast, ttl_calls. intros H.
  apply bind_run in H as [[s [w0 [E0 H]]] | [fd' [_ H]]]; [|discriminate].
  inversion E0; subst; clear E0.
  apply bind_run in H as [[h [w1 [E1 H]]] | [fd' [_ H]]]; [|discriminate].
  inversion E1; subst; clear E1.
  destruct (C.truthy (is_multicast (priv_data (w_h w1)))) eqn:Mc; cbn [when andb] in H.
  2:{ fin H. rewrite calls_same by reflexivity. reflexivity. }
  apply bind_run in H as [[[] [w2 [E2 H]]] | [fd' [_ H]]]; [|discriminate].
  assert (G : forallb (of_kinds [KJoin; KSourceJoin; KSourceBlock; KResolve; KLog])
                (calls w2 w') = true
              /\ w_trace w' = w_trace w2 ++ calls w2 w').
  { match type of H with
    | ?m _ = _ =>
        assert (F : obeys (frame [KJoin; KSourceJoin; KSourceBlock; KResolve; KLog]
                             (fun h => h)) (fun fd' => fd' = fd) m)
    end.
    { destruct ((num_sources l =? 0) || negb (C.truthy (include l)))%bool eqn:E;
        [|rewrite (invalid_settings_unreachable _ _ E)]; cbv beta iota; ob;
        (eapply obeys_lift;
         [first [apply udp_join_multicast_group_frame
                | apply udp_set_multicast_sources_frame]
         | reflexivity]). }
    apply F in H as [Fr _]. apply frame_calls in Fr as [T K]. auto. }
  destruct G as [Kg Tg].
  assert (T : w_trace w2 = w_trace w1 ++ calls w1 w2 /\
              select KTtl (calls w1 w2)
              = if (has_flag (flags (w_h w1)) AVIO_FLAG_WRITE
                    && ttl_supported (dest_addr (priv_data (w_h w1))))%bool
                then [ttl_call fd (ttl (priv_data (w_h w1)))
                        (dest_addr (priv_data (w_h w1))) SysOk]
                else []).
  { destruct (has_flag _ AVIO_FLAG_WRITE); cbn [when andb] in E2.
    - apply bind_run in E2 as [[r [w3 [E3 E2]]] | [fd' [_ E2]]]; [|discriminate].
      destruct (r <? 0) eqn:Hr; cbn [when] in E2; [discriminate|]. fin E2.
      apply udp_set_multicast_ttl_run in E3 as [_ [c [M3 R3]]].
      rewrite (emitted_calls _ _ _ M3). split; [exact M3|].
      destruct (ttl_supported _).
      + destruct R3 as [r' [Or S3]]. injection Or as ->.
        destruct r'; [exact S3 | discriminate Hr].
      + destruct R3 as [_ ->]. reflexivity.
    - fin E2. rewrite calls_same by reflexivity.
      split; [rewrite app_nil_r|]; reflexivity. }
  destruct T as [T2 S2].
  rewrite (calls_trans _ _ _ T2 Tg), select_app, S2.
  rewrite (select_none _ KTtl _ Kg eq_refl), app_nil_r. reflexivity.
Qed.

(** The block of lines 501-525 inside a run of lines 473-549 that
    passed. *)
Lemma socket_run_ok_multicast fd my len l io w w' :
  socket_run os fd my len l io w (Done tt) w' ->
  exists w3 w4 pre post,
    udp_open_multicast os fd l w3 = (Done tt, w4) /\
    view_socket (w_h w3) = view_socket (w_h w) /\
    calls w w' = pre ++ calls w3 w4 ++ post /\
    emitted w w' (calls w w') /\
    forallb (of_kinds [KReuse; KBind; KName; KLog]) pre = true /\
    forallb (of_kinds [KSndbuf; KRcvbuf; KLog; KNonblock; KConnect]) post = true.
Proof.
  intros R. inversion R; subst; clear R.
  match goal with
  | E1 : udp_open_reuse _ _ _ _ = _, E2 : udp_open_bind _ _ _ _ _ = _,
    E3 : udp_open_local_port _ _ _ _ = _, E4 : udp_open_multicast _ _ _ _ = _,
    E5 : udp_open_buffers _ _ _ _ = _, E6 : udp_open_connect _ _ _ = _ |- _ =>
      pose proof E4 as Em;
      apply (reuse_block os) in E1 as [c1 [f1 [M1 [_ [S1 [V1 _]]]]]];
      apply (bind_block os) in E2 as [c2 [f2 [M2 [_ [S2 V2]]]]];
      apply (name_block os) in E3 as [c3 [M3 [_ [S3 [V3 _]]]]];
      apply (multicast_block os) in E4 as [c4 [f4 [M4 [_ [_ V4]]]]];
      apply (buffers_block os) in E5 as [c5 [f5 [M5 [_ [S5 V5]]]]];
      apply (connect_block os) in E6 as [c6 [f6 [M6 [_ [S6 V6]]]]]
  end.
  exists w3, w4, (c1 ++ c2 ++ c3), (c5 ++ c6).
  split; [exact Em|]. split; [congruence|].
  assert (M : emitted w w' ((c1 ++ c2 ++ c3) ++ c4 ++ c5 ++ c6)).
  { apply (emitted_trans _ _ _ _ _ (emitted_trans _ _ _ _ _ M1
             (emitted_trans _ _ _ _ _ M2 M3))).
    apply (emitted_trans _ _ _ _ _ M4). exact (emitted_trans _ _ _ _ _ M5 M6). }
  rewrite (emitted_calls _ _ _ M), (emitted_calls _ _ _ M4).
  split; [reflexivity|]. split; [exact M|].
  apply reuse_stage_kinds in S1. apply bind_calls_kinds in S2.
  apply name_stage_kinds in S3. apply buffer_stage_kinds in S5.
  apply connect_stage_kinds in S6.
  rewrite !forallb_app.
  rewrite (forallb_kinds_weaken [KReuse] [KReuse; KBind; KName; KLog] _ eq_refl S1).
  rewrite (forallb_kinds_weaken bind_kinds [KReuse; KBind; KName; KLog] _ eq_refl S2).
  rewrite (forallb_kinds_weaken name_kinds [KReuse; KBind; KName; KLog] _ eq_refl S3).
  rewrite (forallb_kinds_weaken buffer_kinds
             [KSndbuf; KRcvbuf; KLog; KNonblock; KConnect] _ eq_refl S5).
  rewrite (forallb_kinds_weaken connect_kinds
             [KSndbuf; KRcvbuf; KLog; KNonblock; KConnect] _ eq_refl S6).
  split; reflexivity.
Qed.

(** A run of [udp_open] that returned 0, around lines 501-525. *)
Lemma open_ok_multicast uri fl w w' :
  udp_open os uri fl w = (Done 0, w') ->
  exists l port fd my len w4 w5 wa wb pre post,
    open_prefix os uri fl w l port fd my len w4 /\ 0 <= fd /\
    w' = opened fd w5 /\
    udp_open_multicast os fd l wa = (Done tt, wb) /\
    view_socket (w_h wa) = view_socket (w_h w4) /\
    view_socket (w_h w5) = view_socket (w_h w4) /\
    calls w w' = calls w w4 ++ pre ++ calls wa wb ++ post /\
    forallb (of_kinds prefix_kinds) (calls w w4) = true /\
    forallb (of_kinds [KReuse; KBind; KName; KLog]) pre = true /\
    forallb (of_kinds [KSndbuf; KRcvbuf; KLog; KNonblock; KConnect]) post = true.
Proof.
  intros H. remember (Done 0) as o eqn:Ho. open_runs H; try discriminate Ho.
  match goal with
  | P : open_prefix _ _ _ _ _ _ _ _ _ _, S : socket_run _ _ _ _ _ _ _ _ _ |- _ =>
      destruct (open_prefix_sockets _ _ _ _ _ _ _ _ _ P) as [Mp [Kp _]];
      pose proof P as P';
      pose proof (socket_run_ok_multicast _ _ _ _ _ _ _ S)
        as [wa [wb [pre [post [Em [Va [Cs [Ms [Kpre Kpost]]]]]]]]];
      apply socket_run_stages in S; cbv zeta in S;
      destruct S as [c1 [c2 [c3 [c4 [c5 [c6 [f1 [f2 [f4 [f5 [f6
        [_ [_ [Vs _]]]]]]]]]]]]]]
  end.
  exists l, port, udp_fd0, my_addr, len, w4, w5, wa, wb, pre, post.
  split; [exact P'|]. split; [assumption|]. split; [reflexivity|].
  split; [exact Em|]. split; [exact Va|]. split; [exact Vs|].
  split; [|auto].
  rewrite <- Cs.
  apply emitted_calls. apply emitted_opened.
  exact (emitted_trans _ _ _ _ _ Mp Ms).
Qed.

(** X8: the time to live of a multicast sender.  A successful
    [udp_open] sets the multicast time to live exactly when the
    destination is a multicast address, the context is opened for writing
    and the build can set it for the family of the destination; it does
    so once, on the new socket, with the [ttl] of the URL (16 when the
    URL does not say), and the call succeeded.  So a refused time to live
    is fatal: a run in which such a call failed returns
    [AVERROR(EIO)]. *)
Theorem open_multicast_ttl uri fl w o w' :
  udp_open os uri fl w = (o, w') ->
  let h' := w_h w' in
  let s' := priv_data h' in
  (o = Done 0 ->
   select KTtl (calls w w')
   = if (C.truthy (is_multicast s') && has_flag (flags h') AVIO_FLAG_WRITE
         && ttl_supported (dest_addr s'))%bool
     then [ttl_call (udp_fd s') (int_option (url_tag uri "ttl") 16) (dest_addr s')
             SysOk]
     else []) /\
  (forall fd level opt e,
     In (ESetsockopt fd level opt (SysErr e)) (calls w w') ->
     kind_of_sockopt opt = KTtl ->
     o = Done (AVERROR EIO)).
Proof.
  intros H. cbv zeta.
  assert (Ok : o = Done 0 ->
          select KTtl (calls w w')
          = if (C.truthy (is_multicast (priv_data (w_h w')))
                && has_flag (flags (w_h w')) AVIO_FLAG_WRITE
                && ttl_supported (dest_addr (priv_data (w_h w'))))%bool
            then [ttl_call (udp_fd (priv_data (w_h w')))
                    (int_option (url_tag uri "ttl") 16)
                    (dest_addr (priv_data (w_h w'))) SysOk]
            else []).
  { intros ->.
    apply open_ok_multicast in H
      as [l [port [fd [my [len [w4 [w5 [wa [wb [pre [post
           [P [Fd [-> [Em [Va [Vs [Cs [Kp [Kpre Kpost]]]]]]]]]]]]]]]]]]]].
    pose proof (open_prefix_context _ _ _ _ _ _ _ _ _ P) as C. cbv zeta in C.
    destruct C as [_ [_ [_ [Tt _]]]].
    apply multicast_block_ttl in Em.
    rewrite Cs, !select_app, Em.
    rewrite (select_none _ KTtl _ Kp eq_refl), (select_none _ KTtl _ Kpre eq_refl),
      (select_none _ KTtl _ Kpost eq_refl), app_nil_r. cbn [app].
    unfold ttl_calls, view_socket in *.
    injection Va as Vaf _ _ _ Vat _ Vam Vad _ _.
    injection Vs as Vsf _ _ _ Vst _ Vsm Vsd _ _.
    change (is_multicast (priv_data (w_h (opened fd w5))))
      with (is_multicast (priv_data (w_h w5))).
    change (dest_addr (priv_data (w_h (opened fd w5))))
      with (dest_addr (priv_data (w_h w5))).
    change (flags (w_h (opened fd w5))) with (flags (w_h w5)).
    change (udp_fd (priv_data (w_h (opened fd w5)))) with fd.
    rewrite Vaf, Vat, Vam, Vad, Vsf, Vsm, Vsd, Tt. reflexivity. }
  split; [exact Ok|].
  intros fd level opt e I K.
  pose proof H as H'. apply udp_open_inv in H' as [code [-> R]].
  assert (Cd : code = 0 \/ code = AVERROR EIO) by (inversion R; auto).
  destruct Cd as [-> | ->]; [|reflexivity].
  exfalso. specialize (Ok eq_refl).
  assert (Is : In (ESetsockopt fd level opt (SysErr e)) (select KTtl (calls w w'))).
  { unfold select. apply filter_In. split; [exact I|].
    cbn [kind_of]. rewrite K. reflexivity. }
  rewrite Ok in Is.
  destruct (_ && _ && _)%bool; [|destruct Is].
  destruct Is as [Is | []]. unfold ttl_call in Is.
  destruct (sa_family _ =? AF_INET); discriminate Is.
Qed.

(* --------------------------------------------------------------------- *)
(** *** Sessions *)

Lemma udp_close_frame :
  obeys (frame [KLeave; KLog; KClose] (fun h => h)) never (udp_close os).
Proof.
  unfold udp_close. ob.
  eapply obeys_lift; [apply udp_leave_multicast_group_frame | reflexivity].
Qed.

Lemma open_ok_emitted uri fl w w' :
  udp_open os uri fl w = (Done 0, w') -> emitted w w' (calls w w').
Proof.
  intros H. remember (Done 0) as o eqn:Ho. open_runs H; try discriminate Ho.
  match goal with
  | P : open_prefix _ _ _ _ _ _ _ _ _ _, S : socket_run _ _ _ _ _ _ _ _ _ |- _ =>
      destruct (open_prefix_sockets _ _ _ _ _ _ _ _ _ P) as [Mp _];
      apply socket_run_stages in S; cbv zeta in S;
      destruct S as [c1 [c2 [c3 [c4 [c5 [c6 [f1 [f2 [f4 [f5 [f6 [Ms _]]]]]]]]]]]]
  end.
  pose proof (emitted_opened udp_fd0 _ _ _ (emitted_trans _ _ _ _ _ Mp Ms)) as M.
  rewrite (emitted_calls _ _ _ M). exact M.
Qed.

(** X9: a session, from [udp_open] to [udp_close].  [udp_close] always
    returns 0, whatever the answers of the system, and leaves the
    context as it is.  Over the whole session exactly one socket was
    created and exactly that socket was closed: the one that
    [udp_get_file_handle] gave in between.  Unless the session is a
    multicast session opened for reading, closing the socket is the only
    call of [udp_close]. *)
Theorem session_sockets uri fl w w1 o w2 :
  udp_open os uri fl w = (Done 0, w1) ->
  udp_close os w1 = (o, w2) ->
  let s := priv_data (w_h w1) in
  o = Done 0 /\ w_h w2 = w_h w1 /\
  created (calls w w2) = [udp_get_file_handle (w_h w1)] /\
  released (calls w w2) = [udp_get_file_handle (w_h w1)] /\
  ((C.truthy (is_multicast s) && has_flag (flags (w_h w1)) AVIO_FLAG_READ)%bool = false ->
   calls w1 w2 = [EClosesocket (udp_get_file_handle (w_h w1))]).
Proof.
  intros Ho Hc. cbv zeta.
  pose proof (open_ok_emitted _ _ _ _ Ho) as Mo.
  pose proof (udp_close_frame _ _ _ Hc) as [Fc _].
  apply frame_calls in Fc as [Tc _].
  pose proof (open_socket_sockets uri fl w w1 Ho) as [Co Ro].
  apply udp_close_run in Hc. cbv zeta in Hc.
  destruct Hc as [-> [Hh [c [Cc [Kc L]]]]].
  split; [reflexivity|]. split; [exact Hh|].
  rewrite (calls_trans _ _ _ Mo Tc), created_app, released_app, Co, Ro, Cc.
  rewrite created_app, released_app.
  destruct (created_released_none _ _ Kc eq_refl eq_refl) as [-> ->].
  unfold udp_get_file_handle. cbn.
  split; [reflexivity|]. split; [reflexivity|].
  intros N. rewrite N in L. rewrite L. reflexivity.
Qed.

(* --------------------------------------------------------------------- *)
(** *** The source filter *)

(** The nodes that a run asked the resolver for, in order. *)
Definition looked_up (tr : trace) : list (option string) :=
  flat_map (fun e => match e with
                     | EGetaddrinfo node _ _ _ _ _ => [node]
                     | _ => []
                     end) tr.

(** The calls that set a source filter. *)
Definition source_events (tr : trace) : trace :=
  filter (of_kinds [KSourceJoin; KSourceBlock]) tr.

Lemma looked_up_app a b : looked_up (a ++ b) = looked_up a ++ looked_up b.
Proof. apply flat_map_app. Qed.

Lemma source_events_app a b :
  source_events (a ++ b) = source_events a ++ source_events b.
Proof. apply filter_app. Qed.

(** A run of [udp_set_multicast_sources] that returned [code] after the
    calls [c]: it went through the first [k] hosts. *)
Definition sources_outcome (srcs : list string) (code : Z) (c : trace) : Prop :=
  exists k,
    (k <= List.length srcs)%nat /\ code <= 0 /\
    looked_up c = map (fun s => node_of (Some s)) (firstn k srcs) /\
    (List.length (source_events c) <= k)%nat /\
    (code = 0 -> k = List.length srcs /\ List.length (source_events c) = k).

Lemma sources_outcome_nil : sources_outcome [] 0 [].
Proof. exists 0%nat. cbn. repeat split; lia. Qed.

Lemma sources_outcome_unresolved src rest type family aiflags :
  sources_outcome (src :: rest) (AVERROR ENOENT)
    (resolve_calls (Some src) 0 type family aiflags []).
Proof.
  exists 1%nat. cbn. unfold AVERROR, ENOENT.
  repeat split; try lia. destruct (aiflags =? AI_PASSIVE); cbn; lia.
Qed.

Lemma sources_outcome_step src rest type family aiflags ai ais e code c :
  of_kinds [KSourceJoin; KSourceBlock] e = true ->
  looked_up [e] = [] ->
  sources_outcome rest code c ->
  sources_outcome (src :: rest) code
    (resolve_calls (Some src) 0 type family aiflags (ai :: ais) ++ [e] ++ c).
Proof.
  intros Ke Le [k [Hk [Hc [Lc [Sc Ok]]]]]. exists (S k).
  unfold resolve_calls.
  change ((?x :: []) ++ [e] ++ c) with (x :: [e] ++ c).
  split; [cbn; lia|]. split; [exact Hc|].
  assert (Se : source_events
                 (EGetaddrinfo (node_of (Some src)) (service_of 0) type family aiflags
                    (ai :: ais) :: [e] ++ c)
               = e :: source_events c).
  { unfold source_events. cbn [filter app].
    replace (of_kinds [KSourceJoin; KSourceBlock]
               (EGetaddrinfo (node_of (Some src)) (service_of 0) type family aiflags
                  (ai :: ais))) with false
      by (unfold of_kinds; cbn; destruct (aiflags =? AI_PASSIVE); reflexivity).
    rewrite Ke. reflexivity. }
  rewrite Se.
  split.
  { change (looked_up (?x :: [e] ++ c)) with (looked_up [x] ++ looked_up ([e] ++ c)).
    rewrite looked_up_app, Le, Lc. reflexivity. }
  split; [cbn; lia|].
  intros Z0. destruct (Ok Z0) as [-> Ek]. cbn. split; lia.
Qed.

Lemma sources_outcome_refused src rest type family aiflags ai ais e log code :
  of_kinds [KSourceJoin; KSourceBlock] e = true ->
  looked_up [e] = [] ->
  code < 0 ->
  sources_outcome (src :: rest) code
    (resolve_calls (Some src) 0 type family aiflags (ai :: ais)
     ++ [e; ELog AV_LOG_ERROR log]).
Proof.
  intros Ke Le Hc. exists 1%nat. unfold resolve_calls.
  change ((?x :: []) ++ [e; ELog AV_LOG_ERROR log])
    with (x :: [e] ++ [ELog AV_LOG_ERROR log]).
  split; [cbn; lia|]. split; [lia|].
  split.
  { change (looked_up (?x :: [e] ++ ?t)) with (looked_up [x] ++ looked_up ([e] ++ t)).
    rewrite looked_up_app, Le. reflexivity. }
  assert (Se : (List.length (source_events
                  (EGetaddrinfo (node_of (Some src)) (service_of 0) type family aiflags
                     (ai :: ais) :: [e] ++ [ELog AV_LOG_ERROR log])) <= 1)%nat).
  { unfold source_events. cbn [filter app].
    replace (of_kinds [KSourceJoin; KSourceBlock]
               (EGetaddrinfo (node_of (Some src)) (service_of 0) type family aiflags
                  (ai :: ais))) with false
      by (unfold of_kinds; cbn; destruct (aiflags =? AI_PASSIVE); reflexivity).
    rewrite Ke. unfold of_kinds. cbn. destruct (String.eqb _ _); cbn; lia. }
  split; [exact Se|]. intros Z0. lia.
Qed.

Lemma set_sources_generic_outcome fd a al srcs inc w o w' :
  set_sources_generic os fd a al srcs inc w = (o, w') ->
  w_h w' = w_h w /\
  exists code c, o = Done code /\ emitted w w' c /\ sources_outcome srcs code c.
Proof.
  revert w. induction srcs as [|src rest IH]; intros w H; simpl in H.
  - fin H. split; [reflexivity|]. exists 0, [].
    split; [reflexivity|]. split; [apply emitted_nil | apply sources_outcome_nil].
  - apply bind_run in H as [[res [w1 [E1 H]]] | [fd' [E1 _]]];
      apply udp_resolve_host_run in E1 as [res' [O1 [H1 M1]]]; [|discriminate O1].
    injection O1 as <-.
    destruct res as [|ai ais].
    { fin H. split; [exact H1|]. do 2 eexists.
      split; [reflexivity|]. split; [exact M1 | apply sources_outcome_unresolved]. }
    mrun_in H. destruct w1 as [h1 tr1]. rsimpl.
    destruct (os_setsockopt os tr1 fd _ _) as [|e] eqn:R;
      cbn [sys_ret Z.ltb Z.compare] in H.
    + apply IH in H as [H2 [code [c [-> [M2 S2]]]]]. rsimpl.
      split; [congruence|]. do 2 eexists. split; [reflexivity|].
      split; [|eapply sources_outcome_step; [| |exact S2]].
      * unfold emitted in *. rsimpl. rewrite M2, M1, <- !app_assoc. reflexivity.
      * destruct (C.truthy inc); reflexivity.
      * reflexivity.
    + split; [destruct (C.truthy inc); fin H; first [exact H1 | reflexivity | congruence]|].
      exists (AVERROR (Zpos e)).
      destruct (C.truthy inc); fin H; eexists; (split; [reflexivity|]);
        (split; [unfold emitted in *; rsimpl; rewrite M1, <- !app_assoc; reflexivity
                | eapply sources_outcome_refused;
                  [reflexivity | reflexivity | unfold AVERROR; lia]]).
Qed.

Lemma set_sources_ipv4_outcome fd a srcs inc w o w' :
  set_sources_ipv4 os fd a srcs inc w = (o, w') ->
  w_h w' = w_h w /\
  exists code c, o = Done code /\ emitted w w' c /\ sources_outcome srcs code c.
Proof.
  revert w. induction srcs as [|src rest IH]; intros w H; simpl in H.
  - fin H. split; [reflexivity|]. exists 0, [].
    split; [reflexivity|]. split; [apply emitted_nil | apply sources_outcome_nil].
  - apply bind_run in H as [[res [w1 [E1 H]]] | [fd' [E1 _]]];
      apply udp_resolve_host_run in E1 as [res' [O1 [H1 M1]]]; [|discriminate O1].
    injection O1 as <-.
    destruct res as [|ai ais].
    { fin H. split; [exact H1|]. do 2 eexists.
      split; [reflexivity|]. split; [exact M1 | apply sources_outcome_unresolved]. }
    destruct (negb (sa_family (ai_addr ai) =? AF_INET)).
    { fin H. split; [exact H1|]. do 2 eexists. split; [reflexivity|].
      split; [unfold emitted in *; rsimpl; rewrite M1, <- !app_assoc; reflexivity|].
      exists 1%nat. unfold AVERROR, EINVAL. cbn. repeat split; try lia.
      destruct (String.eqb _ _); cbn; lia. }
    mrun_in H. destruct w1 as [h1 tr1]. rsimpl.
    destruct (os_setsockopt os tr1 fd _ _) as [|e] eqn:R;
      cbn [sys_ret Z.ltb Z.compare] in H.
    + apply IH in H as [H2 [code [c [-> [M2 S2]]]]]. rsimpl.
      split; [congruence|]. do 2 eexists. split; [reflexivity|].
      split; [|eapply sources_outcome_step; [| |exact S2]].
      * unfold emitted in *. rsimpl. rewrite M2, M1, <- !app_assoc. reflexivity.
      * destruct (C.truthy inc); reflexivity.
      * reflexivity.
    + split; [destruct (C.truthy inc); fin H; first [exact H1 | reflexivity | congruence]|].
      exists (AVERROR (Zpos e)).
      destruct (C.truthy inc); fin H; eexists; (split; [reflexivity|]);
        (split; [unfold emitted in *; rsimpl; rewrite M1, <- !app_assoc; reflexivity
                | eapply sources_outcome_refused;
                  [reflexivity | reflexivity | unfold AVERROR; lia]]).
Qed.

(** The build can filter the sources of a group of the family of [a]. *)
Definition source_supported (a : sockaddr) : bool :=
  (HAVE_STRUCT_GROUP_SOURCE_REQ
   || (HAVE_STRUCT_IP_MREQ_SOURCE && (sa_family a =? AF_INET)))%bool.

(** X10: [udp_set_multicast_sources] stops at the first host that
    fails.  It always returns, with 0 or a negative code, and leaves the
    context alone.  The hosts that it looked up are the first [k] hosts
    of the list, in order, each looked up once; it made at most one
    source-filter call for each of them; and when it returns 0 it went
    through the whole list, with one source-filter call for each host.
    On a build that cannot filter the sources of the group's family it
    returns a negative code without looking up any host. *)
Theorem set_sources_stops_at_failure fd a al srcs inc w o w' :
  udp_set_multicast_sources os fd a al srcs inc w = (o, w') ->
  w_h w' = w_h w /\
  exists code k,
    o = Done code /\ code <= 0 /\ (k <= List.length srcs)%nat /\
    looked_up (calls w w') = map (fun s => node_of (Some s)) (firstn k srcs) /\
    (List.length (source_events (calls w w')) <= k)%nat /\
    (code = 0 ->
     k = List.length srcs /\ List.length (source_events (calls w w')) = k) /\
    (source_supported a = false ->
     code < 0 /\ k = 0%nat /\ source_events (calls w w') = []).
Proof.
  unfold udp_set_multicast_sources, source_supported. intros H.
  assert (G : forall code c,
            w_h w' = w_h w -> o = Done code -> emitted w w' c ->
            sources_outcome srcs code c ->
            (HAVE_STRUCT_GROUP_SOURCE_REQ
             || (HAVE_STRUCT_IP_MREQ_SOURCE && (sa_family a =? AF_INET)))%bool = true ->
            w_h w' = w_h w /\
            exists code k,
              o = Done code /\ code <= 0 /\ (k <= List.length srcs)%nat /\
              looked_up (calls w w') = map (fun s => node_of (Some s)) (firstn k srcs) /\
              (List.length (source_events (calls w w')) <= k)%nat /\
              (code = 0 ->
               k = List.length srcs /\ List.length (source_events (calls w w')) = k) /\
              ((HAVE_STRUCT_GROUP_SOURCE_REQ
                || (HAVE_STRUCT_IP_MREQ_SOURCE && (sa_family a =? AF_INET)))%bool = false ->
               code < 0 /\ k = 0%nat /\ source_events (calls w w') = [])).
  { intros code c Hh -> M [k [Hk [Hc [Lc [Sc Ok]]]]] Sup.
    split; [exact Hh|]. exists code, k. rewrite (emitted_calls _ _ _ M), Sup.
    repeat split; auto; try discriminate; apply Ok; assumption. }
  destruct HAVE_STRUCT_GROUP_SOURCE_REQ.
  - apply set_sources_generic_outcome in H as [Hh [code [c [O [M S]]]]].
    exact (G code c Hh O M S eq_refl).
  - destruct HAVE_STRUCT_IP_MREQ_SOURCE; cbn [orb andb].
    + destruct (sa_family a =? AF_INET) eqn:Fa; cbn [negb] in H.
      * apply set_sources_ipv4_outcome in H as [Hh [code [c [O [M S]]]]].
        cbn [orb andb] in G. exact (G code c Hh O M S eq_refl).
      * fin H. split; [reflexivity|]. exists (AVERROR EINVAL), 0%nat.
        unfold AVERROR, EINVAL. cbn [firstn map].
        erewrite calls_app by (cbn [w_trace]; reflexivity).
        repeat split; try lia; try reflexivity; cbn; lia.
    + fin H. split; [reflexivity|]. exists (AVERROR ENOSYS), 0%nat.
      unfold AVERROR, ENOSYS. cbn [firstn map].
      rewrite calls_same by reflexivity.
      repeat split; try lia; try reflexivity; cbn; lia.
Qed.

Lemma udp_set_multicast_sources_supported fd a al srcs inc w code w' :
  udp_set_multicast_sources os fd a al srcs inc w = (Done code, w') ->
  0 <= code ->
  source_supported a = true.
Proof.
  unfold udp_set_multicast_sources, source_supported. intros H Hc.
  destruct HAVE_STRUCT_GROUP_SOURCE_REQ; [reflexivity|].
  destruct HAVE_STRUCT_IP_MREQ_SOURCE; cbn [orb andb].
  - destruct (sa_family a =? AF_INET); [reflexivity|]. cbn [negb] in H.
    fin H. unfold AVERROR, EINVAL in Hc. lia.
  - fin H. unfold AVERROR, ENOSYS in Hc. lia.
Qed.

(** Lines 501-525 passed with a list of hosts: the build can filter the
    sources of the group. *)
Lemma udp_open_multicast_filter fd l w w' :
  udp_open_multicast os fd l w = (Done tt, w') ->
  C.truthy (is_multicast (priv_data (w_h w))) = true ->
  has_flag (flags (w_h w)) AVIO_FLAG_READ = true ->
  sources l <> [] ->
  source_supported (dest_addr (priv_data (w_h w))) = true.
Proof.
  unfold udp_open_multicast. intros H Mc Rd Ns.
  apply bind_run in H as [[s [w0 [E0 H]]] | [fd' [_ H]]]; [|discriminate].
  inversion E0; subst; clear E0.
  apply bind_run in H as [[h [w1 [E1 H]]] | [fd' [_ H]]]; [|discriminate].
  inversion E1; subst; clear E1.
  rewrite Mc, Rd in H. cbn [when] in H.
  apply bind_run in H as [[[] [w2 [E2 H]]] | [fd' [_ H]]]; [|discriminate].
  assert (H2 : w_h w2 = w_h w1).
  { destruct (has_flag _ AVIO_FLAG_WRITE); cbn [when] in E2.
    - apply bind_run in E2 as [[r [w3 [E3 E2]]] | [fd' [_ E2]]]; [|discriminate].
      destruct (r <? 0); cbn [when] in E2; [discriminate|]. fin E2.
      apply udp_set_multicast_ttl_run in E3 as [Hh _]. exact Hh.
    - fin E2. reflexivity. }
  assert (Nz : C.truthy (num_sources l) = true).
  { apply truthy_true. unfold num_sources. destruct (sources l); [congruence|].
    simpl. lia. }
  destruct ((num_sources l =? 0) || negb (C.truthy (include l)))%bool eqn:Plain.
  - apply bind_run in H as [[r [w3 [E3 H]]] | [fd' [_ H]]]; [|discriminate].
    apply bind_run in H as [[[] [w4 [E4 H]]] | [fd' [_ H]]]; [|discriminate].
    rewrite Nz in H. cbn [when] in H.
    apply bind_run in H as [[r' [w5 [E5 H]]] | [fd' [_ H]]]; [|discriminate].
    destruct (r' <? 0) eqn:Hr'; cbn [when] in H; [discriminate|].
    apply Z.ltb_ge in Hr'.
    exact (udp_set_multicast_sources_supported _ _ _ _ _ _ _ _ E5 Hr').
  - rewrite (invalid_settings_unreachable _ _ Plain) in H.
    apply bind_run in H as [[r' [w5 [E5 H]]] | [fd' [_ H]]]; [|discriminate].
    destruct (r' <? 0) eqn:Hr'; cbn [when] in H; [discriminate|].
    apply Z.ltb_ge in Hr'.
    exact (udp_set_multicast_sources_supported _ _ _ _ _ _ _ _ E5 Hr').
Qed.

(** X11: a source filter is never dropped.  When [udp_open] succeeds
    for a multicast destination with [AVIO_FLAG_READ] in [h->flags] and
    the URL lists hosts (a [sources] or a [block] option), the build can
    filter the sources of a group of the destination's family.  So on a
    build that cannot, such an open fails: it never joins the group
    without the filter that the URL asked for. *)
Theorem open_filter_needs_support uri fl w w' :
  udp_open os uri fl w = (Done 0, w') ->
  let s' := priv_data (w_h w') in
  C.truthy (is_multicast s') = true ->
  has_flag (flags (w_h w')) AVIO_FLAG_READ = true ->
  url_sources uri <> [] ->
  source_supported (dest_addr s') = true.
Proof.
  intros H. cbv zeta. intros Mc Rd Us.
  apply open_ok_multicast in H
    as [l [port [fd [my [len [w4 [w5 [wa [wb [pre [post
         [P [Fd [-> [Em [Va [Vs _]]]]]]]]]]]]]]]]].
  assert (Sl : sources l = url_sources uri).
  { destruct P as [w0 [w1 [w2 [w3 [_ [E1 _]]]]]].
    apply (udp_open_options_run os) in E1. cbv zeta in E1.
    destruct E1 as [_ [_ [_ [_ [[l' [Ol [_ [_ [Sl _]]]]] | [Of _]]]]]];
      [|discriminate Of].
    injection Ol as <-. exact Sl. }
  unfold view_socket in *.
  injection Va as Vaf _ _ _ _ _ Vam Vad _ _.
  injection Vs as Vsf _ _ _ _ _ Vsm Vsd _ _.
  change (is_multicast (priv_data (w_h (opened fd w5))))
    with (is_multicast (priv_data (w_h w5))) in Mc.
  change (flags (w_h (opened fd w5))) with (flags (w_h w5)) in Rd.
  change (dest_addr (priv_data (w_h (opened fd w5))))
    with (dest_addr (priv_data (w_h w5))).
  rewrite Vsd, <- Vad.
  apply (udp_open_multicast_filter _ _ _ _ Em); congruence.
Qed.

(* --------------------------------------------------------------------- *)
(** *** The destination of a session *)

Lemma select_In k e tr : In e (select k tr) -> In e tr.
Proof. unfold select. intros I. apply filter_In in I as [I _]. exact I. Qed.

(** X12: no socket before the destination.  For a URL with a host, a
    run of [udp_open] that created a socket, whatever its outcome, had
    looked up the host and the port of the URL and found an address; the
    destination of the context is then the first address found, and the
    context is multicast exactly when [ff_is_multicast_address] says so
    of that address.  In particular an open whose destination does not
    resolve creates no socket. *)
Theorem open_socket_after_destination uri fl w o w' :
  udp_open os uri fl w = (o, w') ->
  null_host uri = false ->
  created (calls w w') <> [] ->
  let s' := priv_data (w_h w') in
  exists ai ais,
    In (EGetaddrinfo (node_of (Some (fst (av_url_split 256 uri))))
          (service_of (snd (av_url_split 256 uri))) SOCK_DGRAM AF_UNSPEC 0
          (ai :: ais)) (calls w w') /\
    dest_addr s' = ai_addr ai /\ dest_addr_len s' = ai_addrlen ai /\
    is_multicast s' = ff_is_multicast_address (ai_addr ai).
Proof.
  intros H N Cr. cbv zeta.
  assert (G : forall l port fd my len w4 (X : Z -> world -> world) w5 cs,
            open_prefix os uri fl w l port fd my len w4 ->
            destination (w_h (X fd w5)) = destination (w_h w4) ->
            calls w (X fd w5) = calls w w4 ++ cs ->
            exists ai ais,
              In (EGetaddrinfo (node_of (Some (fst (av_url_split 256 uri))))
                    (service_of (snd (av_url_split 256 uri))) SOCK_DGRAM AF_UNSPEC 0
                    (ai :: ais)) (calls w (X fd w5)) /\
              dest_addr (priv_data (w_h (X fd w5))) = ai_addr ai /\
              dest_addr_len (priv_data (w_h (X fd w5))) = ai_addrlen ai /\
              is_multicast (priv_data (w_h (X fd w5)))
              = ff_is_multicast_address (ai_addr ai)).
  { intros l port fd my len w4 X w5 cs P D Cs.
    pose proof (open_prefix_context _ _ _ _ _ _ _ _ _ P) as C. cbv zeta in C.
    rewrite N in C.
    destruct C as [_ [_ [_ [_ [_ [_ [_ [_ [ai [ais [Sr [Da [Dl [_ Dm]]]]]]]]]]]]]].
    exists ai, ais. unfold destination in D. injection D as Dd Dn Di.
    split; [|split; [congruence|split; congruence]].
    rewrite Cs. apply in_or_app. left. apply (select_In KResolve).
    rewrite Sr. left. reflexivity. }
  open_runs H.
  - exfalso. apply Cr.
    match goal with
    | E0 : udp_open_init _ _ = _, E1 : udp_open_options _ _ _ = _ |- _ =>
        destruct (early_fail_sockets uri fl w _ _ _ E0 E1 (Done 0) _
                    (or_introl (conj eq_refl eq_refl))) as [_ [C _]]
    end.
    exact C.
  - exfalso. apply Cr.
    match goal with
    | E0 : udp_open_init _ _ = _, E1 : udp_open_options _ _ _ = _,
      E2 : udp_open_dest _ _ _ _ = _ |- _ =>
        destruct (early_fail_sockets uri fl w _ _ _ E0 E1 _ _
                    (or_intror (ex_intro _ _ (conj eq_refl E2)))) as [_ [C _]]
    end.
    exact C.
  - match goal with
    | P : open_prefix _ _ _ _ _ _ _ _ _ _ |- _ =>
        apply (G _ _ _ _ _ _ (fun _ w => w) w' [] P eq_refl)
    end.
    rewrite app_nil_r. reflexivity.
  - match goal with
    | P : open_prefix _ _ _ _ _ _ _ _ _ _, S : socket_run _ _ _ _ _ _ _ _ _ |- _ =>
        pose proof (socket_run_destination _ _ _ _ _ _ _ _ S) as D;
        destruct (open_prefix_sockets _ _ _ _ _ _ _ _ _ P) as [Mp _];
        apply socket_run_stages in S; cbv zeta in S;
        destruct S as [c1 [c2 [c3 [c4 [c5 [c6 [f1 [f2 [f4 [f5 [f6 [Ms _]]]]]]]]]]]];
        eapply (G _ _ _ _ _ _ closed w5 _ P D)
    end.
    rewrite (emitted_calls _ _ _
               (emitted_closed udp_fd0 _ _ _ (emitted_trans _ _ _ _ _ Mp Ms))).
    rewrite <- app_assoc. reflexivity.
  - match goal with
    | P : open_prefix _ _ _ _ _ _ _ _ _ _, S : socket_run _ _ _ _ _ _ _ _ _ |- _ =>
        pose proof (socket_run_destination _ _ _ _ _ _ _ _ S) as D;
        destruct (open_prefix_sockets _ _ _ _ _ _ _ _ _ P) as [Mp _];
        apply socket_run_stages in S; cbv zeta in S;
        destruct S as [c1 [c2 [c3 [c4 [c5 [c6 [f1 [f2 [f4 [f5 [f6 [Ms _]]]]]]]]]]]];
        eapply (G _ _ _ _ _ _ opened w5 _ P D)
    end.
    apply emitted_calls. apply emitted_opened.
    exact (emitted_trans _ _ _ _ _ Mp Ms).
Qed.

(** The destination of a session that was opened for a URL with a
    host. *)
Lemma open_ok_destination uri fl w w' :
  udp_open os uri fl w = (Done 0, w') ->
  null_host uri = false ->
  flags (w_h w') = flags (w_h w) /\
  exists ai ais,
    In (EGetaddrinfo (node_of (Some (fst (av_url_split 256 uri))))
          (service_of (snd (av_url_split 256 uri))) SOCK_DGRAM AF_UNSPEC 0
          (ai :: ais)) (calls w w') /\
    dest_addr (priv_data (w_h w')) = ai_addr ai /\
    dest_addr_len (priv_data (w_h w')) = ai_addrlen ai.
Proof.
  intros H N.
  apply open_ok_stages in H
    as [l [port [fd [my [len [w4 [w5 [c1 [c2 [c3 [c4 [c5 [c6
         [P [Fd [-> [Cs [Vs _]]]]]]]]]]]]]]]]]].
  pose proof (open_prefix_context _ _ _ _ _ _ _ _ _ P) as C. cbv zeta in C.
  rewrite N in C.
  destruct C as [Fl [_ [_ [_ [_ [_ [_ [_ [ai [ais [Sr [Da [Dl _]]]]]]]]]]]]].
  unfold view_socket in Vs. injection Vs as Vf _ _ _ _ _ _ Vd Vl _.
  split; [change (flags (w_h (opened fd w5))) with (flags (w_h w5)); congruence|].
  exists ai, ais.
  change (dest_addr (priv_data (w_h (opened fd w5))))
    with (dest_addr (priv_data (w_h w5))).
  change (dest_addr_len (priv_data (w_h (opened fd w5))))
    with (dest_addr_len (priv_data (w_h w5))).
  split; [|split; congruence].
  rewrite Cs. apply in_or_app. left. apply (select_In KResolve).
  rewrite Sr. left. reflexivity.
Qed.

(** X13: writing to an opened session.  After a successful [udp_open]
    of a URL with a host, [udp_write] works on the socket that the open
    created.  Unless the context is non-blocking it first waits for the
    socket to be writable, and returns the result of a failed wait
    without sending.  Otherwise its last call sends the buffer: with
    [send] when the context is connected, and else with [sendto] to the
    first address that the open found for the host and the port of the
    URL. *)
Theorem open_then_write (net : IO) uri fl w w' buf tr ret tr' :
  udp_open os uri fl w = (Done 0, w') ->
  null_host uri = false ->
  udp_write net (w_h w') buf tr = (ret, tr') ->
  let s' := priv_data (w_h w') in
  let fd := udp_get_file_handle (w_h w') in
  created (calls w w') = [fd] /\
  exists ai ais,
    In (EGetaddrinfo (node_of (Some (fst (av_url_split 256 uri))))
          (service_of (snd (av_url_split 256 uri))) SOCK_DGRAM AF_UNSPEC 0
          (ai :: ais)) (calls w w') /\
    ((has_flag (flags (w_h w)) AVIO_FLAG_NONBLOCK = false /\ ret < 0 /\
      tr' = tr ++ [EWaitFd fd 1 ret]) \/
     (exists r,
        ret = send_ret r /\
        tr' = tr
              ++ (if has_flag (flags (w_h w)) AVIO_FLAG_NONBLOCK then []
                  else [EWaitFd fd 1 (io_wait_fd net tr fd 1)])
              ++ [if C.truthy (is_connected s') then ESend fd buf r
                  else ESendto fd buf (ai_addr ai) (ai_addrlen ai) r])).
Proof.
  intros H N Hw. cbv zeta.
  destruct (open_socket_sockets _ _ _ _ H) as [Cr _].
  destruct (open_ok_destination _ _ _ _ H N) as [Fl [ai [ais [I [Da Dl]]]]].
  split; [exact Cr|]. exists ai, ais. split; [exact I|].
  unfold udp_write, wait_unless_nonblock in Hw. unfold udp_get_file_handle.
  rewrite Fl, Da, Dl in Hw.
  destruct (has_flag (flags (w_h w)) AVIO_FLAG_NONBLOCK); cbn [negb] in Hw.
  - right. destruct (C.truthy (is_connected (priv_data (w_h w')))); cbn [negb] in Hw;
      injection Hw as <- <-; eexists; split; reflexivity.
  - destruct (io_wait_fd net tr (udp_fd (priv_data (w_h w'))) 1 <? 0) eqn:W.
    + left. injection Hw as <- <-. apply Z.ltb_lt in W. auto.
    + right. destruct (C.truthy (is_connected (priv_data (w_h w')))); cbn [negb] in Hw;
        injection Hw as <- <-; eexists; (split; [reflexivity|]);
        rewrite <- app_assoc; reflexivity.
Qed.

(* --------------------------------------------------------------------- *)
(** *** Reading *)

(** X14: what [udp_read] returns.  A negative result leaves the buffer
    alone; a result that is not negative is the length of the datagram
    that the last call, a [recv] on the socket of the context for the
    [size] of the caller, stored in the buffer.  A non-blocking context
    makes that [recv] and nothing else.  Any other context first waits
    for the socket to be readable; when the wait fails its result is
    returned and nothing is received. *)
Theorem udp_read_result (net : IO) h size tr ret data tr' :
  udp_read net h size tr = (ret, data, tr') ->
  let fd := udp_fd (priv_data h) in
  (ret < 0 -> data = []) /\
  (0 <= ret ->
   ret = Z.of_nat (List.length data) /\
   exists pre, tr' = pre ++ [ERecv fd size (RecvData data)]) /\
  if has_flag (flags h) AVIO_FLAG_NONBLOCK
  then exists r, tr' = tr ++ [ERecv fd size r]
  else exists wr,
      (wr < 0 /\ ret = wr /\ tr' = tr ++ [EWaitFd fd 0 wr]) \/
      (0 <= wr /\ exists r, tr' = tr ++ [EWaitFd fd 0 wr; ERecv fd size r]).
Proof.
  unfold udp_read, wait_unless_nonblock. intros H. cbv zeta.
  assert (R : forall r pre,
            (recv_ret r < 0 -> recv_data r = []) /\
            (0 <= recv_ret r ->
             recv_ret r = Z.of_nat (List.length (recv_data r)) /\
             exists pre',
               pre ++ [ERecv (udp_fd (priv_data h)) size r]
               = pre' ++ [ERecv (udp_fd (priv_data h)) size (RecvData (recv_data r))])).
  { intros [d|e] pre; cbn [recv_ret recv_data]; unfold AVERROR.
    - split; [lia|]. intros _. split; [reflexivity|]. exists pre. reflexivity.
    - split; [reflexivity|]. lia. }
  destruct (has_flag (flags h) AVIO_FLAG_NONBLOCK); cbn [negb] in H.
  - injection H as <- <- <-.
    destruct (R (io_recv net tr (udp_fd (priv_data h)) size) tr) as [R1 R2].
    split; [exact R1|]. split; [exact R2|]. eexists. reflexivity.
  - destruct (io_wait_fd net tr (udp_fd (priv_data h)) 0 <? 0) eqn:W.
    + injection H as <- <- <-. apply Z.ltb_lt in W.
      split; [reflexivity|]. split; [lia|].
      eexists. left. split; [exact W|]. split; reflexivity.
    + injection H as <- <- <-. apply Z.ltb_ge in W.
      match goal with
      | |- context [io_recv net ?t ?f ?s] => destruct (R (io_recv net t f s) t) as [R1 R2]
      end.
      split; [exact R1|]. split; [exact R2|].
      eexists. right. split; [exact W|]. eexists. rewrite <- app_assoc. reflexivity.
Qed.
End Properties.

(* ===================================================================== *)
(** ** Concrete runs *)
(* ===================================================================== *)

Section Examples.

#[local] Existing Instance Reference.libav.
#[local] Existing Instance Reference.linux.

Local Abbreviation sim_os := Reference.sim_os.
Local Abbreviation sim_os_with := Reference.sim_os_with.
Local Abbreviation fresh := Reference.fresh.
Local Abbreviation run_open := Reference.run_open.

(** A multicast group, and a unicast destination. *)
Definition group_url : string := "udp://239.1.1.1:5004".
Definition host_url : string := "udp://10.0.0.1:5000".

(** The run of [udp_open] on a fresh context. *)
Definition opened_by (os : OS) (uri : string) (fl : Z) : world :=
  snd (run_open os uri fl).

(** A group with two listed sources. *)
Definition filtered_url : string :=
  "udp://239.1.1.1:5004?sources=10.0.0.5,10.0.0.6".

(** [open_source_filter] on the group with two listed sources, opened for
    reading. *)
Lemma open_source_filter_witness :
  let uri := filtered_url in
  let w := fresh AVIO_FLAG_READ in
  let w' := opened_by sim_os uri AVIO_FLAG_READ in
  udp_open sim_os uri AVIO_FLAG_READ w = (Done 0, w') /\
  C.truthy (is_multicast (priv_data (w_h w'))) = true /\
  has_flag (flags (w_h w)) AVIO_FLAG_READ = true /\
  let s' := priv_data (w_h w') in
  let fd := udp_fd s' in
  let group := dest_addr s' in
  (List.length (url_sources uri) <= 32)%nat /\
  (forall buf,
     url_tag uri "sources" = Some buf \/
     (url_tag uri "sources" = None /\ url_tag uri "block" = Some buf) ->
     url_sources uri = firstn 32 (split_commas buf)) /\
  exists addrs,
    Forall2 (resolved_in (calls w w')) (url_sources uri) addrs /\
    (url_include uri = true ->
     membership (calls w w') = map (source_call fd group 1) addrs /\
     (forall a, kind_of (source_call fd group 1 a) = KSourceJoin) /\
     select KJoin (calls w w') = []) /\
    (url_include uri = false ->
     membership (calls w w')
       = join_calls fd group ++ map (source_call fd group 0) addrs /\
     (forall a, kind_of (source_call fd group 0 a) = KSourceBlock) /\
     (join_supported group = true -> join_calls fd group = [plain_join fd group]) /\
     (join_supported group = false -> join_calls fd group = [])).
Proof.
  cbv zeta. split; [vm_compute; reflexivity|].
  split; [vm_compute; reflexivity|]. split; [vm_compute; reflexivity|].
  apply (open_source_filter sim_os filtered_url AVIO_FLAG_READ);
    vm_compute; reflexivity.
Defined.

(** A system with IPv6 only.  Every lookup finds one address: the
    group for [ff02::1], the host number [n] for [::n], and the
    unspecified address otherwise. *)
Definition v6_group : Z := 0xff020000000000000000000000000001.
Definition sizeof_sockaddr_in6 : Z := 28.
Definition v6_os : OS :=
  mk_OS (fun _ node service _ _ _ =>
           [mk_addrinfo AF_INET6
              (mk_sockaddr AF_INET6 (C.strtol_int service)
                 match node with
                 | Some (String ":" (String ":" n)) => C.strtol_int n
                 | Some n => if String.eqb n "ff02::1" then v6_group else 0
                 | None => 0
                 end)
              sizeof_sockaddr_in6])
        (os_socket sim_os) (os_setsockopt sim_os) (os_bind sim_os)
        (os_getsockname sim_os) (os_getnameinfo sim_os) (os_connect sim_os)
        (os_strdup sim_os).

(** A group with 34 listed sources. *)
Definition many_sources : string :=
  "::1,::2,::3,::4,::5,::6,::7,::8,::9,::10,::11,::12,::13,::14,::15,::16,::17,::18,::19,::20,::21,::22,::23,::24,::25,::26,::27,::28,::29,::30,::31,::32,::33,::34".
Definition many_sources_url : string := "udp://[ff02::1]:5004?sources=" ++ many_sources.

(** With 34 hosts listed after [sources=], a successful open makes 32
    source joins: the hosts [::33] and [::34] are not even looked up. *)
Lemma listed_sources_beyond_cap :
  let uri := many_sources_url in
  let w := fresh AVIO_FLAG_READ in
  let w' := opened_by v6_os uri AVIO_FLAG_READ in
  udp_open v6_os uri AVIO_FLAG_READ w = (Done 0, w') /\
  C.truthy (is_multicast (priv_data (w_h w'))) = true /\
  has_flag (flags (w_h w)) AVIO_FLAG_READ = true /\
  url_tag uri "sources" = Some many_sources /\
  List.length (split_commas many_sources) = 34%nat /\
  sa_family (dest_addr (priv_data (w_h w'))) = AF_INET6 /\
  List.length (select KSourceJoin (calls w w')) = 32%nat /\
  List.length (membership (calls w w')) = 32%nat /\
  existsb (fun e => match e with
                    | EGetaddrinfo (Some n) _ _ _ _ _ =>
                        (String.eqb n "::33" || String.eqb n "::34")%bool
                    | _ => false
                    end) (calls w w') = false.
Proof.
  cbv zeta. repeat match goal with |- _ /\ _ => split end; vm_compute; reflexivity.
Qed.

(** [open_bind_policy] on a multicast group opened for reading. *)
Lemma open_bind_policy_witness :
  let w := fresh AVIO_FLAG_READ in
  let o := Done 0 in
  let w' := opened_by sim_os group_url AVIO_FLAG_READ in
  udp_open sim_os group_url AVIO_FLAG_READ w = (o, w') /\
  let s' := priv_data (w_h w') in
  let first :=
    (C.truthy (is_multicast s') && negb (has_flag (flags (w_h w)) AVIO_FLAG_WRITE))%bool in
  (select KBind (calls w w') = [] /\ o = Done (AVERROR EIO)) \/
  exists fd my len pre b post failed,
    calls w w' = pre ++ b ++ post /\
    select KBind pre = [] /\ select KBind post = [] /\
    bind_calls fd (dest_addr s') my len first b failed /\
    (exists node service family res ai,
       In (EGetaddrinfo node service SOCK_DGRAM family AI_PASSIVE res) pre /\
       In ai res /\ my = ai_addr ai /\ len = ai_addrlen ai) /\
    (failed = true -> post = [EClosesocket fd] /\ o = Done (AVERROR EIO)) /\
    (failed = false -> exists name post', post = EGetsockname fd name :: post').
Proof.
  cbv zeta. split; [vm_compute; reflexivity|].
  apply (open_bind_policy sim_os group_url AVIO_FLAG_READ).
  vm_compute; reflexivity.
Defined.

(** [open_reuse_policy] on a multicast group: reuse without being asked. *)
Lemma open_reuse_policy_witness :
  let uri := group_url in
  let w := fresh AVIO_FLAG_READ in
  let o := Done 0 in
  let w' := opened_by sim_os uri AVIO_FLAG_READ in
  udp_open sim_os uri AVIO_FLAG_READ w = (o, w') /\
  reuse_socket (priv_data (w_h w)) = 0 /\
  let s' := priv_data (w_h w') in
  let enabled := reuse_enabled uri (C.truthy (is_multicast s')) in
  (forall fd lvl v r,
     In (ESetsockopt fd lvl (SO_REUSEADDR v) r) (calls w w') ->
     enabled = true /\ lvl = SOL_SOCKET /\ v = 1) /\
  (o = Done 0 ->
   select KReuse (calls w w')
     = (if enabled
        then [ESetsockopt (udp_fd s') SOL_SOCKET (SO_REUSEADDR 1) SysOk]
        else []) /\
   reuse_socket s' = (if enabled then 1 else 0)) /\
  (forall buf,
     url_tag uri "reuse" = Some buf -> snd (C.strtol buf) = 0%nat ->
     reuse_requested uri = true).
Proof.
  cbv zeta. split; [vm_compute; reflexivity|]. split; [reflexivity|].
  apply (open_reuse_policy sim_os group_url AVIO_FLAG_READ);
    vm_compute; reflexivity.
Defined.

(** [session_joins_and_leaves] on a multicast group without a filter. *)
Lemma session_joins_and_leaves_witness :
  let uri := group_url in
  let w := fresh AVIO_FLAG_READ in
  let w1 := opened_by sim_os uri AVIO_FLAG_READ in
  let o := Done 0 in
  let w2 := snd (udp_close sim_os w1) in
  udp_open sim_os uri AVIO_FLAG_READ w = (Done 0, w1) /\
  udp_close sim_os w1 = (o, w2) /\
  let s := priv_data (w_h w1) in
  let fd := udp_fd s in
  let group := dest_addr s in
  C.truthy (is_multicast s) = true /\
  has_flag (flags (w_h w)) AVIO_FLAG_READ = true /\
  join_supported group = true /\
  leave_supported group = true /\
  select KJoin (calls w w1)
    = (if url_include uri then [] else [plain_join fd group]) /\
  List.length (select KSourceJoin (calls w w1))
    = (if url_include uri then List.length (url_sources uri) else 0%nat) /\
  (List.length (url_sources uri) <= 32)%nat /\
  (forall buf, url_tag uri "sources" = Some buf ->
               url_sources uri = firstn 32 (split_commas buf)) /\
  select KLeave (calls w w1) = [] /\
  o = Done 0 /\
  exists r c,
    calls w1 w2 = c ++ [EClosesocket fd] /\
    select KLeave c = [plain_leave fd group r] /\
    select KJoin c = [] /\ select KSourceJoin c = [].
Proof.
  cbv zeta. split; [vm_compute; reflexivity|]. split; [vm_compute; reflexivity|].
  split; [vm_compute; reflexivity|]. split; [vm_compute; reflexivity|].
  split; [vm_compute; reflexivity|]. split; [vm_compute; reflexivity|].
  apply (session_joins_and_leaves sim_os group_url AVIO_FLAG_READ);
    vm_compute; reflexivity.
Defined.

(** With two listed sources, open makes no plain join and two source
    joins, and close makes one leave call: the numbers of joins and of
    leaves are not both one. *)
Lemma two_sources_join_counts :
  let uri := filtered_url in
  let w := fresh AVIO_FLAG_READ in
  let w1 := opened_by sim_os uri AVIO_FLAG_READ in
  let w2 := snd (udp_close sim_os w1) in
  udp_open sim_os uri AVIO_FLAG_READ w = (Done 0, w1) /\
  udp_close sim_os w1 = (Done 0, w2) /\
  C.truthy (is_multicast (priv_data (w_h w1))) = true /\
  has_flag (flags (w_h w)) AVIO_FLAG_READ = true /\
  List.length (select KJoin (calls w w1)) = 0%nat /\
  List.length (select KSourceJoin (calls w w1)) = 2%nat /\
  List.length (membership (calls w w1)) = 2%nat /\
  List.length (select KLeave (calls w1 w2)) = 1%nat.
Proof.
  cbv zeta. repeat match goal with |- _ /\ _ => split end; vm_compute; reflexivity.
Qed.

(** An operating system that refuses every buffer size. *)
Definition fixed_buffers_os : OS :=
  sim_os_with
    (fun _ _ _ opt =>
       match opt with
       | SO_SNDBUF _ | SO_RCVBUF _ => SysErr 22
       | _ => SysOk
       end)
    (fun _ _ _ _ => SysOk)
    (fun _ _ _ _ => SysOk).

(** [open_buffer_size_failures] on an input session whose receive buffer
    cannot be sized: the open succeeds. *)
Lemma open_buffer_size_failures_witness :
  let uri := host_url in
  let fl := AVIO_FLAG_READ in
  let w := fresh fl in
  let o := Done 0 in
  let w' := opened_by fixed_buffers_os uri fl in
  udp_open fixed_buffers_os uri fl w = (o, w') /\
  (forall fd lvl v e,
     In (ESetsockopt fd lvl (SO_SNDBUF v) (SysErr e)) (calls w w') ->
     has_flag fl AVIO_FLAG_READ = false /\
     o = Done (AVERROR EIO) /\
     exists pre,
       calls w w' = pre ++ [ESetsockopt fd SOL_SOCKET (SO_SNDBUF v) (SysErr e);
                            ELog AV_LOG_ERROR "setsockopt(SO_SNDBUF)";
                            EClosesocket fd]) /\
  (forall fd lvl v e,
     In (ESetsockopt fd lvl (SO_RCVBUF v) (SysErr e)) (calls w w') ->
     has_flag fl AVIO_FLAG_READ = true /\
     exists pre post,
       calls w w' = pre ++ [ESetsockopt fd SOL_SOCKET (SO_RCVBUF v) (SysErr e);
                            ELog AV_LOG_WARNING "setsockopt(SO_RECVBUF)";
                            ENonblock fd 1] ++ post /\
       (o = Done 0 \/
        exists a l e',
          o = Done (AVERROR EIO) /\
          post = [EConnect fd a l (SysErr e'); ELog AV_LOG_ERROR "connect";
                  EClosesocket fd])).
Proof.
  cbv zeta. split; [vm_compute; reflexivity|].
  apply (open_buffer_size_failures fixed_buffers_os host_url AVIO_FLAG_READ).
  vm_compute; reflexivity.
Defined.




(** A URL that asks for a connect. *)
Definition connect_url : string := "udp://10.0.0.1:5000?connect=1".

(** [set_remote_connect] on an unconnected context and a URL that asks
    for a connect. *)
Lemma set_remote_connect_witness :
  let uri := connect_url in
  let w := fresh AVIO_FLAG_WRITE in
  let o := Done 0 in
  let w' := snd (ff_udp_set_remote_url sim_os uri w) in
  ff_udp_set_remote_url sim_os uri w = (o, w') /\
  let s := priv_data (w_h w) in
  let s' := priv_data (w_h w') in
  (is_connected s <> 0 -> select KConnect (calls w w') = []) /\
  (forall fd a l e, In (EConnect fd a l (SysErr e)) (calls w w') ->
     o = Done (AVERROR EIO) /\ is_connected s' = 0) /\
  (is_connected s = 0 -> connect_requested uri -> 0 <= dest_addr_len s' ->
     exists r,
       select KConnect (calls w w')
         = [EConnect (udp_fd s) (dest_addr s') (dest_addr_len s') r] /\
       (r = SysOk -> o = Done 0 /\ is_connected s' <> 0)).
Proof.
  cbv zeta. split; [vm_compute; reflexivity|].
  apply (set_remote_connect sim_os connect_url). vm_compute; reflexivity.
Defined.

(** A group with a [localport] that is not the port of the URL. *)
Definition localport_url : string := "udp://239.1.1.1:5004?localport=7000".

(** [open_binds_url_port] on a multicast group with a [localport]. *)
Lemma open_binds_url_port_witness :
  let uri := localport_url in
  let fl := AVIO_FLAG_READ in
  let w := fresh fl in
  let o := Done 0 in
  let w' := opened_by sim_os uri fl in
  udp_open sim_os uri fl w = (o, w') /\
  has_flag (flags (w_h w)) AVIO_FLAG_READ = true /\
  let s := priv_data (w_h w) in
  let s' := priv_data (w_h w') in
  let port := snd (av_url_split 1024 uri) in
  (C.truthy (is_multicast s') = true
   \/ int_option (url_tag uri "localport") (local_port s) = 0) /\
  (forall node service st fam res,
     In (EGetaddrinfo node service st fam AI_PASSIVE res) (calls w w') ->
     service = service_of port /\ st = SOCK_DGRAM) /\
  (o = Done 0 ->
   exists node fam res,
     select KLocal (calls w w')
       = [EGetaddrinfo node (service_of port) SOCK_DGRAM fam AI_PASSIVE res]).
Proof.
  cbv zeta. split; [vm_compute; reflexivity|]. split; [vm_compute; reflexivity|].
  split; [left; vm_compute; reflexivity|].
  apply (open_binds_url_port sim_os localport_url AVIO_FLAG_READ);
    [vm_compute; reflexivity | vm_compute; reflexivity | left; vm_compute; reflexivity].
Defined.

(** A list of 34 hosts, all but two of them empty. *)
Definition long_list : string :=
  "1.1.1.1,2.2.2.2,,,,,,,,,,,,,,,,,,,,,,,,,,,,,,,,".
Definition long_list_url : string := "udp://239.1.1.1:5004?sources=" ++ long_list.

(** [open_host_list_capped] on the list of 34 hosts. *)
Lemma open_host_list_capped_witness :
  let uri := long_list_url in
  let buf := long_list in
  let os := sim_os in
  List.length (split_commas buf) = 34%nat /\
  (url_tag uri "sources" = Some buf \/
   (url_tag uri "sources" = None /\ url_tag uri "block" = Some buf)) /\
  let kept := firstn 32 (split_commas buf) in
  (List.length kept <= 32)%nat /\
  (forall w o w',
     udp_open_options os uri w = (o, w') ->
     (exists l, o = Done l /\ sources l = kept /\ calls w w' = strdups kept) \/
     (o = GotoFail (-1) /\
      exists done failed, calls w w' = strdups done ++ [EStrdup failed false])) /\
  (forall fl w w',
     udp_open os uri fl w = (Done 0, w') ->
     let s' := priv_data (w_h w') in
     C.truthy (is_multicast s') = true ->
     has_flag (flags (w_h w)) AVIO_FLAG_READ = true ->
     exists addrs,
       Forall2 (resolved_in (calls w w')) kept addrs /\
       membership (calls w w')
       = if url_include uri
         then map (source_call (udp_fd s') (dest_addr s') 1) addrs
         else join_calls (udp_fd s') (dest_addr s')
              ++ map (source_call (udp_fd s') (dest_addr s') 0) addrs).
Proof.
  cbv zeta. split; [vm_compute; reflexivity|].
  split; [left; vm_compute; reflexivity|].
  apply (open_host_list_capped sim_os long_list_url long_list).
  left; vm_compute; reflexivity.
Defined.

(** A group with [sources=] and no host after it. *)
Definition empty_filter_url : string := "udp://239.1.1.1:5004?sources=".

(** C2: a URL with [sources=] and no host in it is not refused.  The
    loop of lines 439-450 stores the empty string as the one host of the
    list, so that [num_sources] is 1; the test of line 509 fails and the
    one of line 517 holds; the empty host resolves as the null node, to
    the loopback address, and a source join is made for it.  With a
    system that accepts the call, open returns 0; nothing is logged (the
    message of line 521 is not), and no plain join is made. *)
Theorem open_empty_sources_accepted :
  let uri := empty_filter_url in
  let w := fresh AVIO_FLAG_READ in
  let w' := opened_by sim_os uri AVIO_FLAG_READ in
  let group := mk_sockaddr AF_INET 5004 0xEF010101 in
  let loopback := mk_sockaddr AF_INET 0 0x7F000001 in
  url_include uri = true /\
  url_tag uri "sources" = Some EmptyString /\
  url_sources uri = [EmptyString] /\
  udp_open sim_os uri AVIO_FLAG_READ w = (Done 0, w') /\
  C.truthy (is_multicast (priv_data (w_h w'))) = true /\
  (forall lvl msg, ~ In (ELog lvl msg) (calls w w')) /\
  membership (calls w w')
    = [ESetsockopt 3 IPPROTO_IP (MCAST_JOIN_SOURCE_GROUP group loopback) SysOk] /\
  resolved_in (calls w w') EmptyString loopback.
Proof.
  cbv zeta. repeat match goal with |- _ /\ _ => split end;
    try (vm_compute; reflexivity).
  { intros lvl msg I. vm_compute in I.
    repeat (destruct I as [I|I]; [discriminate I|]). exact I. }
  eexists. exists [].
  split; [vm_compute; do 8 right; left; reflexivity | reflexivity].
Qed.


(* --------------------------------------------------------------------- *)
(** *** Runs for the other properties *)

(** [udp_socket_create_candidates] on a fresh context, without a local
    address. *)
Lemma udp_socket_create_candidates_witness :
  let a0 := sockaddr_zero in
  let l0 := 0 in
  let la := EmptyString in
  let w := fresh AVIO_FLAG_READ in
  let o := fst (udp_socket_create sim_os a0 l0 la w) in
  let w' := snd (udp_socket_create sim_os a0 l0 la w) in
  udp_socket_create sim_os a0 l0 la w = (o, w') /\
  w_h w' = w_h w /\
  exists res evs fd res' ret addr len,
    calls w w' = local_lookup (priv_data (w_h w)) la res ++ evs /\
    tried res evs fd res' /\
    o = Done (ret, addr, len) /\
    (0 <= ret ->
     ret = fd /\ created (calls w w') = [ret] /\
     exists ai rest, res' = ai :: rest /\ addr = ai_addr ai /\ len = ai_addrlen ai) /\
    (ret < 0 -> ret = -1 /\ addr = a0 /\ len = l0 /\ created (calls w w') = []) /\
    released (calls w w') = [].
Proof.
  cbv zeta. split; [vm_compute; reflexivity|].
  apply (udp_socket_create_candidates sim_os sockaddr_zero 0 EmptyString).
  vm_compute; reflexivity.
Defined.

(** [open_socket_accounting] on a multicast group opened for reading. *)
Lemma open_socket_accounting_witness :
  let uri := group_url in
  let fl := AVIO_FLAG_READ in
  let w := fresh AVIO_FLAG_READ in
  let o := Done 0 in
  let w' := opened_by sim_os uri fl in
  udp_open sim_os uri fl w = (o, w') /\
  let s := priv_data (w_h w) in
  let s' := priv_data (w_h w') in
  (o = Done 0 /\ 0 <= udp_get_file_handle (w_h w') /\
   created (calls w w') = [udp_get_file_handle (w_h w')] /\
   released (calls w w') = []) \/
  (o = Done (AVERROR EIO) /\ udp_fd s' = udp_fd s /\
   released (calls w w') = created (calls w w') /\
   (created (calls w w') = [] \/
    exists fd pre, calls w w' = pre ++ [EClosesocket fd] /\ 0 <= fd /\
                   created pre = [fd] /\ released pre = [])).
Proof.
  cbv zeta. split; [vm_compute; reflexivity|].
  apply (open_socket_accounting sim_os group_url AVIO_FLAG_READ).
  vm_compute; reflexivity.
Defined.

(** [set_remote_destination] on a fresh context. *)
Lemma set_remote_destination_witness :
  let uri := host_url in
  let w := fresh AVIO_FLAG_WRITE in
  let o := Done 0 in
  let w' := snd (ff_udp_set_remote_url sim_os uri w) in
  ff_udp_set_remote_url sim_os uri w = (o, w') /\
  let s := priv_data (w_h w) in
  let s' := priv_data (w_h w') in
  let hostname := fst (av_url_split 256 uri) in
  let port := snd (av_url_split 256 uri) in
  view_set_remote (w_h w') = view_set_remote (w_h w) /\
  forallb (of_kinds [KResolve; KLog; KConnect]) (calls w w') = true /\
  exists res,
    select KResolve (calls w w')
      = [EGetaddrinfo (node_of (Some hostname)) (service_of port) SOCK_DGRAM
           AF_UNSPEC 0 res] /\
    (res = [] ->
     o = Done (AVERROR EIO) /\ select KConnect (calls w w') = [] /\
     dest_addr s' = dest_addr s /\ dest_addr_len s' = AVERROR EIO /\
     is_multicast s' = is_multicast s /\
     is_connected s' = is_connected s) /\
    (forall ai ais, res = ai :: ais ->
       dest_addr s' = ai_addr ai /\ dest_addr_len s' = ai_addrlen ai /\
       (0 <= ai_addrlen ai ->
        is_multicast s' = ff_is_multicast_address (ai_addr ai))).
Proof.
  cbv zeta. split; [vm_compute; reflexivity|].
  apply (set_remote_destination sim_os host_url).
  vm_compute; reflexivity.
Defined.

(** A URL without a host: only the port to listen on. *)
Definition listen_url : string := "udp://:5000".

(** [open_without_host] on a URL without a host, opened for writing. *)
Lemma open_without_host_witness :
  let uri := listen_url in
  let fl := AVIO_FLAG_WRITE in
  let w := fresh AVIO_FLAG_WRITE in
  let o := Done (AVERROR EIO) in
  let w' := opened_by sim_os uri fl in
  udp_open sim_os uri fl w = (o, w') /\
  null_host uri = true /\
  destination (w_h w') = destination (w_h w) /\
  (has_flag fl AVIO_FLAG_READ = false ->
   o = Done (AVERROR EIO) /\ forallb (of_kinds [KAlloc]) (calls w w') = true).
Proof.
  cbv zeta. split; [vm_compute; reflexivity|]. split; [vm_compute; reflexivity|].
  apply (open_without_host sim_os listen_url AVIO_FLAG_WRITE);
    vm_compute; reflexivity.
Defined.

(** A destination with the parameters of the session. *)
Definition tuned_url : string :=
  "udp://10.0.0.1:5000?pkt_size=1316&buffer_size=65536&ttl=4".

(** [open_session_parameters] on a URL that sets the three parameters,
    opened for writing. *)
Lemma open_session_parameters_witness :
  let uri := tuned_url in
  let fl := AVIO_FLAG_WRITE in
  let w := fresh AVIO_FLAG_WRITE in
  let w' := opened_by sim_os uri fl in
  udp_open sim_os uri fl w = (Done 0, w') /\
  let h' := w_h w' in
  let s' := priv_data h' in
  let fd := udp_fd s' in
  is_streamed h' = 1 /\
  max_packet_size h' = int_option (url_tag uri "pkt_size") 1472 /\
  ttl s' = int_option (url_tag uri "ttl") 16 /\
  buffer_size s' = int_option (url_tag uri "buffer_size") (default_buffer_size fl) /\
  if has_flag fl AVIO_FLAG_READ then
    (exists r, select KRcvbuf (calls w w')
               = [ESetsockopt fd SOL_SOCKET (SO_RCVBUF (buffer_size s')) r]) /\
    select KSndbuf (calls w w') = [] /\
    select KNonblock (calls w w') = [ENonblock fd 1]
  else
    select KSndbuf (calls w w')
      = [ESetsockopt fd SOL_SOCKET (SO_SNDBUF (buffer_size s')) SysOk] /\
    select KRcvbuf (calls w w') = [] /\
    select KNonblock (calls w w') = [].
Proof.
  cbv zeta. split; [vm_compute; reflexivity|].
  apply (open_session_parameters sim_os tuned_url AVIO_FLAG_WRITE).
  vm_compute; reflexivity.
Defined.

(** [open_connect_policy] on a URL that asks for a connect. *)
Lemma open_connect_policy_witness :
  let uri := connect_url in
  let fl := AVIO_FLAG_WRITE in
  let w := fresh AVIO_FLAG_WRITE in
  let w' := opened_by sim_os uri fl in
  udp_open sim_os uri fl w = (Done 0, w') /\
  let s' := priv_data (w_h w') in
  let fd := udp_fd s' in
  if C.truthy (is_connected s') then
    exists pre,
      calls w w' = pre ++ [EConnect fd (dest_addr s') (dest_addr_len s') SysOk] /\
      exists a len, In (EBind fd a len SysOk) pre
  else select KConnect (calls w w') = [].
Proof.
  cbv zeta. split; [vm_compute; reflexivity|].
  apply (open_connect_policy sim_os connect_url AVIO_FLAG_WRITE).
  vm_compute; reflexivity.
Defined.

(** A group received on one interface. *)
Definition localaddr_url : string := "udp://239.1.1.1:5004?localaddr=10.0.0.2".

(** [open_local_lookup] on a URL with a [localaddr]. *)
Lemma open_local_lookup_witness :
  let uri := localaddr_url in
  let fl := AVIO_FLAG_READ in
  let w := fresh AVIO_FLAG_READ in
  let w' := opened_by sim_os uri fl in
  udp_open sim_os uri fl w = (Done 0, w') /\
  let s' := priv_data (w_h w') in
  exists service res,
    select KLocal (calls w w')
    = [EGetaddrinfo (node_of (local_node uri)) service SOCK_DGRAM
         (if C.truthy (sa_family (dest_addr s')) then sa_family (dest_addr s')
          else AF_UNSPEC)
         AI_PASSIVE res].
Proof.
  cbv zeta. split; [vm_compute; reflexivity|].
  apply (open_local_lookup sim_os localaddr_url AVIO_FLAG_READ).
  vm_compute; reflexivity.
Defined.

(** A group to send to, with a time to live. *)
Definition ttl_url : string := "udp://239.1.1.1:5004?ttl=4".

(** [open_multicast_ttl] on a group opened for writing. *)
Lemma open_multicast_ttl_witness :
  let uri := ttl_url in
  let fl := AVIO_FLAG_WRITE in
  let w := fresh AVIO_FLAG_WRITE in
  let o := Done 0 in
  let w' := opened_by sim_os uri fl in
  udp_open sim_os uri fl w = (o, w') /\
  let h' := w_h w' in
  let s' := priv_data h' in
  (o = Done 0 ->
   select KTtl (calls w w')
   = if (C.truthy (is_multicast s') && has_flag (flags h') AVIO_FLAG_WRITE
         && ttl_supported (dest_addr s'))%bool
     then [ttl_call (udp_fd s') (int_option (url_tag uri "ttl") 16) (dest_addr s')
             SysOk]
     else []) /\
  (forall fd level opt e,
     In (ESetsockopt fd level opt (SysErr e)) (calls w w') ->
     kind_of_sockopt opt = KTtl ->
     o = Done (AVERROR EIO)).
Proof.
  cbv zeta. split; [vm_compute; reflexivity|].
  apply (open_multicast_ttl sim_os ttl_url AVIO_FLAG_WRITE).
  vm_compute; reflexivity.
Defined.

(** [session_sockets] on a unicast destination opened for writing. *)
Lemma session_sockets_witness :
  let uri := host_url in
  let fl := AVIO_FLAG_WRITE in
  let w := fresh AVIO_FLAG_WRITE in
  let w1 := opened_by sim_os uri fl in
  let o := Done 0 in
  let w2 := snd (udp_close sim_os w1) in
  udp_open sim_os uri fl w = (Done 0, w1) /\
  udp_close sim_os w1 = (o, w2) /\
  let s := priv_data (w_h w1) in
  o = Done 0 /\ w_h w2 = w_h w1 /\
  created (calls w w2) = [udp_get_file_handle (w_h w1)] /\
  released (calls w w2) = [udp_get_file_handle (w_h w1)] /\
  ((C.truthy (is_multicast s) && has_flag (flags (w_h w1)) AVIO_FLAG_READ)%bool = false ->
   calls w1 w2 = [EClosesocket (udp_get_file_handle (w_h w1))]).
Proof.
  cbv zeta. split; [vm_compute; reflexivity|]. split; [vm_compute; reflexivity|].
  apply (session_sockets sim_os host_url AVIO_FLAG_WRITE);
    vm_compute; reflexivity.
Defined.

(** Three hosts, the second of which does not resolve. *)
Definition three_hosts : list string :=
  ["10.0.0.5"; "nowhere"; "10.0.0.6"]%string.

(** [set_sources_stops_at_failure] on three hosts, the second of which
    does not resolve. *)
Lemma set_sources_stops_at_failure_witness :
  let fd := 3 in
  let a := mk_sockaddr AF_INET 5004 0xef010101 in
  let al := 16 in
  let srcs := three_hosts in
  let inc := 1 in
  let w := fresh AVIO_FLAG_READ in
  let o := Done (AVERROR ENOENT) in
  let w' := snd (udp_set_multicast_sources sim_os fd a al srcs inc w) in
  udp_set_multicast_sources sim_os fd a al srcs inc w = (o, w') /\
  w_h w' = w_h w /\
  exists code k,
    o = Done code /\ code <= 0 /\ (k <= List.length srcs)%nat /\
    looked_up (calls w w') = map (fun s => node_of (Some s)) (firstn k srcs) /\
    (List.length (source_events (calls w w')) <= k)%nat /\
    (code = 0 ->
     k = List.length srcs /\ List.length (source_events (calls w w')) = k) /\
    (source_supported a = false ->
     code < 0 /\ k = 0%nat /\ source_events (calls w w') = []).
Proof.
  cbv zeta. split; [vm_compute; reflexivity|].
  apply (set_sources_stops_at_failure sim_os 3 (mk_sockaddr AF_INET 5004 0xef010101)
           16 three_hosts 1).
  vm_compute; reflexivity.
Defined.

(** [open_filter_needs_support] on the group with two listed sources. *)
Lemma open_filter_needs_support_witness :
  let uri := filtered_url in
  let fl := AVIO_FLAG_READ in
  let w := fresh AVIO_FLAG_READ in
  let w' := opened_by sim_os uri fl in
  udp_open sim_os uri fl w = (Done 0, w') /\
  let s' := priv_data (w_h w') in
  C.truthy (is_multicast s') = true /\
  has_flag (flags (w_h w')) AVIO_FLAG_READ = true /\
  url_sources uri <> [] /\
  source_supported (dest_addr s') = true.
Proof.
  cbv zeta. split; [vm_compute; reflexivity|].
  split; [vm_compute; reflexivity|]. split; [vm_compute; reflexivity|].
  split; [vm_compute; discriminate|].
  apply (open_filter_needs_support sim_os filtered_url AVIO_FLAG_READ
           (fresh AVIO_FLAG_READ));
    [vm_compute; reflexivity | vm_compute; reflexivity | vm_compute; reflexivity
    | vm_compute; discriminate].
Defined.

(** A system on which the socket is always ready, a datagram of three
    bytes is waiting, and every byte given is sent. *)
Definition sim_io : IO :=
  mk_IO (fun _ _ _ => 0)
        (fun _ _ _ => RecvData [Byte.x01; Byte.x02; Byte.x03])
        (fun _ _ buf _ _ => SendDone (N.of_nat (List.length buf)))
        (fun _ _ buf => SendDone (N.of_nat (List.length buf))).

(** [udp_read_result] on a session opened for reading. *)
Lemma udp_read_result_witness :
  let h := w_h (opened_by sim_os group_url AVIO_FLAG_READ) in
  let size := 1472 in
  let tr := [] in
  let ret := 3 in
  let data := [Byte.x01; Byte.x02; Byte.x03] in
  let tr' := snd (udp_read sim_io h size tr) in
  udp_read sim_io h size tr = (ret, data, tr') /\
  let fd := udp_fd (priv_data h) in
  (ret < 0 -> data = []) /\
  (0 <= ret ->
   ret = Z.of_nat (List.length data) /\
   exists pre, tr' = pre ++ [ERecv fd size (RecvData data)]) /\
  if has_flag (flags h) AVIO_FLAG_NONBLOCK
  then exists r, tr' = tr ++ [ERecv fd size r]
  else exists wr,
      (wr < 0 /\ ret = wr /\ tr' = tr ++ [EWaitFd fd 0 wr]) \/
      (0 <= wr /\ exists r, tr' = tr ++ [EWaitFd fd 0 wr; ERecv fd size r]).
Proof.
  cbv zeta. split; [vm_compute; reflexivity|].
  apply (udp_read_result sim_io
           (w_h (opened_by sim_os group_url AVIO_FLAG_READ)) 1472 []).
  vm_compute; reflexivity.
Defined.

(** [open_socket_after_destination] on a unicast destination. *)
Lemma open_socket_after_destination_witness :
  let uri := host_url in
  let fl := AVIO_FLAG_WRITE in
  let w := fresh AVIO_FLAG_WRITE in
  let o := Done 0 in
  let w' := opened_by sim_os uri fl in
  udp_open sim_os uri fl w = (o, w') /\
  null_host uri = false /\
  created (calls w w') <> [] /\
  let s' := priv_data (w_h w') in
  exists ai ais,
    In (EGetaddrinfo (node_of (Some (fst (av_url_split 256 uri))))
          (service_of (snd (av_url_split 256 uri))) SOCK_DGRAM AF_UNSPEC 0
          (ai :: ais)) (calls w w') /\
    dest_addr s' = ai_addr ai /\ dest_addr_len s' = ai_addrlen ai /\
    is_multicast s' = ff_is_multicast_address (ai_addr ai).
Proof.
  cbv zeta. split; [vm_compute; reflexivity|]. split; [vm_compute; reflexivity|].
  split; [vm_compute; discriminate|].
  apply (open_socket_after_destination sim_os host_url AVIO_FLAG_WRITE
           (fresh AVIO_FLAG_WRITE) (Done 0));
    [vm_compute; reflexivity | vm_compute; reflexivity | vm_compute; discriminate].
Defined.

(** [open_then_write] on a unicast destination: seven bytes sent with
    [sendto]. *)
Lemma open_then_write_witness :
  let net := sim_io in
  let uri := host_url in
  let fl := AVIO_FLAG_WRITE in
  let w := fresh AVIO_FLAG_WRITE in
  let w' := opened_by sim_os uri fl in
  let buf := [Byte.x47; Byte.x00; Byte.x11; Byte.x10; Byte.x00; Byte.x00; Byte.xff] in
  let tr := [] in
  let ret := 7 in
  let tr' := snd (udp_write net (w_h w') buf tr) in
  udp_open sim_os uri fl w = (Done 0, w') /\
  null_host uri = false /\
  udp_write net (w_h w') buf tr = (ret, tr') /\
  let s' := priv_data (w_h w') in
  let fd := udp_get_file_handle (w_h w') in
  created (calls w w') = [fd] /\
  exists ai ais,
    In (EGetaddrinfo (node_of (Some (fst (av_url_split 256 uri))))
          (service_of (snd (av_url_split 256 uri))) SOCK_DGRAM AF_UNSPEC 0
          (ai :: ais)) (calls w w') /\
    ((has_flag (flags (w_h w)) AVIO_FLAG_NONBLOCK = false /\ ret < 0 /\
      tr' = tr ++ [EWaitFd fd 1 ret]) \/
     (exists r,
        ret = send_ret r /\
        tr' = tr
              ++ (if has_flag (flags (w_h w)) AVIO_FLAG_NONBLOCK then []
                  else [EWaitFd fd 1 (io_wait_fd net tr fd 1)])
              ++ [if C.truthy (is_connected s') then ESend fd buf r
                  else ESendto fd buf (ai_addr ai) (ai_addrlen ai) r])).
Proof.
  cbv zeta. split; [vm_compute; reflexivity|]. split; [vm_compute; reflexivity|].
  split; [vm_compute; reflexivity|].
  apply (open_then_write sim_os sim_io host_url AVIO_FLAG_WRITE
           (fresh AVIO_FLAG_WRITE));
    vm_compute; reflexivity.
Defined.
End Examples.
